(** * The buse block-volume driver and the two openstorage REST servers

    A shallow embedding of
      - package [buse] (the NBD-backed block volume driver),
      - package [server], file docker.go (the volume-plugin protocol server
        with its scale-up attach), and
      - package [server], file volume.go (the native volume API server),
    followed by the properties of the specification that were checked
    against them.

    Conventions of the embedding.
      - A Go function that touches the process or the outside world is a
        state-passing function in the monad [M]; a Go run-time panic (index
        out of range, nil dereference) is the outcome [Panicked].
      - A Go [error] is a value of the type [error]; [nil] is [None].
      - A Go slice that the code compares with [nil] is an
        [option (list _)], [None] being the nil slice.
      - Calls that leave the process (files, the NBD device, the kernel, the
        key-value store) are recorded in the [trace] of the world, and
        whether they fail is decided by the environment [Externals].
      - Logging is not modelled.  The pointer fields [Locator] and [Spec]
        of a volume record are taken to be non-nil. *)

From stdpp Require Import gmap strings list fin_maps pretty.
From Stdlib Require Import ZArith Lia Ascii String.

Local Open Scope string_scope.
Local Open Scope Z_scope.

(** ** Errors *)

(** [error] values.  The first three are the sentinel errors of package
    [volume]; [Errorf] is a value built by [fmt.Errorf], kept as its format
    and arguments; [ErrNotFound] and [ErrExist] are what the key-value store
    answers for an absent or a duplicate key; [ExtError] is any error
    reported by the operating system or an external tool. *)
Inductive error : Type :=
| ErrNotSupported
| ErrVolAttachedOnRemoteNode
| ErrVolAttachedScale
| ErrNotFound
| ErrExist
| Errorf (format : string) (args : list fmtarg)
| ExtError (msg : string)
with fmtarg : Type :=
| AString (s : string)
| AError (e : error)
| ANum (n : Z).

(** ** Data model (package api) *)

(** [api.FSType] and [api.DriverType] are protobuf enumerations, whose zero
    value is the NONE member. *)
Definition FSType := Z.
Definition FSType_FS_TYPE_NONE : FSType := 0.

Inductive DriverType := DriverType_DRIVER_TYPE_NONE | DriverType_DRIVER_TYPE_FILE
                      | DriverType_DRIVER_TYPE_BLOCK | DriverType_DRIVER_TYPE_OBJECT
                      | DriverType_DRIVER_TYPE_CLUSTERED | DriverType_DRIVER_TYPE_GRAPH.

Inductive VolumeStatus := VolumeStatus_VOLUME_STATUS_NONE | VolumeStatus_VOLUME_STATUS_UP.

Record VolumeLocator := mkLocator {
  Name : string;
  VolumeLabels : gmap string string }.

Record Source := mkSource { Parent : string }.

(** [Size] is a uint64 and [Scale] a uint32. *)
Record VolumeSpec := mkSpec {
  Size : Z;
  Format : FSType;
  Scale : Z;
  SpecLabels : gmap string string }.

Record Volume := mkVolume {
  Id : string;
  Locator : VolumeLocator;
  VSource : option Source;
  Spec : VolumeSpec;
  VFormat : FSType;
  Status : VolumeStatus;
  DevicePath : string;
  AttachPath : option (list string) }.

Definition set_DevicePath (dev : string) (v : Volume) : Volume :=
  mkVolume (Id v) (Locator v) (VSource v) (Spec v) (VFormat v) (Status v) dev (AttachPath v).

Definition set_AttachPath (ap : option (list string)) (v : Volume) : Volume :=
  mkVolume (Id v) (Locator v) (VSource v) (Spec v) (VFormat v) (Status v) (DevicePath v) ap.

Definition set_Locator (l : VolumeLocator) (v : Volume) : Volume :=
  mkVolume (Id v) l (VSource v) (Spec v) (VFormat v) (Status v) (DevicePath v) (AttachPath v).

(** [api.Stats], [api.Alerts] and [api.ActiveRequests]: telemetry records. *)
Record Stats := mkStats { Reads : Z; Writes : Z }.
Record Alerts := mkAlerts { Alert : list string }.
Record ActiveRequests := mkActiveRequests { RequestCount : Z }.

(** [len] of a slice; the nil slice has length 0. *)
Definition len {A} (s : option (list A)) : nat :=
  match s with None => O | Some l => List.length l end.

(** ** The monad of state-passing code that may panic *)

Inductive outcome (S A : Type) : Type :=
| Done (a : A) (s : S)
| Panicked (s : S).
Arguments Done {S A} a s.
Arguments Panicked {S A} s.

Definition M (S A : Type) : Type := S -> outcome S A.

Definition ret {S A} (a : A) : M S A := fun s => Done a s.

Definition bind {S A B} (m : M S A) (k : A -> M S B) : M S B :=
  fun s => match m s with
           | Done a s' => k a s'
           | Panicked s' => Panicked s'
           end.

Definition panic {S A} : M S A := fun s => Panicked s.

Definition modify {S} (f : S -> S) : M S unit := fun s => Done tt (f s).

Definition gets {S A} (f : S -> A) : M S A := fun s => Done (f s) s.

Declare Scope go_scope.
Delimit Scope go_scope with go.
Notation "x <- m ;; k" := (bind m (fun x => k))
  (at level 63, m at next level, right associativity) : go_scope.
Notation "m ;;; k" := (bind m (fun _ => k))
  (at level 63, right associativity) : go_scope.
Local Open Scope go_scope.

(** The final state and the returned value of a run. *)
Definition final {S A} (o : outcome S A) : S :=
  match o with Done _ s => s | Panicked s => s end.

Definition value {S A} (o : outcome S A) : option A :=
  match o with Done a _ => Some a | Panicked _ => None end.

(** ** The world of the buse driver *)

(** A file: its bytes and its permission bits. *)
Record File := mkFile { data : list Z; mode : Z }.

(** [buseDev]: the backing file, the handle open on it (identified by the
    path it was opened with) and the size the NBD object was created with. *)
Record buseDev := mkBuseDev { file : string; f : string; nbd : Z }.

(** Calls that leave the process. *)
Inductive ExtCall : Type :=
| OsCreate (path : string)
| OsOpen (path : string)
| OsStat (path : string)
| OsChmod (path : string) (m : Z)
| OsRemove (path : string)
| OsMkdirAll (path : string) (m : Z)
| FileTruncate (path : string) (size : Z)
| FileClose (path : string)
| IoCopy (dst src : string)
| NbdConnect (backing : string) (size : Z)
| NbdDisconnect (backing : string)
| ExecCommand (cmd arg : string)
| SyscallMount (src target fstype : string)
| SyscallUnmount (target : string)
| KvCreate (key : string)
| KvPut (key : string)
| KvDelete (key : string).

Record World := mkWorld {
  store : gmap string Volume;          (* the external metadata store *)
  buseDevices : gmap string buseDev;   (* driver.buseDevices *)
  fs : gmap string File;               (* the files under BuseMountPath *)
  trace : list ExtCall;                (* external calls made so far, oldest first *)
  nuuid : nat }.                       (* how many identifiers uuid.New has handed out *)

Definition set_store (g : gmap string Volume -> gmap string Volume) (w : World) : World :=
  mkWorld (g (store w)) (buseDevices w) (fs w) (trace w) (nuuid w).
Definition set_buseDevices (g : gmap string buseDev -> gmap string buseDev) (w : World) : World :=
  mkWorld (store w) (g (buseDevices w)) (fs w) (trace w) (nuuid w).
Definition set_fs (g : gmap string File -> gmap string File) (w : World) : World :=
  mkWorld (store w) (buseDevices w) (g (fs w)) (trace w) (nuuid w).
Definition record_call (c : ExtCall) (w : World) : World :=
  mkWorld (store w) (buseDevices w) (fs w) (trace w ++ [c]) (nuuid w).
Definition bump_uuid (w : World) : World :=
  mkWorld (store w) (buseDevices w) (fs w) (trace w) (S (nuuid w)).

(** Library functions the code calls and that are not part of this
    repository's sources. *)
Record GoLib := mkGoLib {
  (* path.Join of two elements *)
  path_Join : string -> string -> string;
  (* error.Error *)
  err_text : error -> string;
  (* api.FSType.SimpleString *)
  SimpleString : FSType -> string }.

(** The behaviour of the environment of the buse driver. *)
Record Externals := mkExternals {
  (* uuid.New: the n-th identifier handed out *)
  uuid_New : nat -> string;
  (* whether an external call fails in a given world, and with what error *)
  fault : ExtCall -> World -> option error;
  (* the device path NBD.Connect answers *)
  nbd_dev : World -> string;
  (* the process umask applied by os.Create *)
  umask : Z;
  (* the writes an external call makes on the block device it works on,
     each an offset and the bytes written there, in order *)
  dev_writes : ExtCall -> World -> list (Z * list Z) }.

(** Results of the Go shape [(T, error)] in which the value is meaningful
    only when the error is nil. *)
Inductive res (A : Type) : Type :=
| Ok (a : A)
| Err (e : error).
Arguments Ok {A} a.
Arguments Err {A} e.

(** ** Small library functions *)

Definition newline : string := String "010"%char EmptyString.

(** [strings.TrimSuffix] *)
Definition TrimSuffix (s suffix : string) : string :=
  let n := (String.length s - String.length suffix)%nat in
  if ((String.length suffix <=? String.length s)%nat
      && String.eqb (substring n (String.length suffix) s) suffix)%bool
  then substring 0 n s else s.

(** The conversion [int64(x)] of a uint64. *)
Definition to_int64 (x : Z) : Z :=
  if x <? 2 ^ 63 then x else x - 2 ^ 64.

(** [hasSubset]: every label of [sub] is a label of [m]. *)
Definition hasSubset (m sub : gmap string string) : bool :=
  bool_decide (map_Forall (fun k x => m !! k = Some x) sub).

(** ** Slices *)

(** [s[i]] and [s[i] = x]; both panic when [i] is out of range. *)
Definition index {S A} (s : option (list A)) (i : nat) : M S A :=
  match s with
  | None => panic
  | Some l => match l !! i with Some x => ret x | None => panic end
  end.

Definition store_index {S A} (s : option (list A)) (i : nat) (x : A)
    : M S (option (list A)) :=
  match s with
  | None => panic
  | Some l => if (i <? List.length l)%nat then ret (Some (<[i:=x]> l)) else panic
  end.

(** ** Package buse *)

Module buse.

Definition Name_ : string := "buse".
Definition Type_ : DriverType := DriverType_DRIVER_TYPE_BLOCK.
Definition BuseMountPath : string := "/var/lib/openstorage/buse/".

Section Driver.

Variable L : GoLib.
Variable X : Externals.

(** An external call: it is written to the trace, and the environment says
    whether it failed. *)
Definition ext (c : ExtCall) : M World (option error) :=
  fun w => Done (fault X c w) (record_call c w).

(** [File.WriteAt(b, off)] on the bytes of a file: a negative offset is
    refused, a write past the end extends the file with zeros. *)
Definition write_at (b : list Z) (off : Z) (d : list Z) : list Z :=
  if off <? 0 then d
  else (resize (Z.to_nat off) 0 d ++ b ++ drop (Z.to_nat off + List.length b) d)%list.

(** A sequence of writes, the oldest first. *)
Definition apply_writes (l : list (Z * list Z)) (d : list Z) : list Z :=
  foldl (fun d' x => write_at (snd x) (fst x) d') d l.

(** [buseDev.WriteAt]: the write goes to the backing file, through the
    handle the device holds. *)
Definition WriteAt (d : buseDev) (b : list Z) (off : Z) (w : World) : World :=
  set_fs (fun m =>
    match m !! f d with
    | Some fl => <[f d := mkFile (write_at b off (data fl)) (mode fl)]> m
    | None => m
    end) w.

(** The world after an external call that works on a block device.  The
    NBD server, which is not among the sources, hands every write on the
    device to [WriteAt] of the [buseDev] that serves it; a device that no
    [buseDev] serves takes no write. *)
Definition after_dev (c : ExtCall) (served : option buseDev) (w : World) : World :=
  match served with
  | Some d => foldl (fun w' x => WriteAt d (snd x) (fst x) w') (record_call c w)
                (dev_writes X c w)
  | None => record_call c w
  end.

Definition ext_dev (c : ExtCall) (served : option buseDev) : M World (option error) :=
  fun w => Done (fault X c w) (after_dev c served w).

(** *** The store enumerator the driver embeds *)

(** Modelled from the spec: [volume.StoreEnumerator] (package common) is not
    among the sources.  The store is the single catalogue of volume records,
    keyed by volume identifier; a record is created, updated and deleted
    through it, and an unknown identifier is answered with NotFound. *)
Definition GetVol (volumeID : string) : M World (res Volume) :=
  fun w => match store w !! volumeID with
           | Some v => Done (Ok v) w
           | None => Done (Err ErrNotFound) w
           end.

(** Modelled from the spec: see [GetVol]. *)
Definition CreateVol (v : Volume) : M World (option error) :=
  e <- ext (KvCreate (Id v)) ;;
  match e with
  | Some e => ret (Some e)
  | None =>
      st <- gets store ;;
      match st !! Id v with
      | Some _ => ret (Some ErrExist)
      | None => modify (set_store (insert (Id v) v)) ;;; ret None
      end
  end.

(** Modelled from the spec: see [GetVol]. *)
Definition UpdateVol (v : Volume) : M World (option error) :=
  e <- ext (KvPut (Id v)) ;;
  match e with
  | Some e => ret (Some e)
  | None => modify (set_store (insert (Id v) v)) ;;; ret None
  end.

(** Modelled from the spec: see [GetVol]. *)
Definition DeleteVol (volumeID : string) : M World (option error) :=
  e <- ext (KvDelete volumeID) ;;
  match e with
  | Some e => ret (Some e)
  | None =>
      st <- gets store ;;
      match st !! volumeID with
      | None => ret (Some ErrNotFound)
      | Some _ => modify (set_store (delete volumeID)) ;;; ret None
      end
  end.

Fixpoint lookup_all (st : gmap string Volume) (ids : list string)
    : list Volume * option error :=
  match ids with
  | [] => ([], None)
  | id :: ids' =>
      match st !! id with
      | None => ([], Some ErrNotFound)
      | Some v =>
          match lookup_all st ids' with
          | (vs, None) => (v :: vs, None)
          | (_, Some e) => ([], Some e)
          end
      end
  end.

(** Modelled from the spec: see [GetVol]; inspecting an unknown identifier
    is NotFound. *)
Definition Inspect (ids : list string) : M World (list Volume * option error) :=
  fun w => Done (lookup_all (store w) ids) w.

Definition matches (locator : option VolumeLocator) (labels : gmap string string)
    (v : Volume) : bool :=
  match locator with
  | None => hasSubset (SpecLabels (Spec v)) labels
  | Some l =>
      (String.eqb (Name l) "" || String.eqb (Name (Locator v)) (Name l))
      && hasSubset (VolumeLabels (Locator v)) (VolumeLabels l)
      && hasSubset (SpecLabels (Spec v)) labels
  end.

(** Modelled from the spec: see [GetVol]; the records are filtered by the
    locator's name and labels and by the configuration labels. *)
Definition Enumerate (locator : option VolumeLocator) (labels : gmap string string)
    : M World (list Volume * option error) :=
  fun w => Done (filter (fun v => matches locator labels v = true)
                        (snd <$> map_to_list (store w)), None) w.

Definition is_snap_of (ids : option (list string)) (v : Volume) : bool :=
  match VSource v with
  | None => false
  | Some src =>
      match ids with
      | None => negb (String.eqb (Parent src) "")
      | Some l => bool_decide (Parent src ∈ l)
      end
  end.

(** Modelled from the spec: see [GetVol]; the snapshots are the records with
    a parent, filtered by parent identifier and labels. *)
Definition SnapEnumerate (ids : option (list string)) (labels : gmap string string)
    : M World (list Volume * option error) :=
  fun w => Done (filter (fun v => (is_snap_of ids v
                                    && hasSubset (VolumeLabels (Locator v)) labels) = true)
                        (snd <$> map_to_list (store w)), None) w.

(** Modelled from the spec: [common.NewVolume] is not among the sources; the
    new record carries the identifier, locator, source, spec and format it is
    given, no device path and no attach path, and its status is NONE until
    an initialization of the driver marks it UP. *)
Definition NewVolume (volumeID : string) (fsType : FSType) (locator : VolumeLocator)
    (source : option Source) (spec : VolumeSpec) : Volume :=
  mkVolume volumeID locator source spec fsType VolumeStatus_VOLUME_STATUS_NONE "" None.

(** *** Files *)

(** [os.Create]: an existing file is truncated and keeps its mode, a new one
    gets mode 0666 less the umask. *)
Definition os_Create (path : string) : M World (option error) :=
  e <- ext (OsCreate path) ;;
  match e with
  | Some e => ret (Some e)
  | None =>
      modify (set_fs (fun m =>
        <[path := mkFile [] (match m !! path with
                             | Some fl => mode fl
                             | None => Z.ldiff 438 (umask X)
                             end)]> m)) ;;;
      ret None
  end.

(** [File.Truncate]: a negative size is refused. *)
Definition file_Truncate (path : string) (size : Z) : M World (option error) :=
  e <- ext (FileTruncate path size) ;;
  match e with
  | Some e => ret (Some e)
  | None =>
      if size <? 0 then ret (Some (ExtError "invalid argument"))
      else
        modify (set_fs (fun m =>
          match m !! path with
          | Some fl => <[path := mkFile (resize (Z.to_nat size) 0 (data fl)) (mode fl)]> m
          | None => m
          end)) ;;;
        ret None
  end.

(** [os.Remove], whose result the driver drops. *)
Definition os_Remove (path : string) : M World unit :=
  e <- ext (OsRemove path) ;;
  match e with
  | Some _ => ret tt
  | None => modify (set_fs (delete path))
  end.

(** [os.Open] *)
Definition os_Open (path : string) : M World (option error) :=
  e <- ext (OsOpen path) ;;
  match e with
  | Some e => ret (Some e)
  | None =>
      m <- gets fs ;;
      match m !! path with
      | Some _ => ret None
      | None => ret (Some (ExtError "no such file or directory"))
      end
  end.

(** [io.Copy(dst, src)] on two open files: on success the destination holds
    the bytes of the source. *)
Definition io_Copy (dst src : string) : M World (option error) :=
  e <- ext (IoCopy dst src) ;;
  match e with
  | Some e => ret (Some e)
  | None =>
      modify (set_fs (fun m =>
        match m !! src, m !! dst with
        | Some sf, Some df => <[dst := mkFile (data sf) (mode df)]> m
        | _, _ => m
        end)) ;;;
      ret None
  end.

(** [os.Stat]: the mode of the file. *)
Definition os_Stat (path : string) : M World (res Z) :=
  e <- ext (OsStat path) ;;
  match e with
  | Some e => ret (Err e)
  | None =>
      m <- gets fs ;;
      match m !! path with
      | Some fl => ret (Ok (mode fl))
      | None => ret (Err (ExtError "no such file or directory"))
      end
  end.

(** [os.Chmod] *)
Definition os_Chmod (path : string) (md : Z) : M World (option error) :=
  e <- ext (OsChmod path md) ;;
  match e with
  | Some e => ret (Some e)
  | None =>
      modify (set_fs (fun m =>
        match m !! path with
        | Some fl => <[path := mkFile (data fl) md]> m
        | None => m
        end)) ;;;
      ret None
  end.

(** [copyFile].  The [err] of the [os.Stat] line is a new variable of the
    inner block: the function returns the error of [io.Copy].  The chmod is
    guarded by [err != nil], that is by a failed stat, whose [sourceinfo] is
    nil: calling [Mode] on it panics.  The deferred closes run on every way
    out. *)
Definition copyFile (source dest : string) : M World (option error) :=
  e <- os_Open source ;;
  match e with
  | Some e => ret (Some e)
  | None =>
      e <- os_Create dest ;;
      match e with
      | Some e => ext (FileClose source) ;;; ret (Some e)
      | None =>
          err <- io_Copy dest source ;;
          match err with
          | Some e =>
              ext (FileClose dest) ;;; ext (FileClose source) ;;; ret (Some e)
          | None =>
              r <- os_Stat source ;;
              match r with
              | Ok _ =>
                  ext (FileClose dest) ;;; ext (FileClose source) ;;; ret None
              | Err _ =>
                  ext (FileClose dest) ;;; ext (FileClose source) ;;; panic
              end
          end
      end
  end.

(** *** The volume driver interface of buse *)

Definition Create (locator : VolumeLocator) (source : option Source) (spec : VolumeSpec)
    : M World (string * option error) :=
  n <- gets nuuid ;;
  modify bump_uuid ;;;
  let volumeID := TrimSuffix (uuid_New X n) newline in
  if Size spec =? 0 then
    ret ("", Some (Errorf "Volume size cannot be zero" [AString "buse"]))
  else if Format spec =? FSType_FS_TYPE_NONE then
    ret ("", Some (Errorf "Missing volume format" [AString "buse"]))
  else
    (* Create a file on the local buse path with this UUID. *)
    let buseFile := path_Join L BuseMountPath volumeID in
    e <- os_Create buseFile ;;
    match e with
    | Some e => ret ("", Some e)
    | None =>
        e <- file_Truncate buseFile (to_int64 (Size spec)) ;;
        match e with
        | Some e => ret ("", Some e)
        | None =>
            let bd := mkBuseDev buseFile buseFile (to_int64 (Size spec)) in
            dev <- gets (nbd_dev X) ;;
            e <- ext (NbdConnect buseFile (to_int64 (Size spec))) ;;
            match e with
            | Some e => ret ("", Some e)
            | None =>
                let cmd := "/sbin/mkfs." +:+ SimpleString L (Format spec) in
                (* mkfs writes to the device that [bd] serves *)
                e <- ext_dev (ExecCommand cmd dev) (Some bd) ;;
                match e with
                | Some e => ret ("", Some e)
                | None =>
                    let v := set_DevicePath dev
                               (NewVolume volumeID (Format spec) locator source spec) in
                    modify (set_buseDevices (insert dev bd)) ;;;
                    err <- CreateVol v ;;
                    match err with
                    | Some e => ret ("", Some e)
                    | None => ret (Id v, err)
                    end
                end
            end
        end
    end.

Definition Delete (volumeID : string) : M World (option error) :=
  r <- GetVol volumeID ;;
  match r with
  | Err e => ret (Some e)
  | Ok v =>
      devs <- gets buseDevices ;;
      match devs !! DevicePath v with
      | None =>
          ret (Some (Errorf "Cannot locate a BUSE device for %s" [AString (DevicePath v)]))
      | Some bd =>
          (* Clean up buse block file and close the NBD connection. *)
          os_Remove (file bd) ;;;
          ext (FileClose (f bd)) ;;;
          ext (NbdDisconnect (file bd)) ;;;
          e <- DeleteVol volumeID ;;
          match e with
          | Some e => ret (Some e)
          | None => ret None
          end
      end
  end.

Definition MountedAt (mountpath : string) : M World string :=
  ret "".

Definition Mount (volumeID mountpath : string) : M World (option error) :=
  r <- GetVol volumeID ;;
  match r with
  | Err _ => ret (Some (Errorf "Failed to locate volume %q" [AString volumeID]))
  | Ok v =>
      if ((0 <? len (AttachPath v))%nat && (0 <? len (AttachPath v))%nat)%bool then
        p <- index (AttachPath v) 0 ;;
        ret (Some (Errorf "Volume %q already mounted at %q" [AString p]))
      else
        (* the kernel works on the device, so on the [buseDev] registered for it *)
        devs <- gets buseDevices ;;
        e <- ext_dev (SyscallMount (DevicePath v) mountpath (SimpleString L (Format (Spec v))))
               (devs !! DevicePath v) ;;
        match e with
        | Some e =>
            ret (Some (Errorf "Failed to mount %v at %v: %v"
                         [AString (DevicePath v); AString mountpath; AError e]))
        | None =>
            let ap := match AttachPath v with
                      | None => Some [""]          (* make([]string, 1) *)
                      | Some l => Some l
                      end in
            ap' <- store_index ap 0 mountpath ;;
            UpdateVol (set_AttachPath ap' v)
        end
  end.

Definition Unmount (volumeID mountpath : string) : M World (option error) :=
  r <- GetVol volumeID ;;
  match r with
  | Err e => ret (Some e)
  | Ok v =>
      if (len (AttachPath v) =? 0)%nat then
        ret (Some (Errorf "Device %v not mounted" [AString volumeID]))
      else
        p <- index (AttachPath v) 0 ;;
        if (String.length p =? 0)%nat then
          ret (Some (Errorf "Device %v not mounted" [AString volumeID]))
        else
          (* the kernel flushes to the device of the volume *)
          devs <- gets buseDevices ;;
          e <- ext_dev (SyscallUnmount p) (devs !! DevicePath v) ;;
          match e with
          | Some e => ret (Some e)
          | None => UpdateVol (set_AttachPath None v)
          end
  end.

Definition Snapshot (volumeID : string) (readonly : bool) (locator : VolumeLocator)
    : M World (string * option error) :=
  r <- Inspect [volumeID] ;;
  match r with
  | (_, Some _) => ret ("", None)
  | (vols, None) =>
      let source := mkSource volumeID in
      v0 <- index (Some vols) 0 ;;
      r <- Create locator (Some source) (Spec v0) ;;
      match r with
      | (_, Some _) => ret ("", None)
      | (newVolumeID, None) =>
          (* BUSE does not support snapshots, so just copy the block files. *)
          err <- copyFile (BuseMountPath +:+ volumeID) (BuseMountPath +:+ newVolumeID) ;;
          match err with
          | Some _ => Delete newVolumeID ;;; ret ("", None)
          | None => ret (newVolumeID, None)
          end
      end
  end.

Definition Set_ (volumeID : string) (locator : option VolumeLocator)
    (spec : option VolumeSpec) : M World (option error) :=
  match spec with
  | Some _ => ret (Some ErrNotSupported)
  | None =>
      r <- GetVol volumeID ;;
      match r with
      | Err e => ret (Some e)
      | Ok v =>
          let v := match locator with Some l => set_Locator l v | None => v end in
          UpdateVol v
      end
  end.

Definition Attach (volumeID : string) : M World (string * option error) :=
  (* Nothing to do on attach. *)
  ret (path_Join L BuseMountPath volumeID, None).

Definition Detach (volumeID : string) : M World (option error) :=
  (* Nothing to do on detach. *)
  ret None.

Definition Stats_ (volumeID : string) (cumulative : bool)
    : M World (option Stats * option error) :=
  ret (None, Some ErrNotSupported).

Definition Alerts_ (volumeID : string) : M World (option Alerts * option error) :=
  ret (None, Some ErrNotSupported).

Definition GetActiveRequests : M World (option ActiveRequests * option error) :=
  ret (None, None).

(** *** Start and stop of the driver *)

(** The loop of [Init] over the enumerated records: a record whose status
    is NONE is marked UP and written back; the result of the write is
    dropped. *)
Fixpoint mark_up (volumeInfo : list Volume) : M World unit :=
  match volumeInfo with
  | [] => ret tt
  | info :: rest =>
      match Status info with
      | VolumeStatus_VOLUME_STATUS_NONE =>
          UpdateVol (mkVolume (Id info) (Locator info) (VSource info) (Spec info)
                       (VFormat info) VolumeStatus_VOLUME_STATUS_UP (DevicePath info)
                       (AttachPath info)) ;;;
          mark_up rest
      | _ => mark_up rest
      end
  end.

(** [Init]: the new driver instance starts with an empty device registry.
    The registration with the cluster, which only adds a listener, is not
    modelled. *)
Definition Init : M World (option error) :=
  modify (set_buseDevices (fun _ => ∅)) ;;;
  e <- ext (OsMkdirAll BuseMountPath 484) ;;
  match e with
  | Some err => ret (Some err)
  | None =>
      r <- Enumerate (Some (mkLocator "" ∅)) ∅ ;;
      match r with
      | (volumeInfo, None) => mark_up volumeInfo
      | (_, Some _) => ret tt
      end ;;;
      ret None
  end.

Definition Shutdown : M World unit :=
  ext (SyscallUnmount BuseMountPath) ;;; ret tt.

End Driver.

End buse.

(** ** The volume driver interface (package volume) *)

(** [volume.VolumeDriver], over the state [S] the driver works on. *)
Record VolumeDriver (S : Type) := mkVolumeDriver {
  vd_Type : DriverType;
  vd_Create : VolumeLocator -> option Source -> VolumeSpec -> M S (string * option error);
  vd_Delete : string -> M S (option error);
  vd_MountedAt : string -> M S string;
  vd_Mount : string -> string -> M S (option error);
  vd_Unmount : string -> string -> M S (option error);
  vd_Snapshot : string -> bool -> VolumeLocator -> M S (string * option error);
  vd_Set : string -> option VolumeLocator -> option VolumeSpec -> M S (option error);
  vd_Attach : string -> M S (string * option error);
  vd_Detach : string -> M S (option error);
  vd_Stats : string -> bool -> M S (option Stats * option error);
  vd_Alerts : string -> M S (option Alerts * option error);
  vd_GetActiveRequests : M S (option ActiveRequests * option error);
  vd_Inspect : list string -> M S (list Volume * option error);
  vd_Enumerate : option VolumeLocator -> gmap string string -> M S (list Volume * option error);
  vd_SnapEnumerate : option (list string) -> gmap string string
                     -> M S (list Volume * option error) }.
Arguments mkVolumeDriver {S}.
Arguments vd_Type {S}.
Arguments vd_Create {S}.
Arguments vd_Delete {S}.
Arguments vd_MountedAt {S}.
Arguments vd_Mount {S}.
Arguments vd_Unmount {S}.
Arguments vd_Snapshot {S}.
Arguments vd_Set {S}.
Arguments vd_Attach {S}.
Arguments vd_Detach {S}.
Arguments vd_Stats {S}.
Arguments vd_Alerts {S}.
Arguments vd_GetActiveRequests {S}.
Arguments vd_Inspect {S}.
Arguments vd_Enumerate {S}.
Arguments vd_SnapEnumerate {S}.

(** The buse driver as a [VolumeDriver]. *)
Definition buse_driver (L : GoLib) (X : Externals) : VolumeDriver World :=
  mkVolumeDriver buse.Type_
    (buse.Create L X) (buse.Delete X) buse.MountedAt (buse.Mount L X) (buse.Unmount X)
    (buse.Snapshot L X) (buse.Set_ X) (buse.Attach L) buse.Detach
    buse.Stats_ buse.Alerts_ buse.GetActiveRequests
    buse.Inspect buse.Enumerate buse.SnapEnumerate.

(** ** HTTP responses *)

Record volumeInfo := mkVolumeInfo { vi_Name : string; vi_Mountpoint : string }.

(** What a handler writes to its [http.ResponseWriter]: plain text, or one
    of the JSON shapes of the two protocols. *)
Inductive Chunk : Type :=
| Text (s : string)
(* volume-plugin protocol *)
| JvolumeResponse (Err_ : string)
| JvolumePathResponse (Mountpoint Err_ : string)
| JhandshakeResp (Implements : list string)
| JVolumes (l : list volumeInfo)
| JVolumeInfo (v : volumeInfo)
| JcapabilitiesResponse (Scope : string)
(* native volume API *)
| JVolumeCreateResponse (Id_ : string) (Error : string)
| JVolumeSetResponse (vol : option Volume) (Error : option string)
| JVolumeResponse (Error : string)
| JSnapCreateResponse (Id_ : string) (Error : string)
| JVolumeList (l : list Volume)
| JStats (s : option Stats)
| JAlerts (a : option Alerts)
| JActiveRequests (a : option ActiveRequests)
| JStrings (l : list string).

(** The response writer: the status line once it is written, and the
    body. *)
Record ResponseWriter := mkRW { header : option Z; body : list Chunk }.

Definition new_writer : ResponseWriter := mkRW None [].

(** A write sends the header with status 200 unless one was sent before. *)
Definition write (c : Chunk) (w : ResponseWriter) : ResponseWriter :=
  mkRW (match header w with None => Some 200 | Some c => Some c end) (body w ++ [c]).

(** [json.NewEncoder(w).Encode(x)] *)
Definition Encode (c : Chunk) (w : ResponseWriter) : ResponseWriter := write c w.

(** [http.Error]: [WriteHeader(code)], which has no effect on a header
    already sent, then the message. *)
Definition http_Error (msg : string) (code : Z) (w : ResponseWriter) : ResponseWriter :=
  mkRW (match header w with None => Some code | Some c => Some c end) (body w ++ [Text msg]).

(** The status the client receives. *)
Definition status_code (w : ResponseWriter) : Z :=
  match header w with None => 200 | Some c => c end.

Definition StatusOK : Z := 200.
Definition StatusBadRequest : Z := 400.
Definition StatusNotFound : Z := 404.
Definition StatusInternalServerError : Z := 500.

(** Modelled from the spec: [restBase.sendError] is not among the sources;
    it answers with the given status and message. *)
Definition sendError (msg : string) (code : Z) (w : ResponseWriter) : ResponseWriter :=
  http_Error msg code w.

(** Modelled from the spec: [notFound] is not among the sources; an
    unresolvable driver name is answered with status 404. *)
Definition notFound (w : ResponseWriter) : ResponseWriter :=
  http_Error "404 page not found" StatusNotFound w.

(** What the two servers take from outside this repository's sources. *)
Record ServerEnv (S : Type) := mkServerEnv {
  (* volumedrivers.Get *)
  drivers_Get : string -> res (VolumeDriver S);
  (* spec.SpecHandler *)
  SpecFromString : string -> bool * VolumeSpec * string;
  SpecFromOpts : gmap string string -> VolumeSpec * option error;
  (* volume.MountBase, config.DataDir, volume.APIVersion *)
  MountBase : string;
  DataDir : string;
  APIVersion : string;
  (* os.MkdirAll in the server process *)
  os_MkdirAll : string -> Z -> M S unit;
  (* json.Unmarshal of a query parameter into an empty label map: what the
     map holds afterwards, which after a failure is what was stored before
     it, and the error *)
  json_labels : string -> gmap string string * option error;
  (* the names of the query parameters (package api) *)
  OptName : string;
  OptLabel : string;
  OptConfigLabel : string;
  OptVolumeID : string;
  OptCumulative : string }.
Arguments mkServerEnv {S}.
Arguments OptName {S}.
Arguments OptLabel {S}.
Arguments OptConfigLabel {S}.
Arguments OptVolumeID {S}.
Arguments OptCumulative {S}.
Arguments drivers_Get {S}.
Arguments SpecFromString {S}.
Arguments SpecFromOpts {S}.
Arguments MountBase {S}.
Arguments DataDir {S}.
Arguments APIVersion {S}.
Arguments os_MkdirAll {S}.
Arguments json_labels {S}.

(** ** Package server: the volume-plugin protocol (docker.go) *)

Module docker.

Definition VolumeDriver_ : string := "VolumeDriver".

Record volumeRequest := mkVolumeRequest { Name_ : string; Opts : gmap string string }.
Record mountRequest := mkMountRequest { mName : string; mID : string }.

Section Server.

Context {S : Type}.
Variable L : GoLib.
Variable E : ServerEnv S.
(* restBase.name and restBase.version *)
Variable name : string.
Variable version : string.

Definition volNotFound (request id : string) (e : error) : error :=
  Errorf ("Failed to locate volume: " +:+ err_text L e) [].

Definition volNotMounted (request id : string) : error :=
  Errorf "volume not mounted" [].

Definition emptyResponse (w : ResponseWriter) : ResponseWriter :=
  Encode (JvolumeResponse "") w.

Definition errorResponse (w : ResponseWriter) (err : error) : ResponseWriter :=
  Encode (JvolumeResponse (err_text L err)) w.

Definition volFromName (nm : string) : M S (res Volume) :=
  match drivers_Get E name with
  | Err err =>
      ret (Err (Errorf "Cannot locate volume driver for %s: %s"
                  [AString name; AString (err_text L err)]))
  | Ok v =>
      r <- vd_Inspect v [nm] ;;
      match r with
      | ([v0], None) => ret (Ok v0)
      | _ =>
          r <- vd_Enumerate v (Some (mkLocator nm ∅)) ∅ ;;
          match r with
          | ([v0], None) => ret (Ok v0)
          | _ => ret (Err (Errorf "Cannot locate volume %s" [AString nm]))
          end
      end
  end.

(** [decode] and [decodeMount]: the request body comes as the result of the
    JSON decoder. *)
Definition decode {A} (method : string) (w : ResponseWriter) (r : res A)
    : ResponseWriter * res A :=
  match r with
  | Err err =>
      let e := Errorf "Unable to decode JSON payload" [] in
      (sendError (err_text L e +:+ ":" +:+ err_text L err) StatusBadRequest w, Err e)
  | Ok request => (w, Ok request)
  end.

Definition decodeMount (method : string) (w : ResponseWriter) (r : res mountRequest)
    : ResponseWriter * res mountRequest :=
  decode method w r.

Definition handshake (w : ResponseWriter) : ResponseWriter :=
  Encode (JhandshakeResp [VolumeDriver_]) w.

Definition status (w : ResponseWriter) : ResponseWriter :=
  write (Text ("osd plugin " +:+ version +:+ newline)) w.

Definition mountpath (nm : string) : string :=
  path_Join L (MountBase E) nm.

Definition create (w : ResponseWriter) (r : res volumeRequest) : M S ResponseWriter :=
  let method := "create" in
  match decode method w r with
  | (w, Err _) => ret w
  | (w, Ok request) =>
      let '(specParsed, spec, nm) := SpecFromString E (Name_ request) in
      (* If we fail to find the volume, create it. *)
      r <- volFromName nm ;;
      match r with
      | Ok _ => ret (Encode (JvolumeResponse "") w)
      | Err _ =>
          match drivers_Get E name with
          | Err err => ret (errorResponse w err)
          | Ok v =>
              let sp := if specParsed then (spec, None) else SpecFromOpts E (Opts request) in
              match sp with
              | (_, Some err) => ret (errorResponse w err)
              | (spec, None) =>
                  r <- vd_Create v (mkLocator nm ∅) None spec ;;
                  match r with
                  | (_, Some err) => ret (errorResponse w err)
                  | (_, None) => ret (Encode (JvolumeResponse "") w)
                  end
              end
          end
      end
  end.

Definition remove (w : ResponseWriter) (r : res volumeRequest) : M S ResponseWriter :=
  let method := "remove" in
  match decode method w r with
  | (w, Err _) => ret w
  | (w, Ok request) =>
      match drivers_Get E name with
      | Err err => ret (errorResponse w err)
      | Ok v =>
          let '(_, _, nm) := SpecFromString E (Name_ request) in
          e <- vd_Delete v nm ;;
          match e with
          | Some err => ret (errorResponse w err)
          | None => ret (Encode (JvolumeResponse "") w)
          end
      end
  end.

(** The loop of [scaleUp]: [n] replica indices are left to try, starting
    with [i]. *)
Fixpoint scaleUp_from (n : nat) (i : Z) (vd : VolumeDriver S) (inVol : Volume)
    : M S (Volume * option error) :=
  match n with
  | O => ret (inVol, Some ErrVolAttachedScale)
  | Datatypes.S n' =>
      let nm := Name (Locator inVol) +:+ "_" +:+ pretty i in
      r <- volFromName nm ;;
      r <- match r with
           | Ok outVol => ret (Ok outVol)
           | Err _ =>
               (* If we fail to locate the volume, create it. *)
               c <- vd_Create vd (mkLocator nm ∅) None (Spec inVol) ;;
               match c with
               | (_, Some err) => ret (Err err)
               | (id, None) => volFromName id
               end
           end ;;
      match r with
      | Err err => ret (inVol, Some err)
      | Ok outVol =>
          (* If we fail to attach the volume, continue to look for a
             free volume. *)
          a <- vd_Attach vd (Id outVol) ;;
          match a with
          | (_, None) => ret (outVol, None)
          | (_, Some _) => scaleUp_from n' (i + 1) vd inVol
          end
      end
  end.

(** [scaleUp]: [for i := uint32(1); i < inVol.Spec.Scale; i++]. *)
Definition scaleUp (method : string) (vd : VolumeDriver S) (inVol : Volume)
    : M S (Volume * option error) :=
  scaleUp_from (Z.to_nat (Scale (Spec inVol) - 1)) 1 vd inVol.

Definition attachVol (method : string) (vd : VolumeDriver S) (vol : Volume)
    : M S (Volume * option error) :=
  a <- vd_Attach vd (Id vol) ;;
  match a with
  | (_, None) => ret (vol, None)
  | (_, Some ErrVolAttachedOnRemoteNode) => ret (vol, None)
  | (_, Some ErrVolAttachedScale) =>
      if 1 <? Scale (Spec vol) then scaleUp method vd vol
      else ret (vol, Some ErrVolAttachedScale)
  | (_, Some err) => ret (vol, Some err)
  end.

Definition mount (w : ResponseWriter) (r : res mountRequest) : M S ResponseWriter :=
  let method := "mount" in
  match drivers_Get E name with
  | Err err => ret (errorResponse w err)
  | Ok v =>
      match decodeMount method w r with
      | (w, Err err) => ret (errorResponse w err)
      | (w, Ok request) =>
          let '(_, _, nm) := SpecFromString E (mName request) in
          r <- volFromName nm ;;
          match r with
          | Err err => ret (errorResponse w err)
          | Ok vol =>
              (* If this is a block driver, first attach the volume. *)
              a <- match vd_Type v with
                   | DriverType_DRIVER_TYPE_BLOCK => attachVol method v vol
                   | _ => ret (vol, None)
                   end ;;
              match a with
              | (_, Some err) => ret (errorResponse w err)
              | (vol, None) =>
                  (* Note that name is unchanged even if a new volume was
                     created as a result of scale up. *)
                  let mountpoint := mountpath nm in
                  os_MkdirAll E mountpoint 493 ;;;
                  e <- vd_Mount v (Id vol) mountpoint ;;
                  match e with
                  | Some err => ret (errorResponse w err)
                  | None => ret (Encode (JvolumePathResponse mountpoint "") w)
                  end
              end
          end
      end
  end.

Definition path (w : ResponseWriter) (r : res volumeRequest) : M S ResponseWriter :=
  let method := "path" in
  match decode method w r with
  | (w, Err _) => ret w
  | (w, Ok request) =>
      let '(_, _, nm) := SpecFromString E (Name_ request) in
      r <- volFromName nm ;;
      match r with
      | Err err => ret (errorResponse w (volNotFound method (Name_ request) err))
      | Ok vol =>
          if ((len (AttachPath vol) =? 0)%nat || (len (AttachPath vol) =? 0)%nat)%bool then
            ret (errorResponse w (volNotMounted method nm))
          else
            p <- index (AttachPath vol) 0 ;;
            ret (Encode (JvolumePathResponse (path_Join L p (DataDir E)) "") w)
      end
  end.

Definition list_info (v : Volume) : volumeInfo :=
  mkVolumeInfo (Name (Locator v))
    (match AttachPath v with
     | Some (p :: _) => path_Join L p (DataDir E)
     | _ => ""
     end).

Definition list (w : ResponseWriter) : M S ResponseWriter :=
  match drivers_Get E name with
  | Err err => ret (errorResponse w err)
  | Ok v =>
      r <- vd_Enumerate v None ∅ ;;
      match r with
      | (_, Some err) => ret (errorResponse w err)
      | (vols, None) => ret (Encode (JVolumes (list_info <$> vols)) w)
      end
  end.

Definition get (w : ResponseWriter) (r : res volumeRequest) : M S ResponseWriter :=
  let method := "get" in
  match decode method w r with
  | (w, Err _) => ret w
  | (w, Ok request) =>
      let '(_, _, nm) := SpecFromString E (Name_ request) in
      r <- volFromName nm ;;
      match r with
      | Err err => ret (errorResponse w (volNotFound method (Name_ request) err))
      | Ok vol =>
          ret (Encode (JVolumeInfo (mkVolumeInfo nm (vi_Mountpoint (list_info vol)))) w)
      end
  end.

Definition unmount (w : ResponseWriter) (r : res mountRequest) : M S ResponseWriter :=
  let method := "unmount" in
  match drivers_Get E name with
  | Err err => ret (errorResponse w err)
  | Ok v =>
      match decodeMount method w r with
      | (w, Err _) => ret w
      | (w, Ok request) =>
          let '(_, _, nm) := SpecFromString E (mName request) in
          r <- volFromName nm ;;
          match r with
          | Err err => ret (errorResponse w (volNotFound method nm err))
          | Ok vol =>
              let mountpoint := mountpath nm in
              r <- (if 1 <? Scale (Spec vol) then
                      id <- vd_MountedAt v mountpoint ;;
                      if (String.length id =? 0)%nat then
                        ret (Err (Errorf "Failed to find volume mapping for %v"
                                    [AString mountpoint]))
                      else ret (Ok id)
                    else ret (Ok (Id vol))) ;;
              match r with
              | Err err => ret (errorResponse w err)
              | Ok id =>
                  e <- vd_Unmount v id mountpoint ;;
                  match e with
                  | Some err => ret (errorResponse w err)
                  | None =>
                      match vd_Type v with
                      | DriverType_DRIVER_TYPE_BLOCK => vd_Detach v id ;;; ret tt
                      | _ => ret tt
                      end ;;;
                      ret (emptyResponse w)
                  end
              end
          end
      end
  end.

Definition capabilities (w : ResponseWriter) : ResponseWriter :=
  Encode (JcapabilitiesResponse "global") w.

End Server.

End docker.

(** ** Package server: the native volume API (volume.go) *)

Module volapi.

Inductive VolumeActionParam :=
| VolumeActionParam_VOLUME_ACTION_PARAM_NONE
| VolumeActionParam_VOLUME_ACTION_PARAM_OFF
| VolumeActionParam_VOLUME_ACTION_PARAM_ON.

Record VolumeStateAction := mkAction {
  aAttach : VolumeActionParam;
  aMount : VolumeActionParam;
  aMountPath : string }.

Record VolumeCreateRequest := mkCreateReq {
  cLocator : VolumeLocator;
  cSource : option Source;
  cSpec : VolumeSpec }.

Record VolumeSetRequest := mkSetReq {
  sLocator : option VolumeLocator;
  sSpec : option VolumeSpec;
  sAction : option VolumeStateAction }.

Record SnapCreateRequest := mkSnapReq {
  snId : string;
  snReadonly : bool;
  snLocator : VolumeLocator }.

(** The parts of an [http.Request] the handlers read: the route variables
    of the router and the query parameters. *)
Record Request := mkRequest {
  vars : gmap string string;
  query : gmap string (list string) }.

(** [strconv.ParseBool] *)
Definition ParseBool (str : string) : bool * option error :=
  if bool_decide (str ∈ ["1"; "t"; "T"; "TRUE"; "true"; "True"]) then (true, None)
  else if bool_decide (str ∈ ["0"; "f"; "F"; "FALSE"; "false"; "False"]) then (false, None)
  else (false, Some (ExtError "invalid syntax")).

(** [strings.Join(l, "")] *)
Definition Join (l : list string) : string := foldr String.append "" l.

Section Server.

Context {S : Type}.
Variable L : GoLib.
Variable E : ServerEnv S.
(* restBase.name *)
Variable name : string.

Definition responseStatus (err : option error) : string :=
  match err with
  | None => ""
  | Some e => err_text L e
  end.

Definition parseVolumeID (r : Request) : res string :=
  match vars r !! "id" with
  | Some id => Ok id
  | None => Err (Errorf "could not parse snap ID" [])
  end.

Definition create (w : ResponseWriter) (r : Request) (body_ : res VolumeCreateRequest)
    : M S ResponseWriter :=
  match body_ with
  | Err err => ret (sendError (err_text L err) StatusBadRequest w)
  | Ok dcReq =>
      match drivers_Get E name with
      | Err _ => ret (notFound w)
      | Ok d =>
          c <- vd_Create d (cLocator dcReq) (cSource dcReq) (cSpec dcReq) ;;
          let '(id, err) := c in
          ret (Encode (JVolumeCreateResponse id (responseStatus err)) w)
      end
  end.

(** The body of the loop of [volumeSet], which runs at most once. *)
Definition volumeSet_action (d : VolumeDriver S) (volumeID : string)
    (action : VolumeStateAction) : M S (option error) :=
  err <- match aAttach action with
         | VolumeActionParam_VOLUME_ACTION_PARAM_NONE => ret None
         | VolumeActionParam_VOLUME_ACTION_PARAM_ON =>
             a <- vd_Attach d volumeID ;; ret (snd a)
         | VolumeActionParam_VOLUME_ACTION_PARAM_OFF => vd_Detach d volumeID
         end ;;
  match err with
  | Some e => ret (Some e)
  | None =>
      match aMount action with
      | VolumeActionParam_VOLUME_ACTION_PARAM_NONE => ret None
      | VolumeActionParam_VOLUME_ACTION_PARAM_ON =>
          if String.eqb (aMountPath action) "" then
            ret (Some (Errorf "Invalid mount path" []))
          else vd_Mount d volumeID (aMountPath action)
      | VolumeActionParam_VOLUME_ACTION_PARAM_OFF =>
          vd_Unmount d volumeID (aMountPath action)
      end
  end.

(** The driver operations of [volumeSet], up to the first that fails: the
    update of locator and spec, then the action. *)
Definition volumeSet_steps (d : VolumeDriver S) (volumeID : string)
    (req : VolumeSetRequest) : M S (option error) :=
  err <- match sLocator req, sSpec req with
         | None, None => ret None
         | _, _ => vd_Set d volumeID (sLocator req) (sSpec req)
         end ;;
  match err, sAction req with
  | None, Some action => volumeSet_action d volumeID action
  | _, _ => ret err
  end.

Definition volumeSet (w : ResponseWriter) (r : Request) (body_ : res VolumeSetRequest)
    : M S ResponseWriter :=
  match body_ with
  | Err err => ret (sendError (err_text L err) StatusBadRequest w)
  | Ok req =>
      match parseVolumeID r with
      | Err err => ret (sendError (err_text L err) StatusBadRequest w)
      | Ok volumeID =>
          match drivers_Get E name with
          | Err _ => ret (notFound w)
          | Ok d =>
              err <- volumeSet_steps d volumeID req ;;
              match err with
              | Some e => ret (Encode (JVolumeSetResponse None (Some (err_text L e))) w)
              | None =>
                  i <- vd_Inspect d [volumeID] ;;
                  match i with
                  | ([v0], None) => ret (Encode (JVolumeSetResponse (Some v0) None) w)
                  | (_, Some e) =>
                      ret (Encode (JVolumeSetResponse None (Some (err_text L e))) w)
                  | (_, None) =>
                      let e := Errorf "Failed to inspect volume" [] in
                      ret (Encode (JVolumeSetResponse None (Some (err_text L e))) w)
                  end
              end
          end
      end
  end.

Definition inspect (w : ResponseWriter) (r : Request) : M S ResponseWriter :=
  match drivers_Get E name with
  | Err _ => ret (notFound w)
  | Ok d =>
      match parseVolumeID r with
      | Err err =>
          let e := Errorf "Failed to parse parse volumeID: %s" [AString (err_text L err)] in
          ret (sendError (err_text L e) StatusBadRequest w)
      | Ok volumeID =>
          i <- vd_Inspect d [volumeID] ;;
          match i with
          | (_, Some err) => ret (sendError (err_text L err) StatusNotFound w)
          | (dk, None) => ret (Encode (JVolumeList dk) w)
          end
      end
  end.

Definition delete (w : ResponseWriter) (r : Request) : M S ResponseWriter :=
  match parseVolumeID r with
  | Err err =>
      let e := Errorf "Failed to parse parse volumeID: %s" [AString (err_text L err)] in
      ret (sendError (err_text L e) StatusBadRequest w)
  | Ok volumeID =>
      match drivers_Get E name with
      | Err _ => ret (notFound w)
      | Ok d =>
          e <- vd_Delete d volumeID ;;
          ret (Encode (JVolumeResponse (match e with
                                        | Some err => err_text L err
                                        | None => ""
                                        end)) w)
      end
  end.

(** A label parameter of the query: a value that does not parse is answered
    with status 400, and the handler goes on with what the unmarshalling
    left in the map. *)
Definition label_param (method what key : string) (w : ResponseWriter) (r : Request)
    : M S (ResponseWriter * gmap string string) :=
  match query r !! key with
  | None => ret (w, ∅)
  | Some v =>
      v0 <- index (Some v) 0 ;;
      match json_labels E v0 with
      | (m, None) => ret (w, m)
      | (m, Some err) =>
          let e := Errorf ("Failed to parse parse " +:+ what +:+ ": %s")
                     [AString (err_text L err)] in
          ret (sendError (err_text L e) StatusBadRequest w, m)
      end
  end.

Definition enumerate (w : ResponseWriter) (r : Request) : M S ResponseWriter :=
  let method := "enumerate" in
  match drivers_Get E name with
  | Err _ => ret (notFound w)
  | Ok d =>
      nm <- match query r !! OptName E with
            | None => ret ""
            | Some v => index (Some v) 0
            end ;;
      p <- label_param method "VolumeLabels" (OptLabel E) w r ;;
      let '(w, labels) := p in
      p <- label_param method "configLabels" (OptConfigLabel E) w r ;;
      let '(w, configLabels) := p in
      match query r !! OptVolumeID E with
      | Some ids =>
          i <- vd_Inspect d ids ;;
          match i with
          | (_, Some err) =>
              let e := Errorf "Failed to inspect volumeID: %s" [AString (err_text L err)] in
              ret (sendError (err_text L e) StatusBadRequest w)
          | (vols, None) => ret (Encode (JVolumeList vols) w)
          end
      | None =>
          i <- vd_Enumerate d (Some (mkLocator nm labels)) configLabels ;;
          match i with
          | (_, Some err) => ret (sendError (err_text L err) StatusInternalServerError w)
          | (vols, None) => ret (Encode (JVolumeList vols) w)
          end
      end
  end.

Definition snap (w : ResponseWriter) (r : Request) (body_ : res SnapCreateRequest)
    : M S ResponseWriter :=
  match body_ with
  | Err err => ret (sendError (err_text L err) StatusBadRequest w)
  | Ok snapReq =>
      match drivers_Get E name with
      | Err _ => ret (notFound w)
      | Ok d =>
          c <- vd_Snapshot d (snId snapReq) (snReadonly snapReq) (snLocator snapReq) ;;
          let '(id, err) := c in
          ret (Encode (JSnapCreateResponse id (responseStatus err)) w)
      end
  end.

(** [ids = make([]string, len(params)); for i, s := range v { ids[i] = s }]:
    the slice has as many entries as the query has parameters. *)
Definition snap_ids (nparams : nat) (v : list string) : M S (list string) :=
  if (List.length v <=? nparams)%nat
  then ret (v ++ replicate (nparams - List.length v) "")%list
  else panic.

Definition snapEnumerate (w : ResponseWriter) (r : Request) : M S ResponseWriter :=
  let method := "snapEnumerate" in
  match drivers_Get E name with
  | Err _ => ret (notFound w)
  | Ok d =>
      p <- label_param method "VolumeLabels" (OptLabel E) w r ;;
      let '(w, labels) := p in
      ids <- match query r !! OptVolumeID E with
             | Some v => l <- snap_ids (size (query r)) v ;; ret (Some l)
             | None => ret None
             end ;;
      i <- vd_SnapEnumerate d ids labels ;;
      match i with
      | (_, Some err) =>
          let e := Errorf "Failed to enumerate snaps: %s" [AString (err_text L err)] in
          ret (sendError (err_text L e) StatusBadRequest w)
      | (snaps, None) => ret (Encode (JVolumeList snaps) w)
      end
  end.

(** [stats].  The test after [strconv.ParseBool] is on [ok], the presence of
    the parameter, which is true in that branch. *)
Definition stats (w : ResponseWriter) (r : Request) : M S ResponseWriter :=
  let method := "stats" in
  match parseVolumeID r with
  | Err err =>
      let e := Errorf "Failed to parse volumeID: %s" [AString (err_text L err)] in
      ret (sendError (err_text L e) StatusBadRequest w)
  | Ok volumeID =>
      (* By default always report /proc/diskstats style stats. *)
      let cumulative :=
        match query r !! OptCumulative E with
        | Some opt => fst (ParseBool (Join opt))
        | None => true
        end in
      match drivers_Get E name with
      | Err _ => ret (notFound w)
      | Ok d =>
          s <- vd_Stats d volumeID cumulative ;;
          match s with
          | (_, Some err) =>
              let e := Errorf "Failed to get stats: %s" [AString (err_text L err)] in
              ret (sendError (err_text L e) StatusBadRequest w)
          | (st, None) => ret (Encode (JStats st) w)
          end
      end
  end.

Definition alerts (w : ResponseWriter) (r : Request) : M S ResponseWriter :=
  let method := "alerts" in
  match parseVolumeID r with
  | Err err =>
      let e := Errorf "Failed to parse parse volumeID: %s" [AString (err_text L err)] in
      ret (sendError (err_text L e) StatusBadRequest w)
  | Ok volumeID =>
      match drivers_Get E name with
      | Err _ => ret (notFound w)
      | Ok d =>
          a <- vd_Alerts d volumeID ;;
          match a with
          | (_, Some err) =>
              let e := Errorf "Failed to get alerts: %s" [AString (err_text L err)] in
              ret (sendError (err_text L e) StatusBadRequest w)
          | (al, None) => ret (Encode (JAlerts al) w)
          end
      end
  end.

Definition requests (w : ResponseWriter) (r : Request) : M S ResponseWriter :=
  let method := "requests" in
  match drivers_Get E name with
  | Err _ => ret (notFound w)
  | Ok d =>
      a <- vd_GetActiveRequests d ;;
      match a with
      | (_, Some err) =>
          let e := Errorf "Failed to get active requests: %s" [AString (err_text L err)] in
          ret (sendError (err_text L e) StatusBadRequest w)
      | (rq, None) => ret (Encode (JActiveRequests rq) w)
      end
  end.

Definition versions (w : ResponseWriter) : ResponseWriter :=
  Encode (JStrings [APIVersion E]) w.

End Server.

End volapi.

(** ** Package db: the storage backend on a relational database

    The package keeps one database client in a variable of its own, behind a
    mutex; the calls are modelled one after the other, so the mutex does not
    appear.  [sql.Open], [rdbms.NewClient], [kv.New] and the identity
    transformer are taken from outside; the first two may answer differently
    from call to call, so they read the state. *)

Module db.

Inductive db_error : Type :=
| ErrNoDSN
(* errors.Wrapf(cause, format, args...) *)
| Wrapf (cause : db_error) (format : string) (args : list string)
| DriverError (msg : string).

Inductive DbCall : Type :=
| SqlOpen (driverName dsn : string)
| RdbmsNewClient (driverName : string).

(** The package variable [client], and the calls made so far. *)
Record State (Client : Type) := mkState {
  client : option Client;
  calls : list DbCall }.
Arguments mkState {Client}.
Arguments client {Client}.
Arguments calls {Client}.

Record Config (Codec Transformer : Type) := mkConfig {
  ServerList : list string;
  Transformer_ : option Transformer;
  Codec_ : Codec;
  Prefix : string }.
Arguments mkConfig {Codec Transformer}.
Arguments ServerList {Codec Transformer}.
Arguments Transformer_ {Codec Transformer}.
Arguments Codec_ {Codec Transformer}.
Arguments Prefix {Codec Transformer}.

Section Backend.

Context {SqlDB Client Codec Transformer Storage : Type}.
Variable sql_Open : string -> string -> State Client -> option SqlDB * option db_error.
Variable rdbms_NewClient :
  string -> option SqlDB -> State Client -> option Client * option db_error.
Variable kv_New : option Client -> Codec -> string -> Transformer -> Storage.
(* value.NewMutableTransformer(value.IdentityTransformer) *)
Variable identity_transformer : Transformer.

Definition called (c : DbCall) : M (State Client) unit :=
  modify (fun s => mkState (client s) (calls s ++ [c])).

Definition getClient (driverName dsn : string)
    : M (State Client) (option Client * option db_error) :=
  cached <- gets client ;;
  match cached with
  | Some c => ret (Some c, None)
  | None =>
      o <- gets (sql_Open driverName dsn) ;;
      called (SqlOpen driverName dsn) ;;;
      match o with
      | (_, Some err) =>
          ret (None, Some (Wrapf err "Failed to create DB(%s) connection" [driverName]))
      | (db, None) =>
          n <- gets (rdbms_NewClient driverName db) ;;
          called (RdbmsNewClient driverName) ;;;
          match n with
          | (_, Some err) => ret (None, Some err)
          | (dbClient, None) =>
              modify (fun s => mkState dbClient (calls s)) ;;;
              c <- gets client ;;
              ret (c, None)
          end
      end
  end.

(** The destroy function handed out with a storage: [func() {}]. *)
Definition destroy : M (State Client) unit := ret tt.

Definition NewRDBMSStorage (c : Config Codec Transformer)
    : M (State Client)
        (option Storage * option (M (State Client) unit) * option db_error) :=
  match ServerList c with
  | [driverName; dsn] =>
      r <- getClient driverName dsn ;;
      match r with
      | (_, Some err) => ret (None, None, Some err)
      | (dbClient, None) =>
          let transformer :=
            match Transformer_ c with
            | Some t => t
            | None => identity_transformer
            end in
          ret (Some (kv_New dbClient (Codec_ c) (Prefix c) transformer), Some destroy, None)
      end
  | _ => ret (None, None, Some ErrNoDSN)
  end.

End Backend.

End db.

(** ** A sample environment

    A concrete library, environment and world, on which the operations can
    be run. *)

Definition sample_text (e : error) : string :=
  match e with
  | ErrNotSupported => "Operation not supported"
  | ErrVolAttachedOnRemoteNode => "Volume is attached on another node"
  | ErrVolAttachedScale => "Volume is attached on another node; increase scale factor"
  | ErrNotFound => "Key not found"
  | ErrExist => "Key already exists"
  | Errorf format _ => format
  | ExtError msg => msg
  end.

Definition sample_lib : GoLib :=
  mkGoLib (fun a b => a +:+ b) sample_text (fun t => if t =? 2 then "ext4" else "xfs").

(** An environment in which no external call fails, and in which the
    formatter and the kernel write nothing to the device. *)
Definition sample_ext : Externals :=
  mkExternals (fun n => "vol-" +:+ pretty n) (fun _ _ => None)
    (fun w => "/dev/nbd" +:+ pretty (nuuid w)) 18 (fun _ _ => []).

(** An environment in which io.Copy fails and nothing else does. *)
Definition copy_fails_ext : Externals :=
  mkExternals (fun n => "vol-" +:+ pretty n)
    (fun c _ => match c with
                | IoCopy _ _ => Some (ExtError "no space left on device")
                | _ => None
                end)
    (fun w => "/dev/nbd" +:+ pretty (nuuid w)) 18 (fun _ _ => []).

Definition empty_world : World := mkWorld ∅ ∅ ∅ [] 0.

Definition sample_spec : VolumeSpec := mkSpec 4 2 1 ∅.

Definition sample_volume : Volume :=
  mkVolume "v1" (mkLocator "db" ∅) None sample_spec 2 VolumeStatus_VOLUME_STATUS_UP
    "/dev/nbd0" None.

(** A world after a restart: the record of [v1] is in the store, the device
    registry is empty. *)
Definition restarted_world : World :=
  mkWorld {[ "v1" := sample_volume ]} ∅
    {[ "/var/lib/openstorage/buse/v1" := mkFile [1; 2; 3; 4] 420 ]} [] 0.

(** The worlds a snapshot of [v1] goes through when the copy fails: after
    Create, and after copyFile. *)
Definition snapshot_w1 : World :=
  Eval vm_compute in
    final (buse.Create sample_lib copy_fails_ext (mkLocator "snap" ∅)
             (Some (mkSource "v1")) sample_spec restarted_world).

Definition snapshot_w2 : World :=
  Eval vm_compute in
    final (buse.copyFile copy_fails_ext "/var/lib/openstorage/buse/v1"
             "/var/lib/openstorage/buse/vol-0" snapshot_w1).

(** A mounted variant of the sample record and its world. *)
Definition mounted_volume : Volume := set_AttachPath (Some ["/mnt/db"]) sample_volume.

Definition mounted_world : World :=
  mkWorld {[ "v1" := mounted_volume ]} ∅ ∅ [] 0.

(** A world in which the backing file of [v1] is private to its owner
    (mode 0600). *)
Definition private_world : World :=
  mkWorld {[ "v1" := sample_volume ]} ∅
    {[ "/var/lib/openstorage/buse/v1" := mkFile [1; 2; 3; 4] 384 ]} [] 0.

(** A server in front of the buse driver. *)
Definition sample_server (d : VolumeDriver World) : ServerEnv World :=
  mkServerEnv (fun _ => Ok d)
    (fun s => (false, sample_spec, s)) (fun _ => (sample_spec, None))
    "/var/lib/osd/mounts/" "" "v1"
    (fun p m w => Done tt (record_call (OsMkdirAll p m) w))
    (fun _ => (∅, None))
    "Name" "Label" "ConfigLabel" "VolumeID" "Cumulative".

(** A driver with another Create, and a server environment whose drivers
    have another Create. *)
Definition with_Create {S} (c : VolumeLocator -> option Source -> VolumeSpec
                                -> M S (string * option error))
    (d : VolumeDriver S) : VolumeDriver S :=
  mkVolumeDriver (vd_Type d) c (vd_Delete d) (vd_MountedAt d) (vd_Mount d) (vd_Unmount d)
    (vd_Snapshot d) (vd_Set d) (vd_Attach d) (vd_Detach d) (vd_Stats d) (vd_Alerts d)
    (vd_GetActiveRequests d) (vd_Inspect d) (vd_Enumerate d) (vd_SnapEnumerate d).

Definition with_Attach {S} (a : string -> M S (string * option error))
    (d : VolumeDriver S) : VolumeDriver S :=
  mkVolumeDriver (vd_Type d) (vd_Create d) (vd_Delete d) (vd_MountedAt d) (vd_Mount d)
    (vd_Unmount d) (vd_Snapshot d) (vd_Set d) a (vd_Detach d) (vd_Stats d) (vd_Alerts d)
    (vd_GetActiveRequests d) (vd_Inspect d) (vd_Enumerate d) (vd_SnapEnumerate d).

Definition env_with_Create {S} (c : VolumeLocator -> option Source -> VolumeSpec
                                    -> M S (string * option error))
    (E : ServerEnv S) : ServerEnv S :=
  mkServerEnv
    (fun n => match drivers_Get E n with
              | Ok d => Ok (with_Create c d)
              | Err e => Err e
              end)
    (SpecFromString E) (SpecFromOpts E) (MountBase E) (DataDir E) (APIVersion E)
    (os_MkdirAll E) (json_labels E)
    (OptName E) (OptLabel E) (OptConfigLabel E) (OptVolumeID E) (OptCumulative E).

(** *** Scale-up: the step of the loop and its runs *)

(** The volume the loop of [scaleUp] tries for replica index [i]: the one
    the derived name resolves to, or else a new one created with that name
    and the spec of the logical volume. *)
Definition replica {S} (L : GoLib) (E : ServerEnv S) (name : string)
    (vd : VolumeDriver S) (inVol : Volume) (i : Z) : M S (res Volume) :=
  let nm := Name (Locator inVol) +:+ "_" +:+ pretty i in
  r <- docker.volFromName L E name nm ;;
  match r with
  | Ok outVol => ret (Ok outVol)
  | Err _ =>
      c <- vd_Create vd (mkLocator nm ∅) None (Spec inVol) ;;
      match c with
      | (_, Some err) => ret (Err err)
      | (id, None) => docker.volFromName L E name id
      end
  end.

(** [refused i k s s']: from state [s], the replicas of the [k] indices
    [i], [i+1], ... are found or created one after the other and each
    refuses the attach, which leaves state [s']. *)
Inductive refused {S} (L : GoLib) (E : ServerEnv S) (name : string)
    (vd : VolumeDriver S) (inVol : Volume) : Z -> nat -> S -> S -> Prop :=
| refused_none (i : Z) (s : S) : refused L E name vd inVol i O s s
| refused_next (i : Z) (k : nat) (s s1 s2 s3 : S) (outVol : Volume) (p : string)
    (e : error) :
    replica L E name vd inVol i s = Done (Ok outVol) s1 ->
    vd_Attach vd (Id outVol) s1 = Done (p, Some e) s2 ->
    refused L E name vd inVol (i + 1) k s2 s3 ->
    refused L E name vd inVol i (Datatypes.S k) s s3.

(** An Attach that refuses a volume that is in use, as a driver with a
    scale limit does. *)
Definition busy_Attach (volumeID : string) : M World (string * option error) :=
  fun w => match store w !! volumeID with
           | None => Done ("", Some ErrNotFound) w
           | Some v =>
               if (0 <? len (AttachPath v))%nat
               then Done ("", Some ErrVolAttachedScale) w
               else Done (DevicePath v, None) w
           end.

Definition busy_driver : VolumeDriver World :=
  with_Attach busy_Attach (buse_driver sample_lib sample_ext).

Definition scaled_volume (id : string) (ap : option (list string)) : Volume :=
  mkVolume id (mkLocator id ∅) None (mkSpec 4 2 3 ∅) 2 VolumeStatus_VOLUME_STATUS_UP
    ("/dev/" +:+ id) ap.

(** The logical volume [db] of scale 3: [db] and [db_1] are in use, [db_2]
    is free. *)
Definition scaled_world : World :=
  mkWorld {[ "db" := scaled_volume "db" (Some ["/var/lib/osd/mounts/db"]);
             "db_1" := scaled_volume "db_1" (Some ["/var/lib/osd/mounts/db"]);
             "db_2" := scaled_volume "db_2" None ]} ∅ ∅ [] 0.

(** The same with all three in use. *)
Definition exhausted_world : World :=
  mkWorld {[ "db" := scaled_volume "db" (Some ["/var/lib/osd/mounts/db"]);
             "db_1" := scaled_volume "db_1" (Some ["/var/lib/osd/mounts/db"]);
             "db_2" := scaled_volume "db_2" (Some ["/var/lib/osd/mounts/db"]) ]} ∅ ∅ [] 0.

(** *** The shape of stored records *)

(** A record is stored under its identifier, and its AttachPath is the nil
    slice or has an entry. *)
Definition record_ok (key : string) (v : Volume) : Prop :=
  Id v = key /\ AttachPath v <> Some [].

Definition store_ok (w : World) : Prop := map_Forall record_ok (store w).

(** *** Notions used by the further properties *)

(** The external calls by which Create provisions a volume. *)
Definition is_provisioning (c : ExtCall) : bool :=
  match c with
  | OsCreate _ | FileTruncate _ _ | NbdConnect _ _ | ExecCommand _ _ | KvCreate _ => true
  | _ => false
  end.

(** Two versions of a record that differ at most in locator, status and
    attach path. *)
Definition same_volume (v v' : Volume) : Prop :=
  Id v' = Id v /\ DevicePath v' = DevicePath v /\ Spec v' = Spec v
  /\ VSource v' = VSource v /\ VFormat v' = VFormat v.

(** A server environment whose drivers have another Attach. *)
Definition env_with_Attach {S} (a : string -> M S (string * option error))
    (E : ServerEnv S) : ServerEnv S :=
  mkServerEnv
    (fun n => match drivers_Get E n with
              | Ok d => Ok (with_Attach a d)
              | Err e => Err e
              end)
    (SpecFromString E) (SpecFromOpts E) (MountBase E) (DataDir E) (APIVersion E)
    (os_MkdirAll E) (json_labels E)
    (OptName E) (OptLabel E) (OptConfigLabel E) (OptVolumeID E) (OptCumulative E).


(** An environment in which no call fails, the formatter writes a two-byte
    signature at offset 2 of the device, the kernel marks the filesystem
    mounted in the byte at offset 4, and clears the mark when it unmounts. *)
Definition formatting_ext : Externals :=
  mkExternals (fun n => "vol-" +:+ pretty n) (fun _ _ => None)
    (fun w => "/dev/nbd" +:+ pretty (nuuid w)) 18
    (fun c _ => match c with
                | ExecCommand _ _ => [(2, [83; 239])]
                | SyscallMount _ _ _ => [(4, [1])]
                | SyscallUnmount _ => [(4, [0])]
                | _ => []
                end).

(** The world after a volume of 8 bytes was created and formatted in the
    empty world. *)
Definition formatted_world : World :=
  Eval vm_compute in
    final (buse.Create sample_lib formatting_ext (mkLocator "db" ∅) None (mkSpec 8 2 1 ∅)
             empty_world).

(** The formatted volume, mounted, and unmounted again. *)
Definition mounted_formatted_world : World :=
  Eval vm_compute in
    final (buse.Mount sample_lib formatting_ext "vol-0" "/mnt/db" formatted_world).

Definition unmounted_formatted_world : World :=
  Eval vm_compute in
    final (buse.Unmount formatting_ext "vol-0" "/somewhere/else" mounted_formatted_world).


(** An environment in which the calls selected by [bad] fail with [e] and
    nothing else fails; nothing is written to a device. *)
Definition failing_ext (bad : ExtCall -> bool) (e : error) : Externals :=
  mkExternals (fun n => "vol-" +:+ pretty n)
    (fun c _ => if bad c then Some e else None)
    (fun w => "/dev/nbd" +:+ pretty (nuuid w)) 18 (fun _ _ => []).

Definition is_kernel_call (c : ExtCall) : bool :=
  match c with
  | SyscallMount _ _ _ | SyscallUnmount _ => true
  | _ => false
  end.

Definition is_store_write (c : ExtCall) : bool :=
  match c with
  | KvPut _ => true
  | _ => false
  end.

(** From [w] to [w'] every record that is still in the store has kept its
    identifier, device path, spec, source and format. *)
Definition keeps_volumes (w w' : World) : Prop :=
  forall id v v', store w !! id = Some v -> store w' !! id = Some v' -> same_volume v v'.

(** A record with its status set to UP, and the store after the loop of
    [Init] went over a list of records, when every write succeeds. *)
Definition marked_up (v : Volume) : Volume :=
  mkVolume (Id v) (Locator v) (VSource v) (Spec v) (VFormat v)
    VolumeStatus_VOLUME_STATUS_UP (DevicePath v) (AttachPath v).

Definition mark_in_store (st : gmap string Volume) (v : Volume) : gmap string Volume :=
  match Status v with
  | VolumeStatus_VOLUME_STATUS_NONE => <[Id v := marked_up v]> st
  | _ => st
  end.

(** A world whose store holds a record that was never marked UP, and whose
    registry knows a device. *)
Definition stale_world : World :=
  mkWorld {[ "v1" := mkVolume "v1" (mkLocator "db" ∅) None sample_spec 2
                       VolumeStatus_VOLUME_STATUS_NONE "/dev/nbd0" None ]}
    {[ "/dev/nbd0" := mkBuseDev "/var/lib/openstorage/buse/v1"
                        "/var/lib/openstorage/buse/v1" 4 ]}
    {[ "/var/lib/openstorage/buse/v1" := mkFile [1; 2; 3; 4] 420 ]} [] 0.

(** A chunk of the body that is one of the JSON shapes. *)
Definition is_json (c : Chunk) : bool :=
  match c with
  | Text _ => false
  | _ => true
  end.

(** A response of status 200 whose body is one JSON value. *)
Definition json_200 (w : ResponseWriter) : Prop :=
  header w = Some 200 /\ exists c, body w = [c] /\ is_json c = true.

(** A driver whose volumes are all attached on another node, and a driver
    with a scale limit whose mkfs always fails. *)
Definition remote_driver : VolumeDriver World :=
  with_Attach (fun _ => ret ("", Some ErrVolAttachedOnRemoteNode))
    (buse_driver sample_lib sample_ext).

Definition is_mkfs (c : ExtCall) : bool :=
  match c with
  | ExecCommand _ _ => true
  | _ => false
  end.

Definition busy_unformatted_driver : VolumeDriver World :=
  with_Attach busy_Attach
    (buse_driver sample_lib (failing_ext is_mkfs (ExtError "exit status 1"))).

(** The logical volume [db] of scale 3, in use, with no replica yet. *)
Definition busy_world : World :=
  mkWorld {[ "db" := scaled_volume "db" (Some ["/var/lib/osd/mounts/db"]) ]} ∅ ∅ [] 0.

(** A driver of type FILE over the operations of the buse driver. *)
Definition file_driver : VolumeDriver World :=
  let d := buse_driver sample_lib sample_ext in
  mkVolumeDriver DriverType_DRIVER_TYPE_FILE
    (vd_Create d) (vd_Delete d) (vd_MountedAt d) (vd_Mount d) (vd_Unmount d)
    (vd_Snapshot d) (vd_Set d) (vd_Attach d) (vd_Detach d) (vd_Stats d) (vd_Alerts d)
    (vd_GetActiveRequests d) (vd_Inspect d) (vd_Enumerate d) (vd_SnapEnumerate d).

(** Whether a set request carries a locator or a spec. *)
Definition sLocator_or_sSpec_given (req : volapi.VolumeSetRequest) : bool :=
  match volapi.sLocator req, volapi.sSpec req with
  | None, None => false
  | _, _ => true
  end.

(** The first value of a query parameter, as [params[key][0]] reads it. *)
Definition param0 (r : volapi.Request) (key : string) : option string :=
  match volapi.query r !! key with
  | Some (v0 :: _) => Some v0
  | _ => None
  end.

(** The labels a listing handler goes on with for a label parameter, and
    whether the parameter failed to parse. *)
Definition labels_of {S} (E : ServerEnv S) (r : volapi.Request) (key : string)
    : gmap string string :=
  match param0 r key with
  | Some v0 => fst (json_labels E v0)
  | None => ∅
  end.

Definition label_fails {S} (E : ServerEnv S) (r : volapi.Request) (key : string) : bool :=
  match param0 r key with
  | Some v0 => match snd (json_labels E v0) with Some _ => true | None => false end
  | None => false
  end.

(** The identifiers [snapEnumerate] hands to the driver: none without the
    parameter, else a slice of as many entries as the query has
    parameters. *)
Definition snap_ids_of {S} (E : ServerEnv S) (r : volapi.Request)
    : option (list string) :=
  match volapi.query r !! OptVolumeID E with
  | Some v => Some (v ++ replicate (size (volapi.query r) - List.length v) "")%list
  | None => None
  end.

Definition quote : string := String "034"%char EmptyString.

(** The text of a JSON object whose one label has a number for its value:
    an a between quotes, a colon and 1, in braces. *)
Definition number_label : string := "{" +:+ quote +:+ "a" +:+ quote +:+ ":1}".

(** A server environment whose label parameters are unmarshalled as the
    decoder of the Go library does for three texts: the empty object is
    accepted, a label with a number for its value is stored with the empty
    text and reported as a type error, and anything else is refused with
    nothing stored. *)
Definition strict_server (d : VolumeDriver World) : ServerEnv World :=
  mkServerEnv (fun _ => Ok d)
    (fun s => (false, sample_spec, s)) (fun _ => (sample_spec, None))
    "/var/lib/osd/mounts/" "" "v1"
    (fun p m w => Done tt (record_call (OsMkdirAll p m) w))
    (fun s => if String.eqb s "{}" then (∅, None)
              else if String.eqb s number_label
                   then ({[ "a" := "" ]},
                         Some (ExtError "json: cannot unmarshal number into Go value"))
                   else (∅, Some (ExtError "unexpected end of JSON input")))
    "Name" "Label" "ConfigLabel" "VolumeID" "Cumulative".

(** A driver whose store cannot be listed. *)
Definition unlistable_driver : VolumeDriver World :=
  let d := buse_driver sample_lib sample_ext in
  mkVolumeDriver (vd_Type d)
    (vd_Create d) (vd_Delete d) (vd_MountedAt d) (vd_Mount d) (vd_Unmount d)
    (vd_Snapshot d) (vd_Set d) (vd_Attach d) (vd_Detach d) (vd_Stats d) (vd_Alerts d)
    (vd_GetActiveRequests d) (vd_Inspect d)
    (fun _ _ => ret ([], Some (ExtError "kvdb down")))
    (fun _ _ => ret ([], Some (ExtError "kvdb down"))).

(** A database whose connections are named by their DSN, and which refuses
    the empty DSN. *)
Definition sample_sql_Open (driverName dsn : string) (s : db.State string)
    : option string * option db.db_error :=
  if String.eqb dsn "" then (None, Some (db.DriverError "missing dsn"))
  else (Some dsn, None).

Definition sample_NewClient (driverName : string) (conn : option string)
    (s : db.State string) : option string * option db.db_error :=
  (conn, None).

Definition sample_kv_New (c : option string) (codec : unit) (prefix : string)
    (transformer : string) : option string * string * string :=
  (c, prefix, transformer).

Definition sample_config (dsn : string) : db.Config unit string :=
  db.mkConfig ["mysql"; dsn] None tt "/registry".

(** ** Properties of the buse driver *)

Arguments buse.after_dev : simpl never.

(** *** External calls on a device

    A call on a device changes nothing but the trace and the bytes of the
    backing file of the [buseDev] that serves the device. *)

Lemma WriteAt_fold (d : buseDev) (l : list (Z * list Z)) (w : World) :
  let w' := foldl (fun w0 x => buse.WriteAt d (snd x) (fst x) w0) w l in
  store w' = store w /\ buseDevices w' = buseDevices w /\ trace w' = trace w
  /\ nuuid w' = nuuid w
  /\ fs w' = match fs w !! f d with
             | Some fl => <[f d := mkFile (buse.apply_writes l (data fl)) (mode fl)]> (fs w)
             | None => fs w
             end.
Proof.
  revert w. induction l as [|x l IH]; intros w; cbn.
  - repeat split. destruct (fs w !! f d) as [fl|] eqn:Hf; [|reflexivity].
    destruct fl; cbn. symmetry. apply insert_id. exact Hf.
  - destruct (IH (buse.WriteAt d (snd x) (fst x) w)) as (A & B & C & D & F).
    cbn in A, B, C, D, F. unfold buse.apply_writes. cbn.
    rewrite A, B, C, D, F. repeat split.
    unfold buse.WriteAt; cbn. destruct (fs w !! f d) as [fl|] eqn:Hf; cbn.
    + rewrite lookup_insert_eq. cbn. rewrite insert_insert_eq. reflexivity.
    + rewrite Hf. reflexivity.
Qed.

Lemma after_dev_frame (X : Externals) (c : ExtCall) (served : option buseDev) (w : World) :
  let w' := buse.after_dev X c served w in
  store w' = store w /\ buseDevices w' = buseDevices w
  /\ trace w' = (trace w ++ [c])%list /\ nuuid w' = nuuid w.
Proof.
  unfold buse.after_dev. destruct served as [d|]; cbn; [|repeat split].
  destruct (WriteAt_fold d (dev_writes X c w) (record_call c w)) as (A & B & C & D & _).
  cbn in A, B, C, D. rewrite A, B, C, D. repeat split.
Qed.

Lemma after_dev_store (X : Externals) (c : ExtCall) (served : option buseDev) (w : World) :
  store (buse.after_dev X c served w) = store w.
Proof. apply (after_dev_frame X c served w). Qed.

Lemma after_dev_buseDevices (X : Externals) (c : ExtCall) (served : option buseDev)
    (w : World) :
  buseDevices (buse.after_dev X c served w) = buseDevices w.
Proof. apply (after_dev_frame X c served w). Qed.

Lemma after_dev_trace (X : Externals) (c : ExtCall) (served : option buseDev) (w : World) :
  trace (buse.after_dev X c served w) = (trace w ++ [c])%list.
Proof. apply (after_dev_frame X c served w). Qed.

Lemma after_dev_nuuid (X : Externals) (c : ExtCall) (served : option buseDev) (w : World) :
  nuuid (buse.after_dev X c served w) = nuuid w.
Proof. apply (after_dev_frame X c served w). Qed.

Lemma after_dev_is_Some (X : Externals) (c : ExtCall) (served : option buseDev) (w : World)
    (p : string) :
  is_Some (fs (buse.after_dev X c served w) !! p) <-> is_Some (fs w !! p).
Proof.
  unfold buse.after_dev. destruct served as [d|]; [|reflexivity].
  destruct (WriteAt_fold d (dev_writes X c w) (record_call c w)) as (_ & _ & _ & _ & F).
  cbn in F. rewrite F. cbn. destruct (fs w !! f d) as [fl|] eqn:Hf; [|reflexivity].
  destruct (decide (p = f d)) as [->|Hne].
  - rewrite lookup_insert_eq, Hf. split; eauto.
  - rewrite lookup_insert_ne by congruence. reflexivity.
Qed.

Ltac dev_frame :=
  repeat match goal with
  | |- context [store (buse.after_dev ?X ?c ?s ?w)] => rewrite (after_dev_store X c s w)
  | |- context [buseDevices (buse.after_dev ?X ?c ?s ?w)] =>
      rewrite (after_dev_buseDevices X c s w)
  | |- context [trace (buse.after_dev ?X ?c ?s ?w)] => rewrite (after_dev_trace X c s w)
  | |- context [nuuid (buse.after_dev ?X ?c ?s ?w)] => rewrite (after_dev_nuuid X c s w)
  end.

Ltac run :=
  unfold bind, ret, gets, modify, panic, buse.ext, buse.ext_dev; simpl; dev_frame.

(** Reduce the monadic plumbing only. *)
Ltac plumb :=
  unfold bind, ret, gets, modify, panic, buse.ext, buse.ext_dev;
  cbn [final value store buseDevices fs trace nuuid set_store set_fs set_buseDevices
       record_call bump_uuid fst snd];
  repeat (progress dev_frame;
          cbn [final value store buseDevices fs trace nuuid set_store set_fs
               set_buseDevices record_call bump_uuid fst snd]).

(** Case analysis on the innermost scrutinee of the goal. *)
Ltac split_match :=
  match goal with
  | |- context [match ?x with _ => _ end] =>
      lazymatch x with
      | match _ with _ => _ end => fail
      | (match _ with _ => _ end) _ => fail
      | _ => destruct x eqn:?
      end
  end.

Ltac cases := plumb; repeat (split_match; plumb).

Lemma after_dev_fs (X : Externals) (c : ExtCall) (served : option buseDev) (w : World) :
  fs (buse.after_dev X c served w)
  = match served with
    | Some d =>
        match fs w !! f d with
        | Some fl => <[f d := mkFile (buse.apply_writes (dev_writes X c w) (data fl))
                                (mode fl)]> (fs w)
        | None => fs w
        end
    | None => fs w
    end.
Proof.
  unfold buse.after_dev. destruct served as [d|]; [|reflexivity].
  destruct (WriteAt_fold d (dev_writes X c w) (record_call c w)) as (_ & _ & _ & _ & F).
  exact F.
Qed.

(** C7, as amended: Stats and Alerts fail with NotSupported and return no
    result, for every volume identifier and every value of the cumulative
    flag; GetActiveRequests returns no result and no error. *)
Theorem telemetry_results (volumeID : string) (cumulative : bool) (w : World) :
  buse.Stats_ volumeID cumulative w = Done (None, Some ErrNotSupported) w
  /\ buse.Alerts_ volumeID w = Done (None, Some ErrNotSupported) w
  /\ buse.GetActiveRequests w = Done (None, None) w.
Proof. repeat split. Qed.

(** C7, as stated, fails: GetActiveRequests does not return the
    NotSupported error. *)
Lemma GetActiveRequests_no_error :
  buse.GetActiveRequests empty_world = Done (None, None) empty_world
  /\ buse.GetActiveRequests empty_world <> Done (None, Some ErrNotSupported) empty_world.
Proof. split; [reflexivity|discriminate]. Qed.

(** C5: a Create whose spec has size zero or format NONE fails with an
    invalid-spec error before anything is provisioned: no external call is
    made, and the files, the device registry and the store are unchanged. *)
Theorem Create_validates_first (L : GoLib) (X : Externals) (locator : VolumeLocator)
    (source : option Source) (spec : VolumeSpec) (w : World) :
  Size spec = 0 \/ Format spec = FSType_FS_TYPE_NONE ->
  exists e w',
    buse.Create L X locator source spec w = Done ("", Some e) w'
    /\ (e = Errorf "Volume size cannot be zero" [AString "buse"]
        \/ e = Errorf "Missing volume format" [AString "buse"])
    /\ trace w' = trace w /\ fs w' = fs w
    /\ buseDevices w' = buseDevices w /\ store w' = store w.
Proof.
  intros H. unfold buse.Create. run.
  destruct (Size spec =? 0) eqn:Hs.
  - eexists _, _. split; [reflexivity|]. split; [now left|]. repeat split.
  - destruct H as [H|H]; [rewrite H in Hs; discriminate|].
    rewrite H. simpl.
    eexists _, _. split; [reflexivity|]. split; [now right|]. repeat split.
Qed.

Lemma Create_validates_first_witness :
  exists e w',
    buse.Create sample_lib sample_ext (mkLocator "db" ∅) None (mkSpec 0 2 1 ∅) empty_world
      = Done ("", Some e) w'
    /\ (e = Errorf "Volume size cannot be zero" [AString "buse"]
        \/ e = Errorf "Missing volume format" [AString "buse"])
    /\ trace w' = trace empty_world /\ fs w' = fs empty_world
    /\ buseDevices w' = buseDevices empty_world /\ store w' = store empty_world.
Proof.
  apply (Create_validates_first sample_lib sample_ext (mkLocator "db" ∅) None
           (mkSpec 0 2 1 ∅) empty_world).
  left. reflexivity.
Defined.

(** C4: a Delete of a volume whose record exists but whose device path has
    no entry in the device registry fails with the device-not-registered
    error and changes nothing: no file is removed, no handle closed, no NBD
    disconnected, and the store is untouched. *)
Theorem Delete_unregistered_device (X : Externals) (volumeID : string) (v : Volume) (w : World) :
  store w !! volumeID = Some v ->
  buseDevices w !! DevicePath v = None ->
  buse.Delete X volumeID w
  = Done (Some (Errorf "Cannot locate a BUSE device for %s" [AString (DevicePath v)])) w.
Proof.
  intros Hv Hd. unfold buse.Delete, buse.GetVol. run.
  rewrite Hv. simpl. rewrite Hd. reflexivity.
Qed.

Lemma Delete_unregistered_device_witness :
  buse.Delete sample_ext "v1" restarted_world
  = Done (Some (Errorf "Cannot locate a BUSE device for %s" [AString "/dev/nbd0"]))
      restarted_world.
Proof.
  apply (Delete_unregistered_device sample_ext "v1" sample_volume restarted_world);
    vm_compute; reflexivity.
Defined.

(** C2: the AttachPath state machine of a volume record [v] stored under
    its identifier.  Mount on a record with an empty AttachPath (as the
    store returns it: the nil slice) records [mountpath] as the single entry
    and persists the record, when the kernel mount and the store write
    succeed; Mount on a record with a non-empty AttachPath fails and changes
    nothing; Unmount on a record with an empty AttachPath fails with the
    not-mounted error and changes nothing; Unmount on a mounted record
    clears AttachPath and persists the record, when the kernel unmount and
    the store write succeed. *)
Theorem AttachPath_state_machine (L : GoLib) (X : Externals)
    (volumeID mountpath : string) (v : Volume) (w : World) :
  store w !! volumeID = Some v ->
  Id v = volumeID ->
  let mnt := SyscallMount (DevicePath v) mountpath (SimpleString L (Format (Spec v))) in
  (len (AttachPath v) = 0%nat -> AttachPath v <> Some [] ->
   fault X mnt w = None ->
   fault X (KvPut volumeID) (buse.after_dev X mnt (buseDevices w !! DevicePath v) w) = None ->
   exists w',
     buse.Mount L X volumeID mountpath w = Done None w'
     /\ store w' = <[volumeID := set_AttachPath (Some [mountpath]) v]> (store w))
  /\ (forall p rest,
        AttachPath v = Some (p :: rest) ->
        buse.Mount L X volumeID mountpath w
        = Done (Some (Errorf "Volume %q already mounted at %q" [AString p])) w)
  /\ (len (AttachPath v) = 0%nat ->
      buse.Unmount X volumeID mountpath w
      = Done (Some (Errorf "Device %v not mounted" [AString volumeID])) w)
  /\ (forall p rest,
        AttachPath v = Some (p :: rest) -> p <> "" ->
        fault X (SyscallUnmount p) w = None ->
        fault X (KvPut volumeID)
          (buse.after_dev X (SyscallUnmount p) (buseDevices w !! DevicePath v) w) = None ->
        exists w',
          buse.Unmount X volumeID mountpath w = Done None w'
          /\ store w' = <[volumeID := set_AttachPath None v]> (store w)).
Proof.
  intros Hv Hid mnt. subst volumeID.
  repeat split.
  - intros Hlen Hne Hm Hp.
    unfold buse.Mount, buse.GetVol, buse.UpdateVol. run.
    rewrite Hv. simpl. rewrite Hlen. simpl.
    fold mnt. rewrite Hm.
    destruct (AttachPath v) as [[|p l]|] eqn:Hap; [congruence|discriminate|].
    simpl. rewrite Hp.
    eexists. split; [reflexivity|]. cbn. dev_frame. reflexivity.
  - intros p rest Hap.
    unfold buse.Mount, buse.GetVol. run.
    rewrite Hv. simpl. rewrite Hap. reflexivity.
  - intros Hlen.
    unfold buse.Unmount, buse.GetVol. run.
    rewrite Hv. simpl. rewrite Hlen. reflexivity.
  - intros p rest Hap Hne Hu Hp.
    unfold buse.Unmount, buse.GetVol, buse.UpdateVol. run.
    rewrite Hv. simpl. rewrite Hap. simpl.
    destruct p as [|c p']; [congruence|]. simpl.
    rewrite Hu. simpl in Hp. rewrite Hp.
    eexists. split; [reflexivity|]. cbn. dev_frame. reflexivity.
Qed.

Lemma AttachPath_state_machine_witness :
  (exists w',
     buse.Mount sample_lib sample_ext "v1" "/mnt/db" restarted_world = Done None w'
     /\ store w' = <["v1" := mounted_volume]> (store restarted_world))
  /\ buse.Unmount sample_ext "v1" "/mnt/db" restarted_world
     = Done (Some (Errorf "Device %v not mounted" [AString "v1"])) restarted_world
  /\ buse.Mount sample_lib sample_ext "v1" "/mnt/other" mounted_world
     = Done (Some (Errorf "Volume %q already mounted at %q" [AString "/mnt/db"]))
         mounted_world
  /\ (exists w',
        buse.Unmount sample_ext "v1" "/mnt/db" mounted_world = Done None w'
        /\ store w' = <["v1" := sample_volume]> (store mounted_world)).
Proof.
  assert (H1 : store restarted_world !! "v1" = Some sample_volume)
    by (vm_compute; reflexivity).
  assert (H2 : store mounted_world !! "v1" = Some mounted_volume)
    by (vm_compute; reflexivity).
  destruct (AttachPath_state_machine sample_lib sample_ext "v1" "/mnt/db"
              sample_volume restarted_world H1 eq_refl) as (A & _ & C & _).
  destruct (AttachPath_state_machine sample_lib sample_ext "v1" "/mnt/other"
              mounted_volume mounted_world H2 eq_refl) as (_ & B & _ & _).
  destruct (AttachPath_state_machine sample_lib sample_ext "v1" "/mnt/db"
              mounted_volume mounted_world H2 eq_refl) as (_ & _ & _ & D).
  split; [|split; [|split]].
  - apply A; [reflexivity|discriminate|reflexivity|reflexivity].
  - apply C. reflexivity.
  - apply (B "/mnt/db" []). reflexivity.
  - apply (D "/mnt/db" []); [reflexivity|discriminate|reflexivity|reflexivity].
Defined.

(** *** Create, copyFile and Delete, as Snapshot uses them *)

(** After a successful Create the new record is in the store under the
    returned identifier, and its device is registered with the backing file
    of that identifier. *)
Lemma Create_registers (L : GoLib) (X : Externals) (locator : VolumeLocator)
    (source : option Source) (spec : VolumeSpec) (w w1 : World) (id : string) :
  buse.Create L X locator source spec w = Done (id, None) w1 ->
  exists v,
    store w1 !! id = Some v /\ Id v = id /\ Spec v = spec /\ VSource v = source
    /\ AttachPath v = None
    /\ buseDevices w1 !! DevicePath v
       = Some (mkBuseDev (path_Join L buse.BuseMountPath id)
                 (path_Join L buse.BuseMountPath id) (to_int64 (Size spec))).
Proof.
  unfold buse.Create, buse.os_Create, buse.file_Truncate, buse.CreateVol. run.
  destruct (Size spec =? 0); [discriminate|].
  destruct (Format spec =? FSType_FS_TYPE_NONE); [discriminate|].
  destruct (fault X (OsCreate _) _); [discriminate|]. simpl.
  destruct (fault X (FileTruncate _ _) _); [discriminate|].
  destruct (to_int64 (Size spec) <? 0); [discriminate|]. simpl.
  destruct (fault X (NbdConnect _ _) _); [discriminate|].
  destruct (fault X (ExecCommand _ _) _); [discriminate|]. simpl.
  destruct (fault X (KvCreate _) _); [discriminate|]. simpl. dev_frame. simpl.
  destruct (store w !! _) eqn:Hst; [discriminate|]. simpl.
  intros H. injection H as Hid Hw. subst w1. simpl. dev_frame. simpl.
  eexists. rewrite <- Hid.
  split; [apply lookup_insert_eq|].
  simpl. repeat split. apply lookup_insert_eq.
Qed.

(** copyFile touches neither the store nor the device registry. *)
Lemma copyFile_frame (X : Externals) (source dest : string) (w : World) :
  store (final (buse.copyFile X source dest w)) = store w
  /\ buseDevices (final (buse.copyFile X source dest w)) = buseDevices w.
Proof.
  unfold buse.copyFile, buse.os_Open, buse.os_Create, buse.io_Copy, buse.os_Stat.
  cases; split; reflexivity.
Qed.

(** What Delete does to a volume whose record and device are known. *)
Lemma Delete_registered (X : Externals) (volumeID : string) (v : Volume) (bd : buseDev)
    (w : World) :
  store w !! volumeID = Some v ->
  buseDevices w !! DevicePath v = Some bd ->
  exists r w',
    buse.Delete X volumeID w = Done r w'
    /\ trace w' = (trace w ++ [OsRemove (file bd); FileClose (f bd);
                               NbdDisconnect (file bd); KvDelete volumeID])%list
    /\ ((forall w0, fault X (KvDelete volumeID) w0 = None) ->
        r = None /\ store w' = delete volumeID (store w)).
Proof.
  intros Hv Hd. unfold buse.Delete, buse.GetVol, buse.os_Remove, buse.DeleteVol. run.
  rewrite Hv. simpl. rewrite Hd.
  destruct (fault X (OsRemove (file bd)) w); simpl.
  - destruct (fault X (KvDelete volumeID) _) eqn:Hk; simpl.
    + eexists _, _. split; [reflexivity|]. simpl. rewrite <- !app_assoc.
      split; [reflexivity|]. intros Hno. rewrite Hno in Hk. discriminate.
    + rewrite Hv. simpl. eexists _, _. split; [reflexivity|]. simpl.
      rewrite <- !app_assoc. split; [reflexivity|]. intros _. split; reflexivity.
  - destruct (fault X (KvDelete volumeID) _) eqn:Hk; simpl.
    + eexists _, _. split; [reflexivity|]. simpl. rewrite <- !app_assoc.
      split; [reflexivity|]. intros Hno. rewrite Hno in Hk. discriminate.
    + rewrite Hv. simpl. eexists _, _. split; [reflexivity|]. simpl.
      rewrite <- !app_assoc. split; [reflexivity|]. intros _. split; reflexivity.
Qed.

(** C3: when the copy of the backing file fails after the new volume was
    created, Snapshot invokes Delete on the new volume once — the backing
    file is removed, the handle closed, the NBD disconnected and the record
    deleted, with no second attempt — and returns the empty identifier with
    a nil error. *)
Theorem Snapshot_copy_failure (L : GoLib) (X : Externals) (volumeID : string)
    (readonly : bool) (locator : VolumeLocator) (v0 : Volume)
    (w w1 w2 : World) (newVolumeID : string) (e : error) :
  store w !! volumeID = Some v0 ->
  buse.Create L X locator (Some (mkSource volumeID)) (Spec v0) w
  = Done (newVolumeID, None) w1 ->
  buse.copyFile X (buse.BuseMountPath +:+ volumeID) (buse.BuseMountPath +:+ newVolumeID) w1
  = Done (Some e) w2 ->
  let backing := path_Join L buse.BuseMountPath newVolumeID in
  exists w3,
    buse.Snapshot L X volumeID readonly locator w = Done ("", None) w3
    /\ w3 = final (buse.Delete X newVolumeID w2)
    /\ trace w3 = (trace w2 ++ [OsRemove backing; FileClose backing;
                                NbdDisconnect backing; KvDelete newVolumeID])%list
    /\ ((forall w0, fault X (KvDelete newVolumeID) w0 = None) ->
        store w3 !! newVolumeID = None).
Proof.
  intros Hv Hc Hcp backing.
  destruct (Create_registers _ _ _ _ _ _ _ _ Hc) as (v & Hst & Hid & _ & _ & _ & Hdev).
  pose proof (copyFile_frame X (buse.BuseMountPath +:+ volumeID)
                (buse.BuseMountPath +:+ newVolumeID) w1) as [Fs Fd].
  rewrite Hcp in Fs, Fd. simpl in Fs, Fd.
  rewrite <- Fs in Hst. rewrite <- Fd in Hdev.
  destruct (Delete_registered X newVolumeID v _ w2 Hst Hdev) as (r & w3 & Hdel & Htr & Hgone).
  exists w3.
  unfold buse.Snapshot, buse.Inspect, index. plumb.
  cbn [buse.lookup_all]. rewrite Hv. cbn [lookup list_lookup]. plumb.
  rewrite Hc. rewrite Hcp. rewrite Hdel.
  split; [reflexivity|]. split; [reflexivity|]. split; [exact Htr|].
  intros Hno. destruct (Hgone Hno) as [_ ->]. apply lookup_delete_eq.
Qed.

Lemma Snapshot_copy_failure_witness :
  exists w3,
    buse.Snapshot sample_lib copy_fails_ext "v1" false (mkLocator "snap" ∅) restarted_world
    = Done ("", None) w3
    /\ trace w3 = [OsCreate "/var/lib/openstorage/buse/vol-0";
                   FileTruncate "/var/lib/openstorage/buse/vol-0" 4;
                   NbdConnect "/var/lib/openstorage/buse/vol-0" 4;
                   ExecCommand "/sbin/mkfs.ext4" "/dev/nbd1";
                   KvCreate "vol-0";
                   OsOpen "/var/lib/openstorage/buse/v1";
                   OsCreate "/var/lib/openstorage/buse/vol-0";
                   IoCopy "/var/lib/openstorage/buse/vol-0" "/var/lib/openstorage/buse/v1";
                   FileClose "/var/lib/openstorage/buse/vol-0";
                   FileClose "/var/lib/openstorage/buse/v1";
                   OsRemove "/var/lib/openstorage/buse/vol-0";
                   FileClose "/var/lib/openstorage/buse/vol-0";
                   NbdDisconnect "/var/lib/openstorage/buse/vol-0";
                   KvDelete "vol-0"]
    /\ store w3 !! "vol-0" = None.
Proof.
  destruct (Snapshot_copy_failure sample_lib copy_fails_ext "v1" false
              (mkLocator "snap" ∅) sample_volume restarted_world
              snapshot_w1 snapshot_w2 "vol-0" (ExtError "no space left on device"))
    as (w3 & H1 & H2 & H3 & H4).
  - vm_compute. reflexivity.
  - vm_compute. reflexivity.
  - vm_compute. reflexivity.
  - exists w3. split; [exact H1|]. split.
    + rewrite H3. vm_compute. reflexivity.
    + apply H4. intros w0. reflexivity.
Defined.

(** *** The copy of the backing file *)

(** copyFile never changes a mode: no chmod is among the calls it makes. *)
Lemma copyFile_no_chmod (X : Externals) (source dest : string) (w : World)
    (p : string) (m : Z) :
  OsChmod p m ∈ trace (final (buse.copyFile X source dest w)) ->
  OsChmod p m ∈ trace w.
Proof.
  unfold buse.copyFile, buse.os_Open, buse.os_Create, buse.io_Copy, buse.os_Stat.
  cases; intros H; repeat (apply elem_of_app in H; destruct H as [H|H]);
    try exact H; apply list_elem_of_singleton in H; discriminate.
Qed.


(** C8 fails on the code: a snapshot of a volume whose backing file has
    mode 0600 succeeds and copies its four bytes, and the new backing file
    has mode 0644, the creation mode; no chmod is made. *)
Theorem Snapshot_drops_permissions :
  exists w',
    buse.Snapshot sample_lib sample_ext "v1" false (mkLocator "snap" ∅) private_world
    = Done ("vol-0", None) w'
    /\ fs w' !! "/var/lib/openstorage/buse/v1" = Some (mkFile [1; 2; 3; 4] 384)
    /\ fs w' !! "/var/lib/openstorage/buse/vol-0" = Some (mkFile [1; 2; 3; 4] 420)
    /\ trace w' = [OsCreate "/var/lib/openstorage/buse/vol-0";
                   FileTruncate "/var/lib/openstorage/buse/vol-0" 4;
                   NbdConnect "/var/lib/openstorage/buse/vol-0" 4;
                   ExecCommand "/sbin/mkfs.ext4" "/dev/nbd1";
                   KvCreate "vol-0";
                   OsOpen "/var/lib/openstorage/buse/v1";
                   OsCreate "/var/lib/openstorage/buse/vol-0";
                   IoCopy "/var/lib/openstorage/buse/vol-0" "/var/lib/openstorage/buse/v1";
                   OsStat "/var/lib/openstorage/buse/v1";
                   FileClose "/var/lib/openstorage/buse/vol-0";
                   FileClose "/var/lib/openstorage/buse/v1"].
Proof.
  eexists. split; [vm_compute; reflexivity|].
  repeat split; vm_compute; reflexivity.
Qed.

(** ** Properties of the volume-plugin protocol server *)

(** The lookup by name uses the Inspect and Enumerate of the driver only. *)
Lemma volFromName_with_Create {S} (L : GoLib) (E : ServerEnv S) (name nm : string)
    (c : VolumeLocator -> option Source -> VolumeSpec -> M S (string * option error)) :
  docker.volFromName L (env_with_Create c E) name nm = docker.volFromName L E name nm.
Proof.
  unfold docker.volFromName. simpl. destruct (drivers_Get E name); reflexivity.
Qed.

(** The lookup by name resolves to the one volume Inspect finds for the
    name taken as an identifier, or else to the one volume Enumerate finds
    for it taken as a locator name. *)
Lemma volFromName_resolves {S} (L : GoLib) (E : ServerEnv S) (name nm : string)
    (v : VolumeDriver S) (v0 : Volume) (s s1 : S) :
  drivers_Get E name = Ok v ->
  (vd_Inspect v [nm] s = Done ([v0], None) s1 ->
   docker.volFromName L E name nm s = Done (Ok v0) s1)
  /\ (forall vols e s2,
        vd_Inspect v [nm] s = Done (vols, e) s2 ->
        (e <> None \/ List.length vols <> 1%nat) ->
        vd_Enumerate v (Some (mkLocator nm ∅)) ∅ s2 = Done ([v0], None) s1 ->
        docker.volFromName L E name nm s = Done (Ok v0) s1).
Proof.
  intros Hd. unfold docker.volFromName. rewrite Hd. unfold bind. split.
  - intros ->. reflexivity.
  - intros vols e s2 -> Hne He.
    destruct e as [e|]; destruct vols as [|x [|y vols]]; cbn; rewrite ?He;
      try reflexivity.
    destruct Hne as [Hne|Hne]; exfalso; apply Hne; reflexivity.
Qed.

(** With the buse driver the lookup by name leaves the world as it is. *)
Lemma volFromName_buse_frame (L L' : GoLib) (X : Externals) (E : ServerEnv World)
    (name nm : string) (w : World) :
  drivers_Get E name = Ok (buse_driver L' X) ->
  final (docker.volFromName L E name nm w) = w.
Proof.
  intros Hd. unfold docker.volFromName. rewrite Hd.
  unfold buse_driver, buse.Inspect, buse.Enumerate. cbn [vd_Inspect vd_Enumerate].
  cases; reflexivity.
Qed.

(** C10: a Create request whose parsed name resolves to a volume is
    answered with an empty Err and the state the lookup left; the answer is
    the same whatever the Create of the driver is, so the driver's Create is
    not invoked; and where the lookup leaves the state as it is, submitting
    the request twice is the same as submitting it once. *)
Theorem create_existing_is_noop {S} (L : GoLib) (E : ServerEnv S) (name : string)
    (request : docker.volumeRequest) (vol : Volume) (s s' : S) :
  docker.volFromName L E name (snd (SpecFromString E (docker.Name_ request))) s
  = Done (Ok vol) s' ->
  docker.create L E name new_writer (Ok request) s
  = Done (Encode (JvolumeResponse "") new_writer) s'
  /\ (forall c,
        docker.create L (env_with_Create c E) name new_writer (Ok request) s
        = docker.create L E name new_writer (Ok request) s)
  /\ (s' = s ->
      (docker.create L E name new_writer (Ok request) ;;;
       docker.create L E name new_writer (Ok request)) s
      = docker.create L E name new_writer (Ok request) s).
Proof.
  intros H.
  assert (Hc : docker.create L E name new_writer (Ok request) s
               = Done (Encode (JvolumeResponse "") new_writer) s').
  { unfold docker.create, docker.decode.
    destruct (SpecFromString E (docker.Name_ request)) as [[b sp] nm].
    cbn [snd] in H. unfold bind. rewrite H. reflexivity. }
  split; [exact Hc|]. split.
  - intros c. rewrite Hc.
    unfold docker.create, docker.decode. cbn [SpecFromString env_with_Create].
    destruct (SpecFromString E (docker.Name_ request)) as [[b sp] nm].
    cbn [snd] in H. unfold bind. rewrite volFromName_with_Create, H. reflexivity.
  - intros ->. unfold bind at 1. rewrite Hc. exact Hc.
Qed.

Lemma create_existing_is_noop_witness :
  docker.create sample_lib (sample_server (buse_driver sample_lib sample_ext)) "buse"
    new_writer (Ok (docker.mkVolumeRequest "db" ∅)) restarted_world
  = Done (mkRW (Some 200) [JvolumeResponse ""]) restarted_world.
Proof.
  assert (H : docker.volFromName sample_lib
                 (sample_server (buse_driver sample_lib sample_ext)) "buse" "db"
                 restarted_world
               = Done (Ok sample_volume) restarted_world)
    by (vm_compute; reflexivity).
  destruct (create_existing_is_noop sample_lib
              (sample_server (buse_driver sample_lib sample_ext)) "buse"
              (docker.mkVolumeRequest "db" ∅) sample_volume restarted_world
              restarted_world H) as [A _].
  exact A.
Defined.

(** C9: MountedAt of the buse driver answers the empty string for every
    mountpath; so with a driver that has this MountedAt — whatever its
    Unmount is — an Unmount request whose volume resolves and has scale
    above 1 is answered with the error "Failed to find volume mapping" for
    the mountpoint of the name, in the state the lookup left: no Unmount of
    the driver is attempted, whatever is mounted at the mountpoint. *)
Theorem unmount_scaled_has_no_mapping :
  (forall (mountpath : string) (w : World), buse.MountedAt mountpath w = Done "" w)
  /\ (forall (L : GoLib) (E : ServerEnv World) (name : string) (d : VolumeDriver World)
        (request : docker.mountRequest) (vol : Volume) (w w' : World),
        drivers_Get E name = Ok d ->
        vd_MountedAt d = buse.MountedAt ->
        docker.volFromName L E name (snd (SpecFromString E (docker.mName request))) w
        = Done (Ok vol) w' ->
        1 < Scale (Spec vol) ->
        docker.unmount L E name new_writer (Ok request) w
        = Done (docker.errorResponse L new_writer
                  (Errorf "Failed to find volume mapping for %v"
                     [AString (docker.mountpath L E
                                 (snd (SpecFromString E (docker.mName request))))]))
            w').
Proof.
  split; [reflexivity|].
  intros L E name d request vol w w' Hd Hm Hv Hs.
  unfold docker.unmount, docker.decodeMount, docker.decode. rewrite Hd.
  destruct (SpecFromString E (docker.mName request)) as [[b sp] nm].
  cbn [snd] in *. unfold bind at 1. rewrite Hv.
  apply Z.ltb_lt in Hs. rewrite Hs. rewrite Hm.
  reflexivity.
Qed.

Lemma unmount_scaled_has_no_mapping_witness :
  docker.unmount sample_lib (sample_server (buse_driver sample_lib sample_ext)) "buse"
    new_writer (Ok (docker.mkMountRequest "db" "c0ffee")) scaled_world
  = Done (mkRW (Some 200) [JvolumeResponse "Failed to find volume mapping for %v"])
      scaled_world.
Proof.
  assert (H : docker.volFromName sample_lib
                 (sample_server (buse_driver sample_lib sample_ext)) "buse" "db"
                 scaled_world
               = Done (Ok (scaled_volume "db" (Some ["/var/lib/osd/mounts/db"])))
                   scaled_world)
    by (vm_compute; reflexivity).
  destruct unmount_scaled_has_no_mapping as [_ A].
  apply (A sample_lib (sample_server (buse_driver sample_lib sample_ext)) "buse"
           (buse_driver sample_lib sample_ext) (docker.mkMountRequest "db" "c0ffee")
           _ scaled_world scaled_world eq_refl eq_refl H).
  reflexivity.
Defined.

(** *** Scale-up *)

(** One turn of the loop of [scaleUp]. *)
Lemma scaleUp_from_S {S} (L : GoLib) (E : ServerEnv S) (name : string) (n : nat) (i : Z)
    (vd : VolumeDriver S) (inVol : Volume) (s : S) :
  docker.scaleUp_from L E name (Datatypes.S n) i vd inVol s
  = (r <- replica L E name vd inVol i ;;
     match r with
     | Err err => ret (inVol, Some err)
     | Ok outVol =>
         a <- vd_Attach vd (Id outVol) ;;
         match a with
         | (_, None) => ret (outVol, None)
         | (_, Some _) => docker.scaleUp_from L E name n (i + 1) vd inVol
         end
     end) s.
Proof.
  cbn [docker.scaleUp_from]. unfold replica, bind.
  destruct (docker.volFromName L E name _ s) as [[outVol|e] s1|s1]; reflexivity.
Qed.

(** Refused replicas are passed over. *)
Lemma scaleUp_from_refused {S} (L : GoLib) (E : ServerEnv S) (name : string)
    (vd : VolumeDriver S) (inVol : Volume) (i : Z) (k : nat) (s s' : S) :
  refused L E name vd inVol i k s s' ->
  forall n,
    docker.scaleUp_from L E name (k + n) i vd inVol s
    = docker.scaleUp_from L E name n (i + Z.of_nat k) vd inVol s'.
Proof.
  induction 1 as [i s|i k s s1 s2 s3 outVol p e Hr Ha _ IH]; intros n.
  - simpl. rewrite Z.add_0_r. reflexivity.
  - change (Datatypes.S k + n)%nat with (Datatypes.S (k + n)).
    rewrite scaleUp_from_S. unfold bind at 1. rewrite Hr.
    unfold bind at 1. rewrite Ha. rewrite IH.
    replace (i + 1 + Z.of_nat k) with (i + Z.of_nat (Datatypes.S k)) by lia.
    reflexivity.
Qed.

(** C1: a Mount request on a block driver whose Attach of the resolved
    volume answers the scale-limit error, for a volume of scale above 1.
    The replica indices are tried from 1 to Scale-1, each replica being the
    volume the name [<name>_<i>] resolves to or a new volume of that name
    and of the spec of the resolved volume.  The first replica whose Attach
    succeeds is the volume handed to the driver's Mount, at the mountpoint
    of the requested name; when the Attach of every replica up to Scale-1
    is refused, the request is answered with the scale-limit error. *)
Theorem mount_scale_up {S} (L : GoLib) (E : ServerEnv S) (name : string)
    (v : VolumeDriver S) (request : docker.mountRequest) (vol : Volume) (p : string)
    (s s0 s1 : S) :
  drivers_Get E name = Ok v ->
  vd_Type v = DriverType_DRIVER_TYPE_BLOCK ->
  docker.volFromName L E name (snd (SpecFromString E (docker.mName request))) s
  = Done (Ok vol) s0 ->
  vd_Attach v (Id vol) s0 = Done (p, Some ErrVolAttachedScale) s1 ->
  1 < Scale (Spec vol) ->
  let mountpoint := docker.mountpath L E (snd (SpecFromString E (docker.mName request))) in
  (forall (k : nat) (s2 s3 s4 : S) (outVol : Volume) (p' : string),
      Z.of_nat k < Scale (Spec vol) - 1 ->
      refused L E name v vol 1 k s1 s2 ->
      replica L E name v vol (1 + Z.of_nat k) s2 = Done (Ok outVol) s3 ->
      vd_Attach v (Id outVol) s3 = Done (p', None) s4 ->
      docker.mount L E name new_writer (Ok request) s
      = (os_MkdirAll E mountpoint 493 ;;;
         e <- vd_Mount v (Id outVol) mountpoint ;;
         ret (match e with
              | Some err => docker.errorResponse L new_writer err
              | None => Encode (JvolumePathResponse mountpoint "") new_writer
              end)) s4)
  /\ (forall s2 : S,
        refused L E name v vol 1 (Z.to_nat (Scale (Spec vol) - 1)) s1 s2 ->
        docker.mount L E name new_writer (Ok request) s
        = Done (docker.errorResponse L new_writer ErrVolAttachedScale) s2).
Proof.
  intros Hd Ht Hv Ha Hs mountpoint.
  assert (Hmount : forall r,
    docker.scaleUp L E name "mount" v vol s1 = r ->
    docker.mount L E name new_writer (Ok request) s
    = match r with
      | Done (_, Some err) s' => Done (docker.errorResponse L new_writer err) s'
      | Done (vol', None) s' =>
          (os_MkdirAll E mountpoint 493 ;;;
           e <- vd_Mount v (Id vol') mountpoint ;;
           ret (match e with
                | Some err => docker.errorResponse L new_writer err
                | None => Encode (JvolumePathResponse mountpoint "") new_writer
                end)) s'
      | Panicked s' => Panicked s'
      end).
  { intros r Hr. unfold docker.mount, docker.decodeMount, docker.decode. rewrite Hd.
    subst mountpoint.
    destruct (SpecFromString E (docker.mName request)) as [[b sp] nm].
    cbn [snd] in *. unfold bind at 1. rewrite Hv. rewrite Ht.
    unfold bind at 1. unfold docker.attachVol. unfold bind at 1. rewrite Ha.
    apply Z.ltb_lt in Hs. rewrite Hs. rewrite Hr.
    destruct r as [[vol' [err|]] s'|s']; try reflexivity.
    unfold bind, ret. destruct (os_MkdirAll E _ _ s'); [|reflexivity].
    destruct (vd_Mount v (Id vol') _ _) as [[err|] s''|s'']; reflexivity. }
  split.
  - intros k s2 s3 s4 outVol p' Hk Href Hrep Hatt.
    rewrite (Hmount _ eq_refl). unfold docker.scaleUp.
    replace (Z.to_nat (Scale (Spec vol) - 1))
      with (k + Datatypes.S (Z.to_nat (Scale (Spec vol) - 1) - Datatypes.S k))%nat by lia.
    rewrite (scaleUp_from_refused _ _ _ _ _ _ _ _ _ Href).
    rewrite scaleUp_from_S. unfold bind at 1. rewrite Hrep.
    unfold bind at 1. rewrite Hatt. reflexivity.
  - intros s2 Href.
    rewrite (Hmount _ eq_refl). unfold docker.scaleUp.
    rewrite <- (Nat.add_0_r (Z.to_nat (Scale (Spec vol) - 1))).
    rewrite (scaleUp_from_refused _ _ _ _ _ _ _ _ _ Href).
    reflexivity.
Qed.

Lemma mount_scale_up_witness :
  let E := sample_server busy_driver in
  let request := docker.mkMountRequest "db" "c0ffee" in
  (value (docker.mount sample_lib E "buse" new_writer (Ok request) scaled_world)
   = Some (mkRW (Some 200) [JvolumePathResponse "/var/lib/osd/mounts/db" ""])
   /\ store (final (docker.mount sample_lib E "buse" new_writer (Ok request) scaled_world))
        !! "db_2"
      = Some (scaled_volume "db_2" (Some ["/var/lib/osd/mounts/db"])))
  /\ docker.mount sample_lib E "buse" new_writer (Ok request) exhausted_world
     = Done (mkRW (Some 200)
               [JvolumeResponse "Volume is attached on another node; increase scale factor"])
         exhausted_world.
Proof.
  intros E request.
  pose (db := scaled_volume "db" (Some ["/var/lib/osd/mounts/db"])).
  assert (H1 : drivers_Get E "buse" = Ok busy_driver) by reflexivity.
  assert (H2 : vd_Type busy_driver = DriverType_DRIVER_TYPE_BLOCK) by reflexivity.
  assert (H5 : 1 < Scale (Spec db)) by reflexivity.
  split.
  - assert (H3 : docker.volFromName sample_lib E "buse"
                   (snd (SpecFromString E (docker.mName request))) scaled_world
                 = Done (Ok db) scaled_world) by (vm_compute; reflexivity).
    assert (H4 : vd_Attach busy_driver (Id db) scaled_world
                 = Done ("", Some ErrVolAttachedScale) scaled_world)
      by (vm_compute; reflexivity).
    destruct (mount_scale_up sample_lib E "buse" busy_driver request db ""
                scaled_world scaled_world scaled_world H1 H2 H3 H4 H5) as [A _].
    rewrite (A 1%nat scaled_world scaled_world scaled_world (scaled_volume "db_2" None)
               "/dev/db_2").
    + split; vm_compute; reflexivity.
    + vm_compute; reflexivity.
    + apply (refused_next _ _ _ _ _ 1 0 scaled_world scaled_world scaled_world scaled_world
               (scaled_volume "db_1" (Some ["/var/lib/osd/mounts/db"])) ""
               ErrVolAttachedScale).
      * vm_compute; reflexivity.
      * vm_compute; reflexivity.
      * apply refused_none.
    + vm_compute; reflexivity.
    + vm_compute; reflexivity.
  - assert (H3 : docker.volFromName sample_lib E "buse"
                   (snd (SpecFromString E (docker.mName request))) exhausted_world
                 = Done (Ok db) exhausted_world) by (vm_compute; reflexivity).
    assert (H4 : vd_Attach busy_driver (Id db) exhausted_world
                 = Done ("", Some ErrVolAttachedScale) exhausted_world)
      by (vm_compute; reflexivity).
    destruct (mount_scale_up sample_lib E "buse" busy_driver request db ""
                exhausted_world exhausted_world exhausted_world H1 H2 H3 H4 H5) as [_ B].
    rewrite (B exhausted_world).
    + reflexivity.
    + apply (refused_next _ _ _ _ _ 1 1 exhausted_world exhausted_world exhausted_world
               exhausted_world
               (scaled_volume "db_1" (Some ["/var/lib/osd/mounts/db"])) ""
               ErrVolAttachedScale).
      * vm_compute; reflexivity.
      * vm_compute; reflexivity.
      * apply (refused_next _ _ _ _ _ 2 0 exhausted_world exhausted_world exhausted_world
                 exhausted_world
                 (scaled_volume "db_2" (Some ["/var/lib/osd/mounts/db"])) ""
                 ErrVolAttachedScale).
        -- vm_compute; reflexivity.
        -- vm_compute; reflexivity.
        -- apply refused_none.
Defined.

(** ** Properties of the native volume API server *)

(** C6, as stated, fails: the stats handler answers the NotSupported error
    of the buse driver — a failure of the driver operation, on a well-formed
    request and a resolved driver — with status 400 and a plain-text
    message. *)
Lemma stats_failure_is_bad_request :
  let d := buse_driver sample_lib sample_ext in
  let r := volapi.mkRequest {[ "id" := "v1" ]} ∅ in
  volapi.parseVolumeID r = Ok "v1"
  /\ vd_Stats d "v1" true restarted_world = Done (None, Some ErrNotSupported) restarted_world
  /\ volapi.stats sample_lib (sample_server d) "buse" new_writer r restarted_world
     = Done (mkRW (Some 400) [Text "Failed to get stats: %s"]) restarted_world
  /\ status_code (mkRW (Some 400) [Text "Failed to get stats: %s"]) <> StatusOK.
Proof.
  repeat split; try (vm_compute; reflexivity).
  vm_compute. discriminate.
Qed.

Lemma bind_Done {S A B} (m : M S A) (k : A -> M S B) (s s1 : S) (a : A) :
  m s = Done a s1 -> bind m k s = k a s1.
Proof. intros H. unfold bind. rewrite H. reflexivity. Qed.

(** A label parameter, in a query each of whose parameters has a value:
    the handler goes on with the labels the unmarshalling left, and a
    failure sends status 400 unless a status was sent before. *)
Lemma label_param_run {S} (L : GoLib) (E : ServerEnv S) (method what key : string)
    (w : ResponseWriter) (r : volapi.Request) (s : S) :
  volapi.query r !! key <> Some [] ->
  exists w1,
    volapi.label_param L E method what key w r s = Done (w1, labels_of E r key) s
    /\ header w1 = (if label_fails E r key then Some (default 400 (header w)) else header w).
Proof.
  intros Hok. unfold volapi.label_param, labels_of, label_fails, param0.
  destruct (volapi.query r !! key) as [[|v0 vs]|]; [congruence| |].
  - unfold index, bind, ret. cbn.
    destruct (json_labels E v0) as [m [err|]]; cbn.
    + eexists. split; [reflexivity|]. cbn. destruct (header w); reflexivity.
    + eexists. split; reflexivity.
  - eexists. split; reflexivity.
Qed.

(** The status and the last chunk of an answer written after the label
    parameters were read. *)
Lemma answer_after_labels (w : ResponseWriter) (b : bool) :
  header w = (if b then Some 400 else None) ->
  (forall m code,
     status_code (sendError m code w) = (if b then 400 else code)
     /\ last (body (sendError m code w)) = Some (Text m))
  /\ (forall c,
        status_code (Encode c w) = (if b then 400 else 200)
        /\ last (body (Encode c w)) = Some c).
Proof.
  intros H. unfold status_code, sendError, http_Error, Encode, write. cbn. rewrite H.
  split; intros; (split; [destruct b; reflexivity|apply last_snoc]).
Qed.

(** C6, as amended.  With a resolved driver, an error returned by the
    driver is answered with status 200 and its text in the embedded Error
    field by the create, delete, snapshot and combined-set handlers; it is
    answered with a plain-text message and status 404 by inspect, and 400
    by stats, alerts and active-requests.  The listings answer it with
    status 400, but enumerate without identifiers with 500; a label
    parameter that does not parse has sent status 400 before, which then
    stands whatever the driver answers, and the listing goes on.  A body
    that does not decode or a missing identifier is answered with 400, an
    unresolvable driver name with 404. *)
Theorem native_api_status_codes {S} (L : GoLib) (E : ServerEnv S) (name : string)
    (r : volapi.Request) (s s' : S) (e : error) :
  (* an error of the driver, status 200 and an embedded Error *)
  (forall d, drivers_Get E name = Ok d ->
     (forall req id,
        vd_Create d (volapi.cLocator req) (volapi.cSource req) (volapi.cSpec req) s
        = Done (id, Some e) s' ->
        volapi.create L E name new_writer r (Ok req) s
        = Done (mkRW (Some 200) [JVolumeCreateResponse id (err_text L e)]) s')
     /\ (forall req id,
           vd_Snapshot d (volapi.snId req) (volapi.snReadonly req) (volapi.snLocator req) s
           = Done (id, Some e) s' ->
           volapi.snap L E name new_writer r (Ok req) s
           = Done (mkRW (Some 200) [JSnapCreateResponse id (err_text L e)]) s')
     /\ (forall volumeID,
           volapi.parseVolumeID r = Ok volumeID ->
           vd_Delete d volumeID s = Done (Some e) s' ->
           volapi.delete L E name new_writer r s
           = Done (mkRW (Some 200) [JVolumeResponse (err_text L e)]) s')
     /\ (forall volumeID req,
           volapi.parseVolumeID r = Ok volumeID ->
           volapi.volumeSet_steps d volumeID req s = Done (Some e) s' ->
           volapi.volumeSet L E name new_writer r (Ok req) s
           = Done (mkRW (Some 200) [JVolumeSetResponse None (Some (err_text L e))]) s')
     /\ (forall volumeID req s1 vols,
           volapi.parseVolumeID r = Ok volumeID ->
           volapi.volumeSet_steps d volumeID req s = Done None s1 ->
           vd_Inspect d [volumeID] s1 = Done (vols, Some e) s' ->
           volapi.volumeSet L E name new_writer r (Ok req) s
           = Done (mkRW (Some 200) [JVolumeSetResponse None (Some (err_text L e))]) s'))
  (* an error of the driver, another status and a plain-text message *)
  /\ (forall d, drivers_Get E name = Ok d ->
        (forall volumeID vols,
           volapi.parseVolumeID r = Ok volumeID ->
           vd_Inspect d [volumeID] s = Done (vols, Some e) s' ->
           volapi.inspect L E name new_writer r s
           = Done (mkRW (Some 404) [Text (err_text L e)]) s')
        /\ (forall volumeID st,
              volapi.parseVolumeID r = Ok volumeID ->
              vd_Stats d volumeID
                (match volapi.query r !! OptCumulative E with
                 | Some opt => fst (volapi.ParseBool (volapi.Join opt))
                 | None => true
                 end) s
              = Done (st, Some e) s' ->
              volapi.stats L E name new_writer r s
              = Done (mkRW (Some 400)
                        [Text (err_text L (Errorf "Failed to get stats: %s"
                                             [AString (err_text L e)]))]) s')
        /\ (forall volumeID al,
              volapi.parseVolumeID r = Ok volumeID ->
              vd_Alerts d volumeID s = Done (al, Some e) s' ->
              volapi.alerts L E name new_writer r s
              = Done (mkRW (Some 400)
                        [Text (err_text L (Errorf "Failed to get alerts: %s"
                                             [AString (err_text L e)]))]) s')
        /\ (forall rq,
              vd_GetActiveRequests d s = Done (rq, Some e) s' ->
              volapi.requests L E name new_writer r s
              = Done (mkRW (Some 400)
                        [Text (err_text L (Errorf "Failed to get active requests: %s"
                                             [AString (err_text L e)]))]) s')
        /\ (volapi.vars r !! "id" = None ->
            status_code <$> value (volapi.inspect L E name new_writer r s) = Some 400)
        (* the listings, for a query each of whose parameters has a value *)
        /\ ((forall key, volapi.query r !! key <> Some []) ->
            (forall vols eo,
               volapi.query r !! OptVolumeID E = None ->
               vd_Enumerate d
                 (Some (mkLocator (default "" (param0 r (OptName E)))
                          (labels_of E r (OptLabel E))))
                 (labels_of E r (OptConfigLabel E)) s
               = Done (vols, eo) s' ->
               exists w',
                 volapi.enumerate L E name new_writer r s = Done w' s'
                 /\ status_code w'
                    = (if label_fails E r (OptLabel E) || label_fails E r (OptConfigLabel E)
                       then 400
                       else match eo with Some _ => 500 | None => 200 end)
                 /\ last (body w')
                    = Some (match eo with
                            | Some err => Text (err_text L err)
                            | None => JVolumeList vols
                            end))
            /\ (forall ids vols eo,
                  volapi.query r !! OptVolumeID E = Some ids ->
                  vd_Inspect d ids s = Done (vols, eo) s' ->
                  exists w',
                    volapi.enumerate L E name new_writer r s = Done w' s'
                    /\ status_code w'
                       = (if label_fails E r (OptLabel E)
                             || label_fails E r (OptConfigLabel E)
                          then 400
                          else match eo with Some _ => 400 | None => 200 end)
                    /\ last (body w')
                       = Some (match eo with
                               | Some err =>
                                   Text (err_text L (Errorf "Failed to inspect volumeID: %s"
                                                       [AString (err_text L err)]))
                               | None => JVolumeList vols
                               end))
            /\ (forall snaps eo,
                  (forall v, volapi.query r !! OptVolumeID E = Some v ->
                             (List.length v <= size (volapi.query r))%nat) ->
                  vd_SnapEnumerate d (snap_ids_of E r) (labels_of E r (OptLabel E)) s
                  = Done (snaps, eo) s' ->
                  exists w',
                    volapi.snapEnumerate L E name new_writer r s = Done w' s'
                    /\ status_code w'
                       = (if label_fails E r (OptLabel E) then 400
                          else match eo with Some _ => 400 | None => 200 end)
                    /\ last (body w')
                       = Some (match eo with
                               | Some err =>
                                   Text (err_text L (Errorf "Failed to enumerate snaps: %s"
                                                       [AString (err_text L err)]))
                               | None => JVolumeList snaps
                               end))))
  (* a malformed request, status 400 *)
  /\ (volapi.create L E name new_writer r (Err e) s
      = Done (mkRW (Some 400) [Text (err_text L e)]) s
      /\ volapi.volumeSet L E name new_writer r (Err e) s
         = Done (mkRW (Some 400) [Text (err_text L e)]) s
      /\ volapi.snap L E name new_writer r (Err e) s
         = Done (mkRW (Some 400) [Text (err_text L e)]) s
      /\ (volapi.vars r !! "id" = None ->
          (forall req, status_code <$> value (volapi.volumeSet L E name new_writer r (Ok req) s)
                       = Some 400)
          /\ status_code <$> value (volapi.delete L E name new_writer r s) = Some 400
          /\ status_code <$> value (volapi.stats L E name new_writer r s) = Some 400
          /\ status_code <$> value (volapi.alerts L E name new_writer r s) = Some 400))
  (* an unresolvable driver name, status 404 *)
  /\ (forall err, drivers_Get E name = Err err ->
        (forall req, status_code <$> value (volapi.create L E name new_writer r (Ok req) s)
                     = Some 404)
        /\ (forall req, status_code <$> value (volapi.snap L E name new_writer r (Ok req) s)
                        = Some 404)
        /\ status_code <$> value (volapi.inspect L E name new_writer r s) = Some 404
        /\ status_code <$> value (volapi.enumerate L E name new_writer r s) = Some 404
        /\ status_code <$> value (volapi.snapEnumerate L E name new_writer r s) = Some 404
        /\ status_code <$> value (volapi.requests L E name new_writer r s) = Some 404
        /\ (forall volumeID, volapi.parseVolumeID r = Ok volumeID ->
              (forall req,
                 status_code <$> value (volapi.volumeSet L E name new_writer r (Ok req) s)
                 = Some 404)
              /\ status_code <$> value (volapi.delete L E name new_writer r s) = Some 404
              /\ status_code <$> value (volapi.stats L E name new_writer r s) = Some 404
              /\ status_code <$> value (volapi.alerts L E name new_writer r s) = Some 404)).
Proof.
  split; [|split; [|split]].
  - intros d Hd. repeat split.
    + intros req id H. unfold volapi.create. rewrite Hd. unfold bind. rewrite H. reflexivity.
    + intros req id H. unfold volapi.snap. rewrite Hd. unfold bind. rewrite H. reflexivity.
    + intros volumeID Hp H. unfold volapi.delete. rewrite Hp, Hd. unfold bind. rewrite H.
      reflexivity.
    + intros volumeID req Hp H. unfold volapi.volumeSet. rewrite Hp, Hd.
      unfold bind at 1. rewrite H. reflexivity.
    + intros volumeID req s1 vols Hp H Hi. unfold volapi.volumeSet. rewrite Hp, Hd.
      unfold bind at 1. rewrite H. unfold bind. rewrite Hi.
      destruct vols as [|v0 [|v1 vols]]; reflexivity.
  - intros d Hd.
    split; [|split; [|split; [|split; [|split; [|intros Hok; split; [|split]]]]]].
    + intros volumeID vols Hp H. unfold volapi.inspect. rewrite Hd, Hp. unfold bind.
      rewrite H. reflexivity.
    + intros volumeID st Hp H. unfold volapi.stats. rewrite Hp, Hd. unfold bind.
      rewrite H. reflexivity.
    + intros volumeID al Hp H. unfold volapi.alerts. rewrite Hp, Hd. unfold bind.
      rewrite H. reflexivity.
    + intros rq H. unfold volapi.requests. rewrite Hd. unfold bind. rewrite H. reflexivity.
    + intros Hid. unfold volapi.inspect, volapi.parseVolumeID. rewrite Hd, Hid. reflexivity.
    + intros vols eo Hi H. unfold volapi.enumerate. rewrite Hd, Hi.
      destruct (label_param_run L E "enumerate" "VolumeLabels" (OptLabel E) new_writer r s
                  (Hok _)) as (w1 & H1 & Hh1).
      destruct (label_param_run L E "enumerate" "configLabels" (OptConfigLabel E) w1 r s
                  (Hok _)) as (w2 & H2 & Hh2).
      assert (Hh : header w2 = if label_fails E r (OptLabel E)
                                  || label_fails E r (OptConfigLabel E)
                               then Some 400 else None).
      { rewrite Hh2, Hh1. cbn.
        destruct (label_fails E r (OptLabel E)), (label_fails E r (OptConfigLabel E));
          reflexivity. }
      assert (Hnm : (match volapi.query r !! OptName E with
                     | None => ret ""
                     | Some v => index (Some v) 0
                     end) s = Done (default "" (param0 r (OptName E))) s).
      { unfold param0. pose proof (Hok (OptName E)) as Hn.
        destruct (volapi.query r !! OptName E) as [[|n0 ns]|]; [congruence| |]; reflexivity. }
      rewrite (bind_Done _ _ _ _ _ Hnm), (bind_Done _ _ _ _ _ H1), (bind_Done _ _ _ _ _ H2),
        (bind_Done _ _ _ _ _ H).
      destruct eo as [err|]; eexists; (split; [reflexivity|]).
      * exact (proj1 (answer_after_labels w2 _ Hh) (err_text L err) 500).
      * exact (proj2 (answer_after_labels w2 _ Hh) (JVolumeList vols)).
    + intros ids vols eo Hi H. unfold volapi.enumerate. rewrite Hd, Hi.
      destruct (label_param_run L E "enumerate" "VolumeLabels" (OptLabel E) new_writer r s
                  (Hok _)) as (w1 & H1 & Hh1).
      destruct (label_param_run L E "enumerate" "configLabels" (OptConfigLabel E) w1 r s
                  (Hok _)) as (w2 & H2 & Hh2).
      assert (Hh : header w2 = if label_fails E r (OptLabel E)
                                  || label_fails E r (OptConfigLabel E)
                               then Some 400 else None).
      { rewrite Hh2, Hh1. cbn.
        destruct (label_fails E r (OptLabel E)), (label_fails E r (OptConfigLabel E));
          reflexivity. }
      assert (Hnm : (match volapi.query r !! OptName E with
                     | None => ret ""
                     | Some v => index (Some v) 0
                     end) s = Done (default "" (param0 r (OptName E))) s).
      { unfold param0. pose proof (Hok (OptName E)) as Hn.
        destruct (volapi.query r !! OptName E) as [[|n0 ns]|]; [congruence| |]; reflexivity. }
      rewrite (bind_Done _ _ _ _ _ Hnm), (bind_Done _ _ _ _ _ H1), (bind_Done _ _ _ _ _ H2),
        (bind_Done _ _ _ _ _ H).
      destruct eo as [err|]; eexists; (split; [reflexivity|]).
      * destruct (proj1 (answer_after_labels w2 _ Hh)
                    (err_text L (Errorf "Failed to inspect volumeID: %s"
                                   [AString (err_text L err)])) 400) as [A B].
        split; [|exact B].
        etransitivity; [exact A|].
        destruct (label_fails E r (OptLabel E) || label_fails E r (OptConfigLabel E));
          reflexivity.
      * exact (proj2 (answer_after_labels w2 _ Hh) (JVolumeList vols)).
    + intros snaps eo Hlen H. unfold volapi.snapEnumerate. rewrite Hd.
      destruct (label_param_run L E "snapEnumerate" "VolumeLabels" (OptLabel E) new_writer
                  r s (Hok _)) as (w1 & H1 & Hh1).
      assert (Hh : header w1 = if label_fails E r (OptLabel E) then Some 400 else None).
      { rewrite Hh1. destruct (label_fails E r (OptLabel E)); reflexivity. }
      assert (Hids : (match volapi.query r !! OptVolumeID E with
                      | Some v => l <- volapi.snap_ids (size (volapi.query r)) v ;;
                                  ret (Some l)
                      | None => ret None
                      end) s = Done (snap_ids_of E r) s).
      { unfold snap_ids_of.
        destruct (volapi.query r !! OptVolumeID E) as [v|] eqn:Hv; [|reflexivity].
        unfold volapi.snap_ids, bind, ret.
        pose proof (Hlen v eq_refl) as Hle. apply Nat.leb_le in Hle. rewrite Hle.
        reflexivity. }
      rewrite (bind_Done _ _ _ _ _ H1), (bind_Done _ _ _ _ _ Hids), (bind_Done _ _ _ _ _ H).
      destruct eo as [err|]; eexists; (split; [reflexivity|]).
      * destruct (proj1 (answer_after_labels w1 _ Hh)
                    (err_text L (Errorf "Failed to enumerate snaps: %s"
                                   [AString (err_text L err)])) 400) as [A B].
        split; [|exact B].
        etransitivity; [exact A|]. destruct (label_fails E r (OptLabel E)); reflexivity.
      * exact (proj2 (answer_after_labels w1 _ Hh) (JVolumeList snaps)).
  - split; [reflexivity|]. split; [reflexivity|]. split; [reflexivity|].
    intros Hid. unfold volapi.volumeSet, volapi.delete, volapi.stats, volapi.alerts,
      volapi.parseVolumeID. rewrite Hid. repeat split.
  - intros err Hd.
    unfold volapi.create, volapi.snap, volapi.inspect, volapi.enumerate,
      volapi.snapEnumerate, volapi.requests. rewrite Hd.
    do 6 (split; [reflexivity|]).
    intros volumeID Hp.
    unfold volapi.volumeSet, volapi.delete, volapi.stats, volapi.alerts.
    rewrite Hp, Hd. repeat split.
Qed.

Lemma native_api_status_codes_witness :
  let d := buse_driver sample_lib sample_ext in
  let E := sample_server d in
  let r := volapi.mkRequest {[ "id" := "v1" ]} ∅ in
  let E' := strict_server unlistable_driver in
  volapi.delete sample_lib E "buse" new_writer r restarted_world
  = Done (mkRW (Some 200) [JVolumeResponse "Cannot locate a BUSE device for %s"])
      restarted_world
  /\ volapi.stats sample_lib E "buse" new_writer r restarted_world
     = Done (mkRW (Some 400) [Text "Failed to get stats: %s"]) restarted_world
  /\ volapi.inspect sample_lib E "buse" new_writer
       (volapi.mkRequest {[ "id" := "v9" ]} ∅) restarted_world
     = Done (mkRW (Some 404) [Text "Key not found"]) restarted_world
  /\ status_code <$> value (volapi.enumerate sample_lib E' "buse" new_writer
                               (volapi.mkRequest ∅ ∅) restarted_world) = Some 500
  /\ status_code <$> value (volapi.enumerate sample_lib E' "buse" new_writer
                               (volapi.mkRequest ∅ {[ "Label" := ["{"] ]})
                               restarted_world) = Some 400.
Proof.
  intros d E r E'.
  assert (Hd : drivers_Get E "buse" = Ok d) by reflexivity.
  assert (Hd' : drivers_Get E' "buse" = Ok unlistable_driver) by reflexivity.
  split; [|split; [|split; [|split]]].
  - destruct (native_api_status_codes sample_lib E "buse" r restarted_world restarted_world
                (Errorf "Cannot locate a BUSE device for %s" [AString "/dev/nbd0"]))
      as [A _].
    destruct (A d Hd) as (_ & _ & Del & _).
    apply (Del "v1"); vm_compute; reflexivity.
  - destruct (native_api_status_codes sample_lib E "buse" r restarted_world restarted_world
                ErrNotSupported) as (_ & B & _).
    destruct (B d Hd) as (_ & St & _).
    apply (St "v1" None); vm_compute; reflexivity.
  - destruct (native_api_status_codes sample_lib E "buse"
                (volapi.mkRequest {[ "id" := "v9" ]} ∅) restarted_world restarted_world
                ErrNotFound) as (_ & B & _).
    destruct (B d Hd) as (In & _).
    apply (In "v9" []); vm_compute; reflexivity.
  - destruct (native_api_status_codes sample_lib E' "buse" (volapi.mkRequest ∅ ∅)
                restarted_world restarted_world ErrNotFound) as (_ & B & _).
    destruct (B unlistable_driver Hd') as (_ & _ & _ & _ & _ & Lst).
    assert (Hok : forall key, volapi.query (volapi.mkRequest ∅ ∅) !! key <> Some []).
    { intros key. cbn. rewrite lookup_empty. discriminate. }
    destruct (Lst Hok) as (En & _ & _).
    destruct (En [] (Some (ExtError "kvdb down"))) as (w' & Hw & Hst & _);
      [reflexivity|reflexivity|].
    rewrite Hw. cbn [value fmap option_fmap option_map]. rewrite Hst. reflexivity.
  - pose (r' := volapi.mkRequest ∅ {[ "Label" := ["{"] ]}).
    destruct (native_api_status_codes sample_lib E' "buse" r'
                restarted_world restarted_world ErrNotFound) as (_ & B & _).
    destruct (B unlistable_driver Hd') as (_ & _ & _ & _ & _ & Lst).
    assert (Hok : forall key, volapi.query r' !! key <> Some []).
    { intros key. cbn. destruct (decide (key = "Label")) as [->|Hne].
      - rewrite lookup_singleton_eq. discriminate.
      - rewrite lookup_singleton_ne by congruence. discriminate. }
    destruct (Lst Hok) as (En & _ & _).
    destruct (En [] (Some (ExtError "kvdb down"))) as (w' & Hw & Hst & _);
      [reflexivity|reflexivity|].
    assert (Hf : label_fails E' r' (OptLabel E') = true) by (vm_compute; reflexivity).
    rewrite Hf in Hst. fold r'. rewrite Hw.
    cbn [value fmap option_fmap option_map]. rewrite Hst. reflexivity.
Defined.

(** ** The shape of stored records is kept by the buse driver

    The operations of the driver that write to the store keep every record
    under its identifier, with an AttachPath that is nil or has an entry:
    a record the driver reads back never has an empty slice that is not
    nil, in any world the driver reaches from an empty store. *)

Lemma store_ok_empty : store_ok empty_world.
Proof. apply map_Forall_empty. Qed.

Lemma store_ok_insert (w : World) (v : Volume) :
  store_ok w -> AttachPath v <> Some [] -> map_Forall record_ok (<[Id v := v]> (store w)).
Proof. intros H Ha. apply map_Forall_insert_2; [split; [reflexivity|exact Ha]|exact H]. Qed.

Lemma store_ok_delete (w : World) (k : string) :
  store_ok w -> map_Forall record_ok (delete k (store w)).
Proof. intros H. apply map_Forall_delete. exact H. Qed.

Lemma Create_store_ok (L : GoLib) (X : Externals) (locator : VolumeLocator)
    (source : option Source) (spec : VolumeSpec) (w : World) :
  store_ok w -> store_ok (final (buse.Create L X locator source spec w)).
Proof.
  intros H. unfold buse.Create, buse.os_Create, buse.file_Truncate, buse.CreateVol.
  cases; unfold store_ok; plumb; try exact H.
  apply (store_ok_insert _ (set_DevicePath _ (buse.NewVolume _ _ _ _ _))); [exact H|].
  discriminate.
Qed.

Lemma Delete_store_ok (X : Externals) (volumeID : string) (w : World) :
  store_ok w -> store_ok (final (buse.Delete X volumeID w)).
Proof.
  intros H. unfold buse.Delete, buse.GetVol, buse.os_Remove, buse.DeleteVol.
  cases; unfold store_ok; plumb; try exact H; apply store_ok_delete; exact H.
Qed.

Lemma Mount_store_ok (L : GoLib) (X : Externals) (volumeID mountpath : string) (w : World) :
  store_ok w -> store_ok (final (buse.Mount L X volumeID mountpath w)).
Proof.
  intros H. unfold buse.Mount, buse.GetVol, buse.UpdateVol, index, store_index.
  cases; unfold store_ok; plumb; try exact H.
  - apply (store_ok_insert _ (set_AttachPath _ _)); [exact H|].
    cbn [AttachPath set_AttachPath]. destruct l; [discriminate|]. discriminate.
  - apply (store_ok_insert _ (set_AttachPath _ _)); [exact H|]. discriminate.
Qed.

Lemma Unmount_store_ok (X : Externals) (volumeID mountpath : string) (w : World) :
  store_ok w -> store_ok (final (buse.Unmount X volumeID mountpath w)).
Proof.
  intros H. unfold buse.Unmount, buse.GetVol, buse.UpdateVol, index.
  cases; unfold store_ok; plumb; try exact H.
  all: apply (store_ok_insert _ (set_AttachPath None _)); [exact H|discriminate].
Qed.

Lemma Set_store_ok (X : Externals) (volumeID : string) (locator : option VolumeLocator)
    (spec : option VolumeSpec) (w : World) :
  store_ok w -> store_ok (final (buse.Set_ X volumeID locator spec w)).
Proof.
  intros H. unfold buse.Set_, buse.GetVol, buse.UpdateVol.
  cases; unfold store_ok; plumb; try exact H.
  all: match goal with
       | Hs : store_ok ?w0, Hv : store ?w0 !! _ = Some ?v |- _ =>
           pose proof (map_Forall_lookup_1 _ _ _ _ Hs Hv) as [_ Ha]
       end.
  - apply (store_ok_insert _ (set_Locator _ _)); [exact H|exact Ha].
  - apply store_ok_insert; [exact H|exact Ha].
Qed.

Lemma final_bind {S A B} (m : M S A) (k : A -> M S B) (s : S) :
  final (bind m k s)
  = match m s with
    | Done a s' => final (k a s')
    | Panicked s' => s'
    end.
Proof. unfold bind. destruct (m s); reflexivity. Qed.

Lemma Snapshot_store_ok (L : GoLib) (X : Externals) (volumeID : string) (readonly : bool)
    (locator : VolumeLocator) (w : World) :
  store_ok w -> store_ok (final (buse.Snapshot L X volumeID readonly locator w)).
Proof.
  intros H. unfold buse.Snapshot, buse.Inspect.
  rewrite final_bind.
  destruct (buse.lookup_all (store w) [volumeID]) as [vols [e|]]; [exact H|].
  rewrite final_bind. unfold index.
  destruct (vols !! 0%nat) as [v0|]; [|exact H]. cbn [ret].
  rewrite final_bind.
  pose proof (Create_store_ok L X locator (Some (mkSource volumeID)) (Spec v0) w H) as Hc.
  destruct (buse.Create L X locator (Some (mkSource volumeID)) (Spec v0) w)
    as [[newID [e|]] w1|w1]; cbn [final] in Hc; [exact Hc| |exact Hc].
  rewrite final_bind.
  pose proof (copyFile_frame X (buse.BuseMountPath +:+ volumeID)
                (buse.BuseMountPath +:+ newID) w1) as [Fs _].
  destruct (buse.copyFile X _ _ w1) as [[e|] w2|w2]; cbn [final] in Fs.
  - rewrite final_bind.
    assert (H2 : store_ok w2) by (unfold store_ok; rewrite Fs; exact Hc).
    pose proof (Delete_store_ok X newID w2 H2) as Hd.
    destruct (buse.Delete X newID w2); exact Hd.
  - unfold store_ok. cbn [final ret]. rewrite Fs. exact Hc.
  - unfold store_ok. rewrite Fs. exact Hc.
Qed.

(** ** Scenarios of the specification, run on the sample environment *)

(** Create, Mount, Unmount, Delete, then Inspect: the volume is created
    under the first identifier, mounted, unmounted and deleted, and the
    inspection of its identifier is answered with NotFound. *)
Example lifecycle_scenario :
  let run :=
    (c <- buse.Create sample_lib sample_ext (mkLocator "db" ∅) None (mkSpec 8 2 1 ∅) ;;
     m <- buse.Mount sample_lib sample_ext (fst c) "/mnt/db" ;;
     ap <- gets (fun w => AttachPath <$> store w !! fst c) ;;
     u <- buse.Unmount sample_ext (fst c) "/mnt/db" ;;
     ap' <- gets (fun w => AttachPath <$> store w !! fst c) ;;
     d <- buse.Delete sample_ext (fst c) ;;
     i <- buse.Inspect [fst c] ;;
     ret (c, m, ap, u, ap', d, i)) in
  value (run empty_world)
  = Some (("vol-0", None), None, Some (Some ["/mnt/db"]), None, Some None, None,
          ([], Some ErrNotFound))
  /\ trace (final (run empty_world))
     = [OsCreate "/var/lib/openstorage/buse/vol-0";
        FileTruncate "/var/lib/openstorage/buse/vol-0" 8;
        NbdConnect "/var/lib/openstorage/buse/vol-0" 8;
        ExecCommand "/sbin/mkfs.ext4" "/dev/nbd1";
        KvCreate "vol-0";
        SyscallMount "/dev/nbd1" "/mnt/db" "ext4";
        KvPut "vol-0";
        SyscallUnmount "/mnt/db";
        KvPut "vol-0";
        OsRemove "/var/lib/openstorage/buse/vol-0";
        FileClose "/var/lib/openstorage/buse/vol-0";
        NbdDisconnect "/var/lib/openstorage/buse/vol-0";
        KvDelete "vol-0"].
Proof. split; vm_compute; reflexivity. Qed.

(** A snapshot whose copy succeeds: the new record has the spec of the
    source and the source as its parent, and the new backing file holds the
    bytes of the source. *)
Example snapshot_scenario :
  let w := final (buse.Snapshot sample_lib sample_ext "v1" false (mkLocator "snap" ∅)
                    restarted_world) in
  (Spec <$> store w !! "vol-0") = Some sample_spec
  /\ (VSource <$> store w !! "vol-0") = Some (Some (mkSource "v1"))
  /\ (data <$> fs w !! "/var/lib/openstorage/buse/vol-0") = Some [1; 2; 3; 4].
Proof. repeat split; vm_compute; reflexivity. Qed.

(** Scale-up with a driver that refuses the attach of a volume in use: for
    a volume [db] of scale 3, three Mount requests in a row mount [db] and
    two new replicas named [db_1] and [db_2] at the mountpoint of [db], and
    the fourth is answered with the scale-limit error. *)
Example scale_up_scenario :
  let E := sample_server busy_driver in
  let mount := docker.mount sample_lib E "buse" new_writer
                 (Ok (docker.mkMountRequest "db" "c0ffee")) in
  let w0 := mkWorld {[ "db" := scaled_volume "db" None ]} ∅ ∅ [] 0 in
  let run := (a <- mount ;; b <- mount ;; c <- mount ;; d <- mount ;;
              ret (body a, body b, body c, body d)) in
  value (run w0)
  = Some ([JvolumePathResponse "/var/lib/osd/mounts/db" ""],
          [JvolumePathResponse "/var/lib/osd/mounts/db" ""],
          [JvolumePathResponse "/var/lib/osd/mounts/db" ""],
          [JvolumeResponse "Volume is attached on another node; increase scale factor"])
  /\ ((fun v => (Name (Locator v), AttachPath v)) <$> store (final (run w0)) !! "db")
     = Some ("db", Some ["/var/lib/osd/mounts/db"])
  /\ ((fun v => (Name (Locator v), AttachPath v)) <$> store (final (run w0)) !! "vol-0")
     = Some ("db_1", Some ["/var/lib/osd/mounts/db"])
  /\ ((fun v => (Name (Locator v), AttachPath v)) <$> store (final (run w0)) !! "vol-1")
     = Some ("db_2", Some ["/var/lib/osd/mounts/db"]).
Proof. repeat split; vm_compute; reflexivity. Qed.

(** ** Further properties of the buse driver *)

(** *** Create *)

(** Writes that stay within the bytes of a file leave its length as it
    is. *)
Lemma write_at_length (b : list Z) (off : Z) (d : list Z) :
  0 <= off -> off + Z.of_nat (List.length b) <= Z.of_nat (List.length d) ->
  List.length (buse.write_at b off d) = List.length d.
Proof.
  intros H0 H1. unfold buse.write_at.
  destruct (off <? 0) eqn:Hn; [apply Z.ltb_lt in Hn; lia|].
  rewrite !length_app, length_resize, length_drop. lia.
Qed.

Lemma apply_writes_length (n : nat) (l : list (Z * list Z)) (d : list Z) :
  List.length d = n ->
  Forall (fun x => 0 <= fst x /\ fst x + Z.of_nat (List.length (snd x)) <= Z.of_nat n) l ->
  List.length (buse.apply_writes l d) = n.
Proof.
  intros Hd Hl. revert d Hd. induction Hl as [|x l [Hx0 Hx1] _ IH]; intros d Hd.
  - exact Hd.
  - unfold buse.apply_writes. cbn. apply IH.
    rewrite write_at_length; [exact Hd|exact Hx0|rewrite Hd; exact Hx1].
Qed.

(** A successful Create, for a size in the range of a uint64: the spec was
    valid, the identifier is the next one of the generator and was not in
    the store; the store gains the record with its device path, the
    registry gains the device, and five external calls were made, in this
    order.  The backing file is a file of [Size] zero bytes on which the
    writes of the formatter were made, in the world in which the formatter
    ran; it has exactly [Size] bytes when these writes stay within the
    device. *)
Theorem Create_success (L : GoLib) (X : Externals) (locator : VolumeLocator)
    (source : option Source) (spec : VolumeSpec) (w w' : World) (id : string) :
  0 <= Size spec < 2 ^ 64 ->
  buse.Create L X locator source spec w = Done (id, None) w' ->
  let backing := path_Join L buse.BuseMountPath id in
  let md := match fs w !! backing with
            | Some fl => mode fl
            | None => Z.ldiff 438 (umask X)
            end in
  let zeros := replicate (Z.to_nat (Size spec)) 0 in
  id = TrimSuffix (uuid_New X (nuuid w)) newline
  /\ 0 < Size spec < 2 ^ 63
  /\ Format spec <> FSType_FS_TYPE_NONE
  /\ store w !! id = None
  /\ exists dev,
       let mkfs := ExecCommand ("/sbin/mkfs." +:+ SimpleString L (Format spec)) dev in
       let w0 := mkWorld (store w) (buseDevices w) (<[backing := mkFile zeros md]> (fs w))
                   (trace w ++ [OsCreate backing; FileTruncate backing (Size spec);
                                NbdConnect backing (Size spec)])
                   (S (nuuid w)) in
       let written := buse.apply_writes (dev_writes X mkfs w0) zeros in
       store w' = <[id := set_DevicePath dev
                            (buse.NewVolume id (Format spec) locator source spec)]> (store w)
       /\ buseDevices w' = <[dev := mkBuseDev backing backing (Size spec)]> (buseDevices w)
       /\ fs w' = <[backing := mkFile written md]> (fs w)
       /\ trace w' = (trace w ++
                      [OsCreate backing; FileTruncate backing (Size spec);
                       NbdConnect backing (Size spec); mkfs; KvCreate id])%list
       /\ (Forall (fun x => 0 <= fst x
                            /\ fst x + Z.of_nat (List.length (snd x)) <= Size spec)
             (dev_writes X mkfs w0) ->
           Z.of_nat (List.length written) = Size spec).
Proof.
  intros Hrange.
  unfold buse.Create, buse.os_Create, buse.file_Truncate, buse.CreateVol. plumb.
  destruct (Size spec =? 0) eqn:Hs; [discriminate|].
  destruct (Format spec =? FSType_FS_TYPE_NONE) eqn:Hf; [discriminate|].
  apply Z.eqb_neq in Hs, Hf.
  destruct (fault X (OsCreate _) _); [discriminate|]. plumb.
  destruct (fault X (FileTruncate _ _) _); [discriminate|]. plumb.
  destruct (to_int64 (Size spec) <? 0) eqn:Hneg; [discriminate|]. plumb.
  apply Z.ltb_ge in Hneg.
  assert (Hsz : to_int64 (Size spec) = Size spec /\ Size spec < 2 ^ 63).
  { unfold to_int64 in Hneg |- *. destruct (Size spec <? 2 ^ 63) eqn:Hlt.
    - apply Z.ltb_lt in Hlt. split; [reflexivity|exact Hlt].
    - apply Z.ltb_ge in Hlt. lia. }
  destruct Hsz as [Hsz Hlt]. rewrite !Hsz. clear Hneg Hsz.
  destruct (fault X (NbdConnect _ _) _); [discriminate|]. plumb.
  destruct (fault X (ExecCommand _ _) _); [discriminate|]. plumb.
  destruct (fault X (KvCreate _) _); [discriminate|]. plumb.
  cbn [Id set_DevicePath buse.NewVolume].
  destruct (store w !! _) eqn:Hst; [discriminate|]. plumb.
  intros H. injection H as Hid Hw. subst w'. subst id. plumb.
  split; [reflexivity|]. split; [lia|]. split; [exact Hf|]. split; [exact Hst|].
  eexists. cbv zeta.
  match goal with
  | |- context [buse.after_dev X ?c ?sv ?W] =>
      assert (HW : W = mkWorld (store w) (buseDevices w)
                         (<[path_Join L buse.BuseMountPath
                              (TrimSuffix (uuid_New X (nuuid w)) newline) :=
                            mkFile (replicate (Z.to_nat (Size spec)) 0)
                              (match fs w !! path_Join L buse.BuseMountPath
                                               (TrimSuffix (uuid_New X (nuuid w)) newline) with
                               | Some fl => mode fl
                               | None => Z.ldiff 438 (umask X)
                               end)]> (fs w))
                         (trace w ++ [OsCreate (path_Join L buse.BuseMountPath
                                                  (TrimSuffix (uuid_New X (nuuid w)) newline));
                                      FileTruncate (path_Join L buse.BuseMountPath
                                                      (TrimSuffix (uuid_New X (nuuid w)) newline))
                                        (Size spec);
                                      NbdConnect (path_Join L buse.BuseMountPath
                                                    (TrimSuffix (uuid_New X (nuuid w)) newline))
                                        (Size spec)])
                         (S (nuuid w)))
  end.
  { unfold record_call, set_fs, bump_uuid. cbn [store buseDevices fs trace nuuid].
    rewrite lookup_insert_eq. cbn [data mode]. rewrite insert_insert_eq, resize_nil.
    rewrite <- !app_assoc. reflexivity. }
  split; [reflexivity|]. split; [reflexivity|]. split; [|split].
  - rewrite after_dev_fs. cbn [f]. rewrite HW. cbn [fs].
    rewrite lookup_insert_eq. cbn [data mode]. rewrite insert_insert_eq. reflexivity.
  - rewrite <- !app_assoc. reflexivity.
  - intros Hin. rewrite (apply_writes_length (Z.to_nat (Size spec))).
    + lia.
    + apply length_replicate.
    + eapply Forall_impl; [exact Hin|]. cbn. intros x [H0 H1]. lia.
Qed.

(** A volume of 8 bytes, formatted by a tool that writes a two-byte
    signature at offset 2 of the device. *)
Lemma Create_success_witness :
  "vol-0" = TrimSuffix (uuid_New formatting_ext (nuuid empty_world)) newline
  /\ 0 < 8 < 2 ^ 63
  /\ store formatted_world !! "vol-0"
     = Some (mkVolume "vol-0" (mkLocator "db" ∅) None (mkSpec 8 2 1 ∅) 2
               VolumeStatus_VOLUME_STATUS_NONE "/dev/nbd1" None)
  /\ fs formatted_world !! "/var/lib/openstorage/buse/vol-0"
     = Some (mkFile [0; 0; 83; 239; 0; 0; 0; 0] 420).
Proof.
  assert (H : buse.Create sample_lib formatting_ext (mkLocator "db" ∅) None
                (mkSpec 8 2 1 ∅) empty_world = Done ("vol-0", None) formatted_world)
    by (vm_compute; reflexivity).
  assert (R : 0 <= Size (mkSpec 8 2 1 ∅) < 2 ^ 64) by (cbn; lia).
  destruct (Create_success sample_lib formatting_ext (mkLocator "db" ∅) None
              (mkSpec 8 2 1 ∅) empty_world formatted_world "vol-0" R H)
    as (A & B & _ & _ & dev & St & _ & Fs & _).
  split; [exact A|]. split; [exact B|]. split.
  - vm_compute. reflexivity.
  - vm_compute. reflexivity.
Defined.

(** Create never undoes what it did.  On every outcome the calls it made
    are provisioning calls only — no remove, close or disconnect —, every
    file that existed still exists, a backing file it got as far as
    truncating is still there, and a failed Create leaves the store as it
    was. *)
Theorem Create_never_cleans_up (L : GoLib) (X : Externals) (locator : VolumeLocator)
    (source : option Source) (spec : VolumeSpec) (w : World) :
  let o := buse.Create L X locator source spec w in
  exists l,
    trace (final o) = (trace w ++ l)%list
    /\ Forall (fun c => is_provisioning c = true) l
    /\ (forall p, is_Some (fs w !! p) -> is_Some (fs (final o) !! p))
    /\ (forall p n, FileTruncate p n ∈ l -> is_Some (fs (final o) !! p))
    /\ (forall id e, value o = Some (id, Some e) -> store (final o) = store w).
Proof.
  unfold buse.Create, buse.os_Create, buse.file_Truncate, buse.CreateVol.
  cases.
  all: eexists; split;
    [rewrite <- ?app_assoc; try reflexivity; symmetry; apply app_nil_r|].
  all: split; [repeat constructor|].
  all: rewrite ?lookup_insert_eq; plumb; rewrite ?insert_insert_eq.
  all: split; [intros p Hp; try apply after_dev_is_Some; plumb;
               rewrite ?lookup_insert_eq; plumb; rewrite ?insert_insert_eq;
               rewrite ?lookup_insert; try case_decide; eauto|].
  all: split; [intros p n Hin; repeat (apply elem_of_cons in Hin; destruct Hin as [Hin|Hin];
                 [try discriminate; try (injection Hin as -> _;
                    try apply after_dev_is_Some; plumb;
                    rewrite ?lookup_insert_eq; plumb; rewrite ?insert_insert_eq;
                    rewrite ?lookup_insert_eq; eauto)|]);
               try (apply elem_of_nil in Hin; destruct Hin)|].
  all: intros id0 e0 Hv; try reflexivity; try discriminate Hv.
Qed.

(** A size of 2^63 or more is negative as the int64 handed to Truncate:
    Create fails at the truncation at the latest, after it created the
    backing file; no device is connected or registered and no record is
    stored. *)
Theorem Create_oversize (L : GoLib) (X : Externals) (locator : VolumeLocator)
    (source : option Source) (spec : VolumeSpec) (w : World) :
  2 ^ 63 <= Size spec < 2 ^ 64 ->
  Format spec <> FSType_FS_TYPE_NONE ->
  let backing := path_Join L buse.BuseMountPath
                   (TrimSuffix (uuid_New X (nuuid w)) newline) in
  exists e w',
    buse.Create L X locator source spec w = Done ("", Some e) w'
    /\ store w' = store w /\ buseDevices w' = buseDevices w
    /\ (trace w' = (trace w ++ [OsCreate backing])%list
        \/ (trace w' = (trace w ++ [OsCreate backing;
                                    FileTruncate backing (Size spec - 2 ^ 64)])%list
            /\ is_Some (fs w' !! backing))).
Proof.
  intros Hs Hf backing.
  unfold buse.Create, buse.os_Create, buse.file_Truncate. plumb.
  destruct (Size spec =? 0) eqn:H0; [apply Z.eqb_eq in H0; lia|].
  destruct (Format spec =? FSType_FS_TYPE_NONE) eqn:Hn; [apply Z.eqb_eq in Hn; congruence|].
  assert (Hc : to_int64 (Size spec) = Size spec - 2 ^ 64).
  { unfold to_int64. destruct (Size spec <? 2 ^ 63) eqn:Hlt; [|reflexivity].
    apply Z.ltb_lt in Hlt. lia. }
  rewrite !Hc. fold backing.
  destruct (fault X (OsCreate backing) _); plumb.
  - eexists _, _. split; [reflexivity|]. repeat split. left. reflexivity.
  - destruct (fault X (FileTruncate backing _) _); plumb.
    + eexists _, _. split; [reflexivity|]. plumb. repeat split. right.
      rewrite <- app_assoc. split; [reflexivity|]. rewrite lookup_insert_eq. eauto.
    + destruct (Size spec - 2 ^ 64 <? 0) eqn:Hneg; [|apply Z.ltb_ge in Hneg; lia].
      plumb. eexists _, _. split; [reflexivity|]. plumb. repeat split. right.
      rewrite <- app_assoc. split; [reflexivity|]. rewrite lookup_insert_eq. eauto.
Qed.

Lemma Create_oversize_witness :
  exists e w',
    buse.Create sample_lib sample_ext (mkLocator "db" ∅) None (mkSpec (2 ^ 63) 2 1 ∅)
      empty_world = Done ("", Some e) w'
    /\ store w' = ∅ /\ buseDevices w' = ∅.
Proof.
  destruct (Create_oversize sample_lib sample_ext (mkLocator "db" ∅) None
              (mkSpec (2 ^ 63) 2 1 ∅) empty_world) as (e & w' & H & Hst & Hd & _).
  - cbn. lia.
  - discriminate.
  - exists e, w'. split; [exact H|]. split; [exact Hst|exact Hd].
Defined.

(** *** Delete *)





(** *** Unknown volumes, and failures of the kernel and of the store *)



(** Failures in the middle of Mount and Unmount.  When the kernel refuses
    the mount, Mount wraps its error and the record is not written.  When
    the kernel mount succeeds and the store refuses the write, Mount returns
    the store's error: the device is mounted and the record still says it
    is not.  When the kernel refuses the unmount, Unmount returns its error
    and the record stays mounted.  In each case the world is the one the
    kernel call left, with the call of the store recorded where it was
    made: the store is as it was. *)
Theorem Mount_Unmount_failures (L : GoLib) (X : Externals) (volumeID mountpath : string)
    (v : Volume) (e : error) (w : World) :
  store w !! volumeID = Some v ->
  let served := buseDevices w !! DevicePath v in
  let mnt := SyscallMount (DevicePath v) mountpath (SimpleString L (Format (Spec v))) in
  (forall c, store (buse.after_dev X c served w) = store w)
  /\ (AttachPath v = None ->
      fault X mnt w = Some e ->
      buse.Mount L X volumeID mountpath w
      = Done (Some (Errorf "Failed to mount %v at %v: %v"
                      [AString (DevicePath v); AString mountpath; AError e]))
          (buse.after_dev X mnt served w))
  /\ (AttachPath v = None ->
      fault X mnt w = None ->
      fault X (KvPut (Id v)) (buse.after_dev X mnt served w) = Some e ->
      buse.Mount L X volumeID mountpath w
      = Done (Some e) (record_call (KvPut (Id v)) (buse.after_dev X mnt served w)))
  /\ (forall p rest,
        AttachPath v = Some (p :: rest) -> p <> "" ->
        fault X (SyscallUnmount p) w = Some e ->
        buse.Unmount X volumeID mountpath w
        = Done (Some e) (buse.after_dev X (SyscallUnmount p) served w)).
Proof.
  intros Hv served mnt. subst served.
  split; [intros c; apply after_dev_store|]. repeat split.
  - intros Hap Hm. unfold buse.Mount, buse.GetVol. plumb.
    rewrite Hv. plumb. rewrite Hap. cbn [len Nat.ltb Nat.leb andb]. plumb.
    fold mnt. rewrite Hm. reflexivity.
  - intros Hap Hm Hp. unfold buse.Mount, buse.GetVol, buse.UpdateVol, store_index. plumb.
    rewrite Hv. plumb. rewrite Hap. cbn [len Nat.ltb Nat.leb andb]. plumb.
    fold mnt. rewrite Hm. cbn. plumb. rewrite Hp. reflexivity.
  - intros p rest Hap Hne Hu. unfold buse.Unmount, buse.GetVol, index. plumb.
    rewrite Hv. plumb. rewrite Hap. cbn.
    destruct p as [|c p']; [congruence|]. cbn. plumb. rewrite Hu. reflexivity.
Qed.

Lemma Mount_Unmount_failures_witness :
  buse.Mount sample_lib (failing_ext is_kernel_call (ExtError "EBUSY")) "v1" "/mnt/db"
    restarted_world
  = Done (Some (Errorf "Failed to mount %v at %v: %v"
                  [AString "/dev/nbd0"; AString "/mnt/db"; AError (ExtError "EBUSY")]))
      (record_call (SyscallMount "/dev/nbd0" "/mnt/db" "ext4") restarted_world)
  /\ buse.Mount sample_lib (failing_ext is_store_write (ExtError "kvdb down")) "v1"
       "/mnt/db" restarted_world
     = Done (Some (ExtError "kvdb down"))
         (record_call (KvPut "v1")
            (record_call (SyscallMount "/dev/nbd0" "/mnt/db" "ext4") restarted_world))
  /\ buse.Unmount (failing_ext is_kernel_call (ExtError "EBUSY")) "v1" "/mnt/db"
       mounted_world
     = Done (Some (ExtError "EBUSY")) (record_call (SyscallUnmount "/mnt/db") mounted_world).
Proof.
  assert (H1 : store restarted_world !! "v1" = Some sample_volume)
    by (vm_compute; reflexivity).
  assert (H2 : store mounted_world !! "v1" = Some mounted_volume)
    by (vm_compute; reflexivity).
  destruct (Mount_Unmount_failures sample_lib (failing_ext is_kernel_call (ExtError "EBUSY"))
              "v1" "/mnt/db" sample_volume (ExtError "EBUSY") restarted_world H1)
    as (_ & A & _ & _).
  destruct (Mount_Unmount_failures sample_lib
              (failing_ext is_store_write (ExtError "kvdb down"))
              "v1" "/mnt/db" sample_volume (ExtError "kvdb down") restarted_world H1)
    as (_ & _ & B & _).
  destruct (Mount_Unmount_failures sample_lib (failing_ext is_kernel_call (ExtError "EBUSY"))
              "v1" "/mnt/db" mounted_volume (ExtError "EBUSY") mounted_world H2)
    as (_ & _ & _ & C).
  split; [|split].
  - apply A; reflexivity.
  - apply B; reflexivity.
  - apply (C "/mnt/db" []); [reflexivity|discriminate|reflexivity].
Defined.

(** *** Mount and Unmount, one after the other *)

(** Mount followed by Unmount, on an unmounted record stored under its
    identifier and with every call succeeding: the record is mounted in
    between, Unmount unmounts the recorded path whatever path it is given,
    and at the end the store and the registry are what they were; four
    external calls were made.  The files are not restored: the backing file
    of the device has taken the writes of the kernel mount and of the
    kernel unmount, in this order.  Every other file is as it was, and a
    device that no [buseDev] serves changes no file. *)
Theorem Mount_Unmount_round_trip (L : GoLib) (X : Externals)
    (volumeID mountpath other : string) (v : Volume) (w : World) :
  store w !! volumeID = Some v ->
  Id v = volumeID ->
  AttachPath v = None ->
  mountpath <> "" ->
  let mnt := SyscallMount (DevicePath v) mountpath (SimpleString L (Format (Spec v))) in
  let umnt := SyscallUnmount mountpath in
  (forall w0, fault X mnt w0 = None) ->
  (forall w0, fault X (KvPut volumeID) w0 = None) ->
  (forall w0, fault X umnt w0 = None) ->
  exists w1 w2,
    buse.Mount L X volumeID mountpath w = Done None w1
    /\ store w1 !! volumeID = Some (set_AttachPath (Some [mountpath]) v)
    /\ buse.Unmount X volumeID other w1 = Done None w2
    /\ store w2 = store w /\ buseDevices w2 = buseDevices w
    /\ trace w2 = (trace w ++ [mnt; KvPut volumeID; umnt; KvPut volumeID])%list
    /\ match buseDevices w !! DevicePath v with
       | None => fs w2 = fs w
       | Some bd =>
           (forall p, p <> f bd -> fs w2 !! p = fs w !! p)
           /\ fs w2 !! f bd
              = (fun fl => mkFile (buse.apply_writes (dev_writes X umnt w1)
                                     (buse.apply_writes (dev_writes X mnt w) (data fl)))
                             (mode fl)) <$> fs w !! f bd
       end.
Proof.
  intros Hv Hid Hap Hne mnt umnt Hm Hp Hu. subst volumeID.
  unfold buse.Mount, buse.Unmount, buse.GetVol, buse.UpdateVol, index, store_index. plumb.
  rewrite Hv. plumb. rewrite Hap. cbn [len Nat.ltb Nat.leb andb]. plumb.
  fold mnt. rewrite Hm. cbn. plumb. rewrite Hp. plumb.
  eexists _, _. split; [reflexivity|]. plumb.
  rewrite lookup_insert_eq. split; [reflexivity|]. plumb. cbn.
  destruct (String.length mountpath =? 0)%nat eqn:Hlen.
  { apply Nat.eqb_eq in Hlen. destruct mountpath; [congruence|discriminate Hlen]. }
  fold umnt. rewrite Hu. plumb. rewrite Hp. plumb.
  split; [reflexivity|]. plumb.
  split; [|split; [reflexivity|split]].
  - rewrite insert_insert_eq. apply insert_id.
    rewrite Hv. f_equal. destruct v. cbn in *. subst. reflexivity.
  - rewrite <- !app_assoc. reflexivity.
  - rewrite !after_dev_fs. plumb. rewrite !after_dev_fs.
    destruct (buseDevices w !! DevicePath v) as [bd|]; [|reflexivity].
    destruct (fs w !! f bd) as [fl|] eqn:Hf; cbn [fmap option_fmap option_map].
    + rewrite lookup_insert_eq. cbn [data mode]. rewrite insert_insert_eq. split.
      * intros p Hpne. apply lookup_insert_ne. congruence.
      * apply lookup_insert_eq.
    + rewrite Hf. split; [reflexivity|exact Hf].
Qed.

(** The volume formatted in the empty world is mounted and unmounted: its
    backing file keeps the signature of the formatter, and the mark the
    kernel set at offset 4 is cleared again. *)
Lemma Mount_Unmount_round_trip_witness :
  exists w1 w2,
    buse.Mount sample_lib formatting_ext "vol-0" "/mnt/db" formatted_world = Done None w1
    /\ buse.Unmount formatting_ext "vol-0" "/somewhere/else" w1 = Done None w2
    /\ store w2 = store formatted_world
    /\ fs w1 !! "/var/lib/openstorage/buse/vol-0"
       = Some (mkFile [0; 0; 83; 239; 1; 0; 0; 0] 420)
    /\ fs w2 !! "/var/lib/openstorage/buse/vol-0"
       = Some (mkFile [0; 0; 83; 239; 0; 0; 0; 0] 420).
Proof.
  assert (Hv : store formatted_world !! "vol-0"
               = Some (mkVolume "vol-0" (mkLocator "db" ∅) None (mkSpec 8 2 1 ∅) 2
                         VolumeStatus_VOLUME_STATUS_NONE "/dev/nbd1" None))
    by (vm_compute; reflexivity).
  destruct (Mount_Unmount_round_trip sample_lib formatting_ext "vol-0" "/mnt/db"
              "/somewhere/else" _ formatted_world Hv)
    as (w1 & w2 & H1 & _ & H2 & H3 & _ & _ & _);
    [reflexivity|reflexivity|discriminate|reflexivity|reflexivity|reflexivity|].
  exists w1, w2. split; [exact H1|]. split; [exact H2|]. split; [exact H3|].
  assert (E1 : buse.Mount sample_lib formatting_ext "vol-0" "/mnt/db" formatted_world
               = Done None mounted_formatted_world) by (vm_compute; reflexivity).
  rewrite E1 in H1. injection H1 as <-.
  assert (E2 : buse.Unmount formatting_ext "vol-0" "/somewhere/else" mounted_formatted_world
               = Done None unmounted_formatted_world) by (vm_compute; reflexivity).
  rewrite E2 in H2. injection H2 as <-.
  split; vm_compute; reflexivity.
Defined.

(** *** Set *)

(** Set refuses every spec with NotSupported, without a look at the store.
    With a locator and no spec it writes the record back with the new
    locator and every other field as it was; with neither it writes the
    record back unchanged. *)
Theorem Set_updates_locator_only (X : Externals) (volumeID : string) (w : World) :
  (forall locator spec,
     buse.Set_ X volumeID locator (Some spec) w = Done (Some ErrNotSupported) w)
  /\ (forall v locator,
        store w !! volumeID = Some v ->
        Id v = volumeID ->
        (forall w0, fault X (KvPut volumeID) w0 = None) ->
        exists w',
          buse.Set_ X volumeID locator None w = Done None w'
          /\ store w' = <[volumeID := match locator with
                                      | Some l => set_Locator l v
                                      | None => v
                                      end]> (store w)
          /\ same_volume v (match locator with Some l => set_Locator l v | None => v end)
          /\ AttachPath (match locator with Some l => set_Locator l v | None => v end)
             = AttachPath v
          /\ trace w' = (trace w ++ [KvPut volumeID])%list).
Proof.
  split; [reflexivity|].
  intros v locator Hv Hid Hp. subst volumeID.
  unfold buse.Set_, buse.GetVol, buse.UpdateVol. plumb. rewrite Hv. plumb.
  destruct locator as [l|]; cbn [Id set_Locator]; rewrite Hp; plumb;
    (eexists; split; [reflexivity|]; plumb; repeat split).
Qed.

Lemma Set_updates_locator_only_witness :
  exists w',
    buse.Set_ sample_ext "v1" (Some (mkLocator "renamed" ∅)) None restarted_world
    = Done None w'
    /\ store w' !! "v1" = Some (set_Locator (mkLocator "renamed" ∅) sample_volume).
Proof.
  destruct (Set_updates_locator_only sample_ext "v1" restarted_world) as [_ A].
  destruct (A sample_volume (Some (mkLocator "renamed" ∅)))
    as (w' & H1 & H2 & _); [vm_compute; reflexivity|reflexivity|reflexivity|].
  exists w'. split; [exact H1|]. rewrite H2. apply lookup_insert_eq.
Defined.

(** *** Snapshot *)


(** What a successful Create changes in the store and in the files. *)
Lemma Create_effect (L : GoLib) (X : Externals) (locator : VolumeLocator)
    (source : option Source) (spec : VolumeSpec) (w w' : World) (id : string) :
  buse.Create L X locator source spec w = Done (id, None) w' ->
  store w !! id = None
  /\ exists dev fl,
       store w' = <[id := set_DevicePath dev
                            (buse.NewVolume id (Format spec) locator source spec)]> (store w)
       /\ fs w' = <[path_Join L buse.BuseMountPath id := fl]> (fs w).
Proof.
  unfold buse.Create, buse.os_Create, buse.file_Truncate, buse.CreateVol. plumb.
  destruct (Size spec =? 0); [discriminate|].
  destruct (Format spec =? FSType_FS_TYPE_NONE); [discriminate|].
  destruct (fault X (OsCreate _) _); [discriminate|]. plumb.
  destruct (fault X (FileTruncate _ _) _); [discriminate|]. plumb.
  destruct (to_int64 (Size spec) <? 0); [discriminate|]. plumb.
  destruct (fault X (NbdConnect _ _) _); [discriminate|]. plumb.
  destruct (fault X (ExecCommand _ _) _); [discriminate|]. plumb.
  destruct (fault X (KvCreate _) _); [discriminate|]. plumb.
  cbn [Id set_DevicePath buse.NewVolume].
  destruct (store w !! _) eqn:Hst; [discriminate|]. plumb.
  intros H. injection H as Hid Hw. subst w'. subst id. plumb.
  split; [exact Hst|]. eexists _, _. split; [reflexivity|].
  rewrite after_dev_fs. plumb. cbn [f].
  rewrite lookup_insert_eq. cbn [data mode]. rewrite insert_insert_eq.
  rewrite lookup_insert_eq. rewrite insert_insert_eq. reflexivity.
Qed.

(** Snapshot never returns an error: whatever goes wrong — the source is
    unknown, the Create fails, the copy fails — the caller gets a nil
    error. *)
Theorem Snapshot_never_errors (L : GoLib) (X : Externals) (volumeID : string)
    (readonly : bool) (locator : VolumeLocator) (w w' : World) (id : string)
    (e : option error) :
  buse.Snapshot L X volumeID readonly locator w = Done (id, e) w' ->
  e = None.
Proof.
  unfold buse.Snapshot, buse.Inspect, index, bind, ret, panic.
  destruct (buse.lookup_all (store w) [volumeID]) as [vols [err|]];
    [intros H; injection H as _ <- _; reflexivity|].
  destruct (vols !! 0%nat) as [v0|]; [|discriminate].
  destruct (buse.Create L X locator _ (Spec v0) w) as [[newID [err|]] w1|w1];
    [intros H; injection H as _ <- _; reflexivity| |discriminate].
  destruct (buse.copyFile X _ _ w1) as [[err|] w2|w2]; [| |discriminate].
  - destruct (buse.Delete X newID w2); [|discriminate].
    intros H; injection H as _ <- _; reflexivity.
  - intros H; injection H as _ <- _; reflexivity.
Qed.

Lemma Snapshot_never_errors_witness :
  snd ("", @None error) = None.
Proof.
  apply (Snapshot_never_errors sample_lib copy_fails_ext "v1" false (mkLocator "snap" ∅)
           restarted_world
           (final (buse.Snapshot sample_lib copy_fails_ext "v1" false (mkLocator "snap" ∅)
                     restarted_world)) "" None).
  vm_compute. reflexivity.
Defined.



(** *** What the driver keeps of every record *)

Lemma same_volume_refl (v : Volume) : same_volume v v.
Proof. repeat split. Qed.

Lemma keeps_same (w w' : World) : store w' = store w -> keeps_volumes w w'.
Proof.
  intros H id v v' Hv Hv'. rewrite H, Hv in Hv'. injection Hv' as <-.
  apply same_volume_refl.
Qed.

Lemma keeps_fresh (w w' : World) (k : string) (u : Volume) :
  store w !! k = None -> store w' = <[k := u]> (store w) -> keeps_volumes w w'.
Proof.
  intros Hk H id v v' Hv Hv'. rewrite H in Hv'.
  destruct (decide (k = id)) as [->|Hne]; [congruence|].
  rewrite lookup_insert_ne, Hv in Hv' by exact Hne. injection Hv' as <-.
  apply same_volume_refl.
Qed.

Lemma keeps_delete (w w' : World) (k : string) :
  store w' = delete k (store w) -> keeps_volumes w w'.
Proof.
  intros H id v v' Hv Hv'. rewrite H in Hv'.
  destruct (decide (k = id)) as [->|Hne]; [rewrite lookup_delete_eq in Hv'; discriminate|].
  rewrite lookup_delete_ne, Hv in Hv' by exact Hne. injection Hv' as <-.
  apply same_volume_refl.
Qed.

Lemma keeps_update (w w' : World) (k : string) (u u' : Volume) :
  store w !! k = Some u -> same_volume u u' -> store w' = <[k := u']> (store w) ->
  keeps_volumes w w'.
Proof.
  intros Hk Hs H id v v' Hv Hv'. rewrite H in Hv'.
  destruct (decide (k = id)) as [->|Hne].
  - rewrite lookup_insert_eq in Hv'. injection Hv' as <-. congruence.
  - rewrite lookup_insert_ne, Hv in Hv' by exact Hne. injection Hv' as <-.
    apply same_volume_refl.
Qed.

Lemma Create_store_cases (L : GoLib) (X : Externals) (locator : VolumeLocator)
    (source : option Source) (spec : VolumeSpec) (w : World) :
  store (final (buse.Create L X locator source spec w)) = store w
  \/ exists k u, store w !! k = None
                 /\ store (final (buse.Create L X locator source spec w))
                    = <[k := u]> (store w).
Proof.
  unfold buse.Create, buse.os_Create, buse.file_Truncate, buse.CreateVol.
  cases; try (left; reflexivity).
  right. eexists _, _. split; [eassumption|reflexivity].
Qed.

Lemma Delete_store_cases (X : Externals) (volumeID : string) (w : World) :
  store (final (buse.Delete X volumeID w)) = store w
  \/ store (final (buse.Delete X volumeID w)) = delete volumeID (store w).
Proof.
  unfold buse.Delete, buse.GetVol, buse.os_Remove, buse.DeleteVol.
  cases; try (left; reflexivity); right; reflexivity.
Qed.

Lemma Snapshot_store_cases (L : GoLib) (X : Externals) (volumeID : string)
    (readonly : bool) (locator : VolumeLocator) (w : World) :
  store (final (buse.Snapshot L X volumeID readonly locator w)) = store w
  \/ exists k u, store w !! k = None
                 /\ store (final (buse.Snapshot L X volumeID readonly locator w))
                    = <[k := u]> (store w).
Proof.
  unfold buse.Snapshot, buse.Inspect.
  rewrite final_bind.
  destruct (buse.lookup_all (store w) [volumeID]) as [vols [e|]]; [left; reflexivity|].
  rewrite final_bind. unfold index.
  destruct (vols !! 0%nat) as [v0|]; [|left; reflexivity]. cbn [ret].
  rewrite final_bind.
  pose proof (Create_store_cases L X locator (Some (mkSource volumeID)) (Spec v0) w) as Hc.
  pose proof (Create_effect L X locator (Some (mkSource volumeID)) (Spec v0) w) as He.
  destruct (buse.Create L X locator (Some (mkSource volumeID)) (Spec v0) w)
    as [[newID [e|]] w1|w1]; cbn [final] in Hc; [exact Hc| |exact Hc].
  destruct (He w1 newID eq_refl) as (Hfresh & dev & fl & Hst & _). clear He Hc.
  rewrite final_bind.
  pose proof (copyFile_frame X (buse.BuseMountPath +:+ volumeID)
                (buse.BuseMountPath +:+ newID) w1) as [Fs _].
  destruct (buse.copyFile X _ _ w1) as [[e|] w2|w2]; cbn [final] in Fs.
  - rewrite final_bind.
    pose proof (Delete_store_cases X newID w2) as Hd.
    destruct (buse.Delete X newID w2) as [r w3|w3]; cbn [final ret] in *.
    + destruct Hd as [Hd|Hd]; rewrite Hd, Fs, Hst.
      * right. eexists _, _. split; [exact Hfresh|reflexivity].
      * left. apply delete_insert_id. exact Hfresh.
    + destruct Hd as [Hd|Hd]; rewrite Hd, Fs, Hst.
      * right. eexists _, _. split; [exact Hfresh|reflexivity].
      * left. apply delete_insert_id. exact Hfresh.
  - cbn [final ret]. rewrite Fs, Hst. right. eexists _, _. split; [exact Hfresh|reflexivity].
  - rewrite Fs, Hst. right. eexists _, _. split; [exact Hfresh|reflexivity].
Qed.

(** The device path of a volume, once assigned at creation, never changes,
    and neither do its identifier, spec, source and format: every operation
    of the driver, on every outcome, leaves these fields of every record
    that is still in the store as they were. *)
Theorem driver_keeps_device_paths (L : GoLib) (X : Externals) (w : World) :
  store_ok w ->
  (forall locator source spec,
     keeps_volumes w (final (buse.Create L X locator source spec w)))
  /\ (forall volumeID, keeps_volumes w (final (buse.Delete X volumeID w)))
  /\ (forall volumeID mountpath,
        keeps_volumes w (final (buse.Mount L X volumeID mountpath w)))
  /\ (forall volumeID mountpath,
        keeps_volumes w (final (buse.Unmount X volumeID mountpath w)))
  /\ (forall volumeID locator spec,
        keeps_volumes w (final (buse.Set_ X volumeID locator spec w)))
  /\ (forall volumeID readonly locator,
        keeps_volumes w (final (buse.Snapshot L X volumeID readonly locator w))).
Proof.
  intros Hok.
  assert (Hkey : forall k v, store w !! k = Some v -> Id v = k).
  { intros k v Hv. exact (proj1 (map_Forall_lookup_1 _ _ _ _ Hok Hv)). }
  split; [|split; [|split; [|split; [|split]]]].
  - intros locator source spec.
    destruct (Create_store_cases L X locator source spec w) as [H|(k & u & Hk & H)].
    + apply keeps_same. exact H.
    + eapply keeps_fresh; eassumption.
  - intros volumeID.
    destruct (Delete_store_cases X volumeID w) as [H|H].
    + apply keeps_same. exact H.
    + eapply keeps_delete. exact H.
  - intros volumeID mountpath.
    unfold buse.Mount, buse.GetVol, buse.UpdateVol, index, store_index.
    cases; try (apply keeps_same; plumb; reflexivity).
    all: match goal with
         | Hv : store _ !! ?k = Some ?v |- _ =>
             eapply (keeps_update _ _ k v _ Hv);
               [|plumb; cbn [Id set_AttachPath]; rewrite (Hkey _ _ Hv); reflexivity];
               repeat split
         end.
  - intros volumeID mountpath.
    unfold buse.Unmount, buse.GetVol, buse.UpdateVol, index.
    cases; try (apply keeps_same; plumb; reflexivity).
    all: match goal with
         | Hv : store _ !! ?k = Some ?v |- _ =>
             eapply (keeps_update _ _ k v _ Hv);
               [|plumb; cbn [Id set_AttachPath]; rewrite (Hkey _ _ Hv); reflexivity];
               repeat split
         end.
  - intros volumeID locator spec.
    unfold buse.Set_, buse.GetVol, buse.UpdateVol.
    cases; try (apply keeps_same; plumb; reflexivity).
    + match goal with
      | Hv : store _ !! ?k = Some ?v |- _ =>
          eapply (keeps_update _ _ k v _ Hv);
            [|plumb; cbn [Id set_Locator]; rewrite (Hkey _ _ Hv); reflexivity];
            repeat split
      end.
    + match goal with
      | Hv : store _ !! ?k = Some ?v |- _ =>
          eapply (keeps_update _ _ k v _ Hv);
            [|plumb; rewrite (Hkey _ _ Hv); reflexivity];
            repeat split
      end.
  - intros volumeID readonly locator.
    destruct (Snapshot_store_cases L X volumeID readonly locator w) as [H|(k & u & Hk & H)].
    + apply keeps_same. exact H.
    + eapply keeps_fresh; eassumption.
Qed.

Lemma store_ok_restarted : store_ok restarted_world.
Proof.
  apply map_Forall_singleton. split; [reflexivity|discriminate].
Qed.

Lemma driver_keeps_device_paths_witness :
  keeps_volumes restarted_world
    (final (buse.Mount sample_lib sample_ext "v1" "/mnt/db" restarted_world))
  /\ keeps_volumes restarted_world
       (final (buse.Snapshot sample_lib sample_ext "v1" false (mkLocator "snap" ∅)
                 restarted_world)).
Proof.
  destruct (driver_keeps_device_paths sample_lib sample_ext restarted_world
              store_ok_restarted) as (_ & _ & M & _ & _ & S).
  split; [apply M|apply S].
Defined.

(** Every operation of the driver, on every outcome, leaves every record
    under its own identifier and with an attach path that is nil or has an
    entry. *)
Theorem driver_keeps_store_shape (L : GoLib) (X : Externals) (w : World) :
  store_ok w ->
  (forall locator source spec, store_ok (final (buse.Create L X locator source spec w)))
  /\ (forall volumeID, store_ok (final (buse.Delete X volumeID w)))
  /\ (forall volumeID mountpath, store_ok (final (buse.Mount L X volumeID mountpath w)))
  /\ (forall volumeID mountpath, store_ok (final (buse.Unmount X volumeID mountpath w)))
  /\ (forall volumeID locator spec, store_ok (final (buse.Set_ X volumeID locator spec w)))
  /\ (forall volumeID readonly locator,
        store_ok (final (buse.Snapshot L X volumeID readonly locator w))).
Proof.
  intros H. split; [|split; [|split; [|split; [|split]]]]; intros.
  - apply Create_store_ok, H.
  - apply Delete_store_ok, H.
  - apply Mount_store_ok, H.
  - apply Unmount_store_ok, H.
  - apply Set_store_ok, H.
  - apply Snapshot_store_ok, H.
Qed.

Lemma driver_keeps_store_shape_witness :
  store_ok (final (buse.Create sample_lib sample_ext (mkLocator "db" ∅) None
                     (mkSpec 8 2 1 ∅) empty_world))
  /\ store_ok (final (buse.Mount sample_lib sample_ext "v1" "/mnt/db" restarted_world)).
Proof.
  destruct (driver_keeps_store_shape sample_lib sample_ext empty_world store_ok_empty)
    as (C & _).
  destruct (driver_keeps_store_shape sample_lib sample_ext restarted_world
              store_ok_restarted) as (_ & _ & M & _).
  split; [apply C|apply M].
Defined.

(** *** Init *)

Lemma mark_up_frame (X : Externals) (l : list Volume) (w : World) :
  buseDevices (final (buse.mark_up X l w)) = buseDevices w.
Proof.
  revert w. induction l as [|a l IH]; intros w; [reflexivity|].
  cbn [buse.mark_up]. destruct (Status a); [|apply IH].
  rewrite final_bind. unfold buse.UpdateVol. plumb.
  destruct (fault X (KvPut _) w); plumb; rewrite IH; reflexivity.
Qed.

(** A driver instance starts with an empty device registry, whatever the
    store holds: after Init, whether it succeeded or not, Delete fails with
    the device-not-registered error for every record of the store and
    changes nothing. *)
Theorem Init_forgets_devices (X : Externals) (w : World) :
  buseDevices (final (buse.Init X w)) = ∅
  /\ (forall volumeID v,
        store (final (buse.Init X w)) !! volumeID = Some v ->
        buse.Delete X volumeID (final (buse.Init X w))
        = Done (Some (Errorf "Cannot locate a BUSE device for %s" [AString (DevicePath v)]))
            (final (buse.Init X w))).
Proof.
  assert (H : buseDevices (final (buse.Init X w)) = ∅).
  { unfold buse.Init, buse.Enumerate. plumb.
    destruct (fault X (OsMkdirAll _ _) _); plumb; [reflexivity|].
    match goal with |- context [buse.mark_up X ?l ?w0] =>
      pose proof (mark_up_frame X l w0) as Hm; destruct (buse.mark_up X l w0) end;
      cbn [final ret] in *; exact Hm. }
  split; [exact H|].
  intros volumeID v Hv. unfold buse.Delete, buse.GetVol. plumb.
  rewrite Hv. plumb. rewrite H, lookup_empty. reflexivity.
Qed.

Lemma Init_forgets_devices_witness :
  buse.Delete sample_ext "v1" (final (buse.Init sample_ext stale_world))
  = Done (Some (Errorf "Cannot locate a BUSE device for %s" [AString "/dev/nbd0"]))
      (final (buse.Init sample_ext stale_world)).
Proof.
  destruct (Init_forgets_devices sample_ext stale_world) as [_ A].
  apply (A "v1" (marked_up (mkVolume "v1" (mkLocator "db" ∅) None sample_spec 2
                              VolumeStatus_VOLUME_STATUS_NONE "/dev/nbd0" None))).
  vm_compute. reflexivity.
Defined.

Lemma mark_up_store (X : Externals) (l : list Volume) (w : World) :
  (forall k w0, fault X (KvPut k) w0 = None) ->
  exists w', buse.mark_up X l w = Done tt w'
             /\ store w' = foldl mark_in_store (store w) l.
Proof.
  intros Hp. revert w. induction l as [|a l IH]; intros w.
  - eexists. split; reflexivity.
  - cbn [buse.mark_up foldl]. unfold mark_in_store at 2. destruct (Status a).
    + unfold buse.UpdateVol. plumb. cbn [Id]. rewrite Hp. plumb.
      match goal with |- context [buse.mark_up X l ?w0] =>
        destruct (IH w0) as (w' & Hw & Hs) end.
      exists w'. split; [exact Hw|]. rewrite Hs. reflexivity.
    + apply IH.
Qed.

Lemma foldl_mark_lookup (l : list Volume) (st : gmap string Volume) (id : string)
    (v' : Volume) :
  foldl mark_in_store st l !! id = Some v' ->
  (exists a, a ∈ l /\ Id a = id /\ v' = marked_up a)
  \/ (st !! id = Some v'
      /\ forall a, a ∈ l -> Id a = id -> Status a <> VolumeStatus_VOLUME_STATUS_NONE).
Proof.
  revert st. induction l as [|a l IH]; intros st H.
  - right. split; [exact H|]. intros a Ha. apply elem_of_nil in Ha. destruct Ha.
  - cbn [foldl] in H. destruct (IH _ H) as [(b & Hb & Hid & Hv)|[Hst Hall]].
    + left. exists b. split; [apply elem_of_cons; right; exact Hb|]. split; assumption.
    + unfold mark_in_store in Hst. destruct (Status a) eqn:Hsa.
      * destruct (decide (Id a = id)) as [Heq|Hne].
        -- left. exists a. rewrite Heq, lookup_insert_eq in Hst. injection Hst as <-.
           split; [apply elem_of_cons; left; reflexivity|]. split; [exact Heq|reflexivity].
        -- right. rewrite lookup_insert_ne in Hst by exact Hne. split; [exact Hst|].
           intros b Hb Hid. apply elem_of_cons in Hb. destruct Hb as [->|Hb];
             [congruence|exact (Hall b Hb Hid)].
      * right. split; [exact Hst|].
        intros b Hb Hid. apply elem_of_cons in Hb. destruct Hb as [->|Hb];
          [congruence|exact (Hall b Hb Hid)].
Qed.

(** Init marks the records UP.  On a store whose records are under their
    identifiers, when the directory can be made and every write succeeds,
    Init succeeds, no record of the store has status NONE afterwards, and
    every record is one of the store before, with nothing but the status
    changed. *)
Theorem Init_marks_volumes_up (X : Externals) (w : World) :
  store_ok w ->
  (forall w0, fault X (OsMkdirAll buse.BuseMountPath 484) w0 = None) ->
  (forall k w0, fault X (KvPut k) w0 = None) ->
  exists w',
    buse.Init X w = Done None w'
    /\ forall id v',
         store w' !! id = Some v' ->
         Status v' <> VolumeStatus_VOLUME_STATUS_NONE
         /\ exists v, store w !! id = Some v /\ same_volume v v'
                      /\ Locator v' = Locator v /\ AttachPath v' = AttachPath v.
Proof.
  intros Hok Hm Hp.
  unfold buse.Init, buse.Enumerate. plumb. rewrite Hm. plumb.
  match goal with |- context [buse.mark_up X ?l ?w0] =>
    destruct (mark_up_store X l w0 Hp) as (w' & Hw & Hs); rewrite Hw;
    set (all := l) in * end.
  exists w'. split; [reflexivity|]. plumb.
  intros id v' Hv'. rewrite Hs in Hv'. plumb.
  assert (Hall : forall a, a ∈ all -> store w !! Id a = Some a).
  { intros a Ha. apply list_elem_of_filter in Ha. destruct Ha as [_ Ha].
    apply list_elem_of_fmap in Ha. destruct Ha as ([k b] & -> & Hkb).
    apply elem_of_map_to_list in Hkb. cbn.
    rewrite (proj1 (map_Forall_lookup_1 _ _ _ _ Hok Hkb)). exact Hkb. }
  assert (Hin : forall a, store w !! id = Some a -> a ∈ all).
  { intros a Ha. apply list_elem_of_filter. split.
    - unfold buse.matches. cbn. unfold hasSubset.
      rewrite !bool_decide_eq_true_2 by apply map_Forall_empty. reflexivity.
    - apply list_elem_of_fmap. exists (id, a). split; [reflexivity|].
      apply elem_of_map_to_list. exact Ha. }
  destruct (foldl_mark_lookup _ _ _ _ Hv') as [(a & Ha & Hid & ->)|[Hst Hno]].
  - split; [discriminate|]. exists a. rewrite <- Hid. split; [exact (Hall a Ha)|].
    repeat split.
  - split.
    + apply (Hno v' (Hin v' Hst)).
      exact (proj1 (map_Forall_lookup_1 _ _ _ _ Hok Hst)).
    + exists v'. split; [exact Hst|]. repeat split.
Qed.

Lemma store_ok_stale : store_ok stale_world.
Proof. apply map_Forall_singleton. split; [reflexivity|discriminate]. Qed.

Lemma Init_marks_volumes_up_witness :
  exists w',
    buse.Init sample_ext stale_world = Done None w'
    /\ (Status <$> store w' !! "v1") = Some VolumeStatus_VOLUME_STATUS_UP.
Proof.
  destruct (Init_marks_volumes_up sample_ext stale_world store_ok_stale)
    as (w' & H & _); [reflexivity|reflexivity|].
  exists w'. split; [exact H|].
  revert H. vm_compute. intros H. injection H as <-. reflexivity.
Defined.

(** ** Further properties of the volume-plugin protocol server *)

Ltac answer :=
  intros w' s' H; injection H as <- _; split; [reflexivity|eexists; split; reflexivity].

(** Whatever the driver answers, a request that decodes is answered with
    status 200 and one JSON value, by every handler of the plugin protocol:
    failures of the driver and of the lookup travel in the Err field, never
    in the status. *)
Theorem plugin_answers_json_200 {S} (L : GoLib) (E : ServerEnv S) (name : string) (s : S) :
  (forall request w' s',
     docker.create L E name new_writer (Ok request) s = Done w' s' -> json_200 w')
  /\ (forall request w' s',
        docker.remove L E name new_writer (Ok request) s = Done w' s' -> json_200 w')
  /\ (forall request w' s',
        docker.mount L E name new_writer (Ok request) s = Done w' s' -> json_200 w')
  /\ (forall request w' s',
        docker.path L E name new_writer (Ok request) s = Done w' s' -> json_200 w')
  /\ (forall w' s', docker.list L E name new_writer s = Done w' s' -> json_200 w')
  /\ (forall request w' s',
        docker.get L E name new_writer (Ok request) s = Done w' s' -> json_200 w')
  /\ (forall request w' s',
        docker.unmount L E name new_writer (Ok request) s = Done w' s' -> json_200 w').
Proof.
  unfold json_200.
  split; [|split; [|split; [|split; [|split; [|split]]]]].
  - intros request. unfold docker.create, docker.decode.
    cases; try answer; discriminate.
  - intros request. unfold docker.remove, docker.decode.
    cases; try answer; discriminate.
  - intros request. unfold docker.mount, docker.decodeMount, docker.decode.
    cases; try answer; discriminate.
  - intros request. unfold docker.path, docker.decode, index.
    cases; try answer; discriminate.
  - unfold docker.list. cases; try answer; discriminate.
  - intros request. unfold docker.get, docker.decode.
    cases; try answer; discriminate.
  - intros request. unfold docker.unmount, docker.decodeMount, docker.decode.
    cases; try answer; discriminate.
Qed.

Lemma plugin_answers_json_200_witness :
  json_200 (mkRW (Some 200) [JvolumeResponse "Key not found"])
  /\ json_200 (mkRW (Some 200) [JvolumeResponse ""]).
Proof.
  destruct (plugin_answers_json_200 sample_lib
              (sample_server (buse_driver sample_lib sample_ext)) "buse" restarted_world)
    as (C & R & _).
  split.
  - apply (R (docker.mkVolumeRequest "db" ∅) _ restarted_world).
    vm_compute. reflexivity.
  - apply (C (docker.mkVolumeRequest "db" ∅) _ restarted_world).
    vm_compute. reflexivity.
Defined.

(** A body that does not decode is answered with status 400 and the text
    of the two errors, and the driver is not called: the state is
    unchanged.  Mount, once the driver is resolved, writes a JSON error
    after that text as well; Unmount does not. *)
Theorem plugin_bad_json {S} (L : GoLib) (E : ServerEnv S) (name : string) (err : error)
    (s : S) :
  let e := Errorf "Unable to decode JSON payload" [] in
  let text := Text (err_text L e +:+ ":" +:+ err_text L err) in
  docker.create L E name new_writer (Err err) s = Done (mkRW (Some 400) [text]) s
  /\ docker.remove L E name new_writer (Err err) s = Done (mkRW (Some 400) [text]) s
  /\ docker.path L E name new_writer (Err err) s = Done (mkRW (Some 400) [text]) s
  /\ docker.get L E name new_writer (Err err) s = Done (mkRW (Some 400) [text]) s
  /\ (forall d, drivers_Get E name = Ok d ->
        docker.unmount L E name new_writer (Err err) s = Done (mkRW (Some 400) [text]) s
        /\ docker.mount L E name new_writer (Err err) s
           = Done (mkRW (Some 400) [text; JvolumeResponse (err_text L e)]) s).
Proof.
  intros e text. repeat split.
  - unfold docker.unmount. rewrite H. reflexivity.
  - unfold docker.mount. rewrite H. reflexivity.
Qed.

Lemma plugin_bad_json_witness :
  docker.mount sample_lib (sample_server (buse_driver sample_lib sample_ext)) "buse"
    new_writer (Err (ExtError "unexpected end of JSON input")) restarted_world
  = Done (mkRW (Some 400)
            [Text "Unable to decode JSON payload:unexpected end of JSON input";
             JvolumeResponse "Unable to decode JSON payload"]) restarted_world.
Proof.
  destruct (plugin_bad_json sample_lib (sample_server (buse_driver sample_lib sample_ext))
              "buse" (ExtError "unexpected end of JSON input") restarted_world)
    as (_ & _ & _ & _ & A).
  destruct (A (buse_driver sample_lib sample_ext) eq_refl) as [_ M].
  exact M.
Defined.

(** Remove hands the parsed name to the driver's Delete as a volume
    identifier, without a lookup by name.  With the buse driver a name that
    is not an identifier of the store is answered with the NotFound of the
    store and nothing is deleted, also when a volume of that name exists. *)
Theorem remove_takes_the_name_as_identifier (L L' : GoLib) (X : Externals)
    (E : ServerEnv World) (name : string) (request : docker.volumeRequest) (w : World) :
  drivers_Get E name = Ok (buse_driver L' X) ->
  store w !! snd (SpecFromString E (docker.Name_ request)) = None ->
  docker.remove L E name new_writer (Ok request) w
  = Done (docker.errorResponse L new_writer ErrNotFound) w.
Proof.
  intros Hd Hn. unfold docker.remove, docker.decode. rewrite Hd.
  destruct (SpecFromString E (docker.Name_ request)) as [[b sp] nm]. cbn [snd] in Hn.
  unfold bind, buse_driver, buse.Delete, buse.GetVol. cbn [vd_Delete]. plumb.
  rewrite Hn. reflexivity.
Qed.

Lemma remove_takes_the_name_as_identifier_witness :
  let E := sample_server (buse_driver sample_lib sample_ext) in
  docker.volFromName sample_lib E "buse" "db" restarted_world
  = Done (Ok sample_volume) restarted_world
  /\ docker.remove sample_lib E "buse" new_writer (Ok (docker.mkVolumeRequest "db" ∅))
       restarted_world
     = Done (mkRW (Some 200) [JvolumeResponse "Key not found"]) restarted_world.
Proof.
  intros E. split; [vm_compute; reflexivity|].
  apply (remove_takes_the_name_as_identifier sample_lib sample_lib sample_ext E "buse"
           (docker.mkVolumeRequest "db" ∅) restarted_world eq_refl).
  vm_compute. reflexivity.
Defined.

(** With the buse driver, whose Attach always succeeds, Mount never scales
    up: whatever the scale of the resolved volume, no replica is looked up
    or created, and the resolved volume itself is handed to the driver's
    Mount at the mountpoint of the name. *)
Theorem buse_mount_never_scales (L L' : GoLib) (X : Externals) (E : ServerEnv World)
    (name : string) (request : docker.mountRequest) (vol : Volume) (w w0 : World) :
  drivers_Get E name = Ok (buse_driver L' X) ->
  docker.volFromName L E name (snd (SpecFromString E (docker.mName request))) w
  = Done (Ok vol) w0 ->
  let mountpoint := docker.mountpath L E (snd (SpecFromString E (docker.mName request))) in
  docker.attachVol L E name "mount" (buse_driver L' X) vol w0 = Done (vol, None) w0
  /\ docker.mount L E name new_writer (Ok request) w
     = (os_MkdirAll E mountpoint 493 ;;;
        e <- buse.Mount L' X (Id vol) mountpoint ;;
        ret (match e with
             | Some err => docker.errorResponse L new_writer err
             | None => Encode (JvolumePathResponse mountpoint "") new_writer
             end)) w0.
Proof.
  intros Hd Hv mountpoint. split; [reflexivity|].
  unfold docker.mount, docker.decodeMount, docker.decode. rewrite Hd.
  subst mountpoint.
  destruct (SpecFromString E (docker.mName request)) as [[b sp] nm]. cbn [snd] in *.
  unfold bind at 1. rewrite Hv. cbn [vd_Type buse_driver buse.Type_].
  unfold bind, ret, docker.attachVol.
  cbn [vd_Attach vd_Mount buse_driver buse.Attach bind ret].
  destruct (os_MkdirAll E _ _ w0) as [u w1|w1]; [|reflexivity].
  destruct (buse.Mount L' X (Id vol) _ w1) as [[err|] w2|w2]; reflexivity.
Qed.

Lemma buse_mount_never_scales_witness :
  let E := sample_server (buse_driver sample_lib sample_ext) in
  value (docker.mount sample_lib E "buse" new_writer
           (Ok (docker.mkMountRequest "db_2" "c0ffee")) scaled_world)
  = Some (mkRW (Some 200) [JvolumePathResponse "/var/lib/osd/mounts/db_2" ""])
  /\ dom (store (final (docker.mount sample_lib E "buse" new_writer
                          (Ok (docker.mkMountRequest "db_2" "c0ffee")) scaled_world)))
     = dom (store scaled_world).
Proof.
  intros E.
  assert (H : docker.volFromName sample_lib E "buse"
                (snd (SpecFromString E (docker.mName (docker.mkMountRequest "db_2" "c0ffee"))))
                scaled_world = Done (Ok (scaled_volume "db_2" None)) scaled_world)
    by (vm_compute; reflexivity).
  destruct (buse_mount_never_scales sample_lib sample_lib sample_ext E "buse"
              (docker.mkMountRequest "db_2" "c0ffee") (scaled_volume "db_2" None)
              scaled_world scaled_world eq_refl H) as [_ M].
  rewrite M. split; vm_compute; reflexivity.
Defined.

(** *** The attach step of Mount *)

(** Mount on a block driver, after the lookup: the outcome of the attach
    step decides. *)
Lemma mount_block_resolved {S} (L : GoLib) (E : ServerEnv S) (name : string)
    (v : VolumeDriver S) (request : docker.mountRequest) (vol : Volume) (s s0 : S) :
  drivers_Get E name = Ok v ->
  vd_Type v = DriverType_DRIVER_TYPE_BLOCK ->
  docker.volFromName L E name (snd (SpecFromString E (docker.mName request))) s
  = Done (Ok vol) s0 ->
  let mountpoint := docker.mountpath L E (snd (SpecFromString E (docker.mName request))) in
  docker.mount L E name new_writer (Ok request) s
  = match docker.attachVol L E name "mount" v vol s0 with
    | Done (_, Some err) s' => Done (docker.errorResponse L new_writer err) s'
    | Done (vol', None) s' =>
        (os_MkdirAll E mountpoint 493 ;;;
         e <- vd_Mount v (Id vol') mountpoint ;;
         ret (match e with
              | Some err => docker.errorResponse L new_writer err
              | None => Encode (JvolumePathResponse mountpoint "") new_writer
              end)) s'
    | Panicked s' => Panicked s'
    end.
Proof.
  intros Hd Ht Hv mountpoint.
  unfold docker.mount, docker.decodeMount, docker.decode. rewrite Hd.
  subst mountpoint.
  destruct (SpecFromString E (docker.mName request)) as [[b sp] nm].
  cbn [snd] in *. unfold bind at 1. rewrite Hv. rewrite Ht.
  unfold bind at 1.
  destruct (docker.attachVol L E name "mount" v vol s0) as [[vol' [err|]] s'|s'];
    try reflexivity.
  unfold bind, ret. destruct (os_MkdirAll E _ _ s'); [|reflexivity].
  destruct (vd_Mount v (Id vol') _ _) as [[err|] s''|s'']; reflexivity.
Qed.

(** The attach step of Mount on a block driver.  An Attach that answers
    "attached on a remote node" counts as a success: the resolved volume is
    mounted.  The scale-limit error for a volume of scale 1 or less, and
    every other error of Attach, end the request with that error: nothing
    is mounted. *)
Theorem mount_attach_outcomes {S} (L : GoLib) (E : ServerEnv S) (name : string)
    (v : VolumeDriver S) (request : docker.mountRequest) (vol : Volume) (p : string)
    (s s0 s1 : S) :
  drivers_Get E name = Ok v ->
  vd_Type v = DriverType_DRIVER_TYPE_BLOCK ->
  docker.volFromName L E name (snd (SpecFromString E (docker.mName request))) s
  = Done (Ok vol) s0 ->
  let mountpoint := docker.mountpath L E (snd (SpecFromString E (docker.mName request))) in
  (vd_Attach v (Id vol) s0 = Done (p, Some ErrVolAttachedOnRemoteNode) s1 ->
   docker.mount L E name new_writer (Ok request) s
   = (os_MkdirAll E mountpoint 493 ;;;
      e <- vd_Mount v (Id vol) mountpoint ;;
      ret (match e with
           | Some err => docker.errorResponse L new_writer err
           | None => Encode (JvolumePathResponse mountpoint "") new_writer
           end)) s1)
  /\ (vd_Attach v (Id vol) s0 = Done (p, Some ErrVolAttachedScale) s1 ->
      Scale (Spec vol) <= 1 ->
      docker.mount L E name new_writer (Ok request) s
      = Done (docker.errorResponse L new_writer ErrVolAttachedScale) s1)
  /\ (forall err,
        vd_Attach v (Id vol) s0 = Done (p, Some err) s1 ->
        err <> ErrVolAttachedOnRemoteNode -> err <> ErrVolAttachedScale ->
        docker.mount L E name new_writer (Ok request) s
        = Done (docker.errorResponse L new_writer err) s1).
Proof.
  intros Hd Ht Hv mountpoint.
  pose proof (mount_block_resolved L E name v request vol s s0 Hd Ht Hv) as Hm.
  cbv zeta in Hm. fold mountpoint in Hm.
  repeat split.
  - intros Ha. rewrite Hm. unfold docker.attachVol, bind. rewrite Ha. reflexivity.
  - intros Ha Hs. rewrite Hm. unfold docker.attachVol, bind. rewrite Ha.
    apply Z.ltb_ge in Hs. rewrite Hs. reflexivity.
  - intros err Ha H1 H2. rewrite Hm. unfold docker.attachVol, bind. rewrite Ha.
    destruct err; try reflexivity; congruence.
Qed.

(** The scale-up search does not go past a replica that can be neither
    found nor created: after replicas that refused the attach, the error of
    the failed creation or lookup ends the Mount request, and the later
    indices are not tried. *)
Theorem scale_up_stops_at_failed_create {S} (L : GoLib) (E : ServerEnv S) (name : string)
    (v : VolumeDriver S) (request : docker.mountRequest) (vol : Volume) (p : string)
    (k : nat) (err : error) (s s0 s1 s2 s3 : S) :
  drivers_Get E name = Ok v ->
  vd_Type v = DriverType_DRIVER_TYPE_BLOCK ->
  docker.volFromName L E name (snd (SpecFromString E (docker.mName request))) s
  = Done (Ok vol) s0 ->
  vd_Attach v (Id vol) s0 = Done (p, Some ErrVolAttachedScale) s1 ->
  Z.of_nat k + 1 < Scale (Spec vol) ->
  refused L E name v vol 1 k s1 s2 ->
  replica L E name v vol (1 + Z.of_nat k) s2 = Done (Err err) s3 ->
  docker.mount L E name new_writer (Ok request) s
  = Done (docker.errorResponse L new_writer err) s3.
Proof.
  intros Hd Ht Hv Ha Hk Href Hrep.
  rewrite (mount_block_resolved L E name v request vol s s0 Hd Ht Hv).
  unfold docker.attachVol, bind at 1. rewrite Ha.
  assert (Hs : (1 <? Scale (Spec vol)) = true) by (apply Z.ltb_lt; lia).
  rewrite Hs. unfold docker.scaleUp.
  replace (Z.to_nat (Scale (Spec vol) - 1))
    with (k + Datatypes.S (Z.to_nat (Scale (Spec vol) - 1) - Datatypes.S k))%nat by lia.
  rewrite (scaleUp_from_refused _ _ _ _ _ _ _ _ _ Href).
  rewrite scaleUp_from_S. unfold bind at 1. rewrite Hrep. reflexivity.
Qed.

Lemma mount_attach_outcomes_witness :
  value (docker.mount sample_lib (sample_server remote_driver) "buse" new_writer
           (Ok (docker.mkMountRequest "db" "c0ffee")) restarted_world)
  = Some (mkRW (Some 200) [JvolumePathResponse "/var/lib/osd/mounts/db" ""]).
Proof.
  assert (H : docker.volFromName sample_lib (sample_server remote_driver) "buse"
                (snd (SpecFromString (sample_server remote_driver)
                        (docker.mName (docker.mkMountRequest "db" "c0ffee"))))
                restarted_world = Done (Ok sample_volume) restarted_world)
    by (vm_compute; reflexivity).
  destruct (mount_attach_outcomes sample_lib (sample_server remote_driver) "buse"
              remote_driver (docker.mkMountRequest "db" "c0ffee") sample_volume ""
              restarted_world restarted_world restarted_world eq_refl eq_refl H)
    as (A & _).
  rewrite A; [|reflexivity]. vm_compute. reflexivity.
Defined.

Lemma scale_up_stops_at_failed_create_witness :
  exists w',
    docker.mount sample_lib (sample_server busy_unformatted_driver) "buse" new_writer
      (Ok (docker.mkMountRequest "db" "c0ffee")) busy_world
    = Done (mkRW (Some 200) [JvolumeResponse "exit status 1"]) w'.
Proof.
  pose (E := sample_server busy_unformatted_driver).
  pose (db := scaled_volume "db" (Some ["/var/lib/osd/mounts/db"])).
  pose (w3 := final (replica sample_lib E "buse" busy_unformatted_driver db 1 busy_world)).
  exists w3.
  assert (H : docker.volFromName sample_lib E "buse"
                (snd (SpecFromString E (docker.mName (docker.mkMountRequest "db" "c0ffee"))))
                busy_world = Done (Ok db) busy_world) by (vm_compute; reflexivity).
  assert (Ha : vd_Attach busy_unformatted_driver (Id db) busy_world
               = Done ("", Some ErrVolAttachedScale) busy_world)
    by (vm_compute; reflexivity).
  assert (Hr : replica sample_lib E "buse" busy_unformatted_driver db (1 + Z.of_nat 0)
                 busy_world = Done (Err (ExtError "exit status 1")) w3)
    by (vm_compute; reflexivity).
  apply (scale_up_stops_at_failed_create sample_lib E "buse" busy_unformatted_driver
           (docker.mkMountRequest "db" "c0ffee") db "" 0 (ExtError "exit status 1")
           busy_world busy_world busy_world busy_world w3 eq_refl eq_refl H Ha).
  - vm_compute. reflexivity.
  - apply refused_none.
  - exact Hr.
Defined.

Lemma volFromName_with_Attach {S} (L : GoLib) (E : ServerEnv S) (name nm : string)
    (a : string -> M S (string * option error)) :
  docker.volFromName L (env_with_Attach a E) name nm = docker.volFromName L E name nm.
Proof.
  unfold docker.volFromName. simpl. destruct (drivers_Get E name); reflexivity.
Qed.

(** Mount attaches on block drivers only: with a driver of another type the
    answer and the state are the same whatever the Attach of the driver
    is, so Attach is not invoked. *)
Theorem mount_attaches_block_drivers_only {S} (L : GoLib) (E : ServerEnv S)
    (name : string) (v : VolumeDriver S) (request : res docker.mountRequest)
    (a : string -> M S (string * option error)) (s : S) :
  drivers_Get E name = Ok v ->
  vd_Type v <> DriverType_DRIVER_TYPE_BLOCK ->
  docker.mount L (env_with_Attach a E) name new_writer request s
  = docker.mount L E name new_writer request s.
Proof.
  intros Hd Ht. unfold docker.mount, docker.decodeMount, docker.decode, docker.mountpath.
  cbn [drivers_Get env_with_Attach SpecFromString os_MkdirAll MountBase]. rewrite Hd.
  destruct request as [request|err]; [|reflexivity].
  destruct (SpecFromString E (docker.mName request)) as [[b sp] nm].
  unfold bind. rewrite volFromName_with_Attach.
  destruct (docker.volFromName L E name nm s) as [[vol|err] s0|s0]; try reflexivity.
  cbn [vd_Type with_Attach vd_Mount].
  destruct (vd_Type v); try reflexivity. congruence.
Qed.

Lemma mount_attaches_block_drivers_only_witness :
  value (docker.mount sample_lib (env_with_Attach (fun _ => panic) (sample_server file_driver))
           "buse" new_writer (Ok (docker.mkMountRequest "db" "c0ffee")) restarted_world)
  = Some (mkRW (Some 200) [JvolumePathResponse "/var/lib/osd/mounts/db" ""]).
Proof.
  rewrite (mount_attaches_block_drivers_only sample_lib (sample_server file_driver) "buse"
             file_driver (Ok (docker.mkMountRequest "db" "c0ffee")) (fun _ => panic)
             restarted_world eq_refl).
  - vm_compute. reflexivity.
  - discriminate.
Defined.

(** *** Path, Get and List *)

(** Path and Get read the mountpoint off the first entry of the attach
    path of the resolved volume.  For a volume with no entry Path answers
    "volume not mounted" and Get an empty mountpoint; for a mounted volume
    both answer that entry joined with the data directory.  Get names the
    volume by the requested name. *)
Theorem path_and_get_agree {S} (L : GoLib) (E : ServerEnv S) (name : string)
    (request : docker.volumeRequest) (vol : Volume) (s s' : S) :
  docker.volFromName L E name (snd (SpecFromString E (docker.Name_ request))) s
  = Done (Ok vol) s' ->
  let nm := snd (SpecFromString E (docker.Name_ request)) in
  (len (AttachPath vol) = 0%nat ->
   docker.path L E name new_writer (Ok request) s
   = Done (docker.errorResponse L new_writer (Errorf "volume not mounted" [])) s'
   /\ docker.get L E name new_writer (Ok request) s
      = Done (Encode (JVolumeInfo (mkVolumeInfo nm "")) new_writer) s')
  /\ (forall p rest,
        AttachPath vol = Some (p :: rest) ->
        docker.path L E name new_writer (Ok request) s
        = Done (Encode (JvolumePathResponse (path_Join L p (DataDir E)) "") new_writer) s'
        /\ docker.get L E name new_writer (Ok request) s
           = Done (Encode (JVolumeInfo (mkVolumeInfo nm (path_Join L p (DataDir E))))
                     new_writer) s').
Proof.
  intros Hv nm. subst nm.
  unfold docker.path, docker.get, docker.decode, docker.list_info, docker.volNotMounted.
  destruct (SpecFromString E (docker.Name_ request)) as [[b sp] nm]. cbn [snd] in *.
  unfold bind. rewrite Hv. split.
  - intros Hl. rewrite Hl. cbn. split; [reflexivity|].
    destruct (AttachPath vol) as [[|p l]|]; [reflexivity|discriminate|reflexivity].
  - intros p rest Hap. rewrite Hap. split; reflexivity.
Qed.

Lemma path_and_get_agree_witness :
  let E := sample_server (buse_driver sample_lib sample_ext) in
  docker.path sample_lib E "buse" new_writer (Ok (docker.mkVolumeRequest "v1" ∅)) mounted_world
  = Done (mkRW (Some 200) [JvolumePathResponse "/mnt/db" ""]) mounted_world
  /\ docker.get sample_lib E "buse" new_writer (Ok (docker.mkVolumeRequest "v1" ∅))
       restarted_world
     = Done (mkRW (Some 200) [JVolumeInfo (mkVolumeInfo "v1" "")]) restarted_world.
Proof.
  intros E.
  assert (H1 : docker.volFromName sample_lib E "buse"
                 (snd (SpecFromString E (docker.Name_ (docker.mkVolumeRequest "v1" ∅))))
                 mounted_world = Done (Ok mounted_volume) mounted_world)
    by (vm_compute; reflexivity).
  assert (H2 : docker.volFromName sample_lib E "buse"
                 (snd (SpecFromString E (docker.Name_ (docker.mkVolumeRequest "v1" ∅))))
                 restarted_world = Done (Ok sample_volume) restarted_world)
    by (vm_compute; reflexivity).
  destruct (path_and_get_agree sample_lib E "buse" (docker.mkVolumeRequest "v1" ∅)
              mounted_volume mounted_world mounted_world H1) as [_ A].
  destruct (path_and_get_agree sample_lib E "buse" (docker.mkVolumeRequest "v1" ∅)
              sample_volume restarted_world restarted_world H2) as [B _].
  split.
  - apply (A "/mnt/db" []). reflexivity.
  - apply B. reflexivity.
Defined.

(** ** Further properties of the native volume API server *)

(** The combined set request runs its steps in order and stops at the first
    failure.  When Set fails the action is not run.  When the attach or
    detach of the action fails the mount is not attempted.  A mount with an
    empty mount path is refused without a call of the driver's Mount, but
    only after the attach of the same request was done. *)
Theorem volumeSet_stops_at_first_failure {S} (d : VolumeDriver S) (volumeID : string)
    (e : error) (s s1 : S) :
  (forall req,
     (sLocator_or_sSpec_given req = true) ->
     vd_Set d volumeID (volapi.sLocator req) (volapi.sSpec req) s = Done (Some e) s1 ->
     volapi.volumeSet_steps d volumeID req s = Done (Some e) s1)
  /\ (forall p mnt path,
        vd_Attach d volumeID s = Done (p, Some e) s1 ->
        volapi.volumeSet_action d volumeID
          (volapi.mkAction volapi.VolumeActionParam_VOLUME_ACTION_PARAM_ON mnt path) s
        = Done (Some e) s1)
  /\ (forall mnt path,
        vd_Detach d volumeID s = Done (Some e) s1 ->
        volapi.volumeSet_action d volumeID
          (volapi.mkAction volapi.VolumeActionParam_VOLUME_ACTION_PARAM_OFF mnt path) s
        = Done (Some e) s1)
  /\ (forall p,
        vd_Attach d volumeID s = Done (p, None) s1 ->
        volapi.volumeSet_action d volumeID
          (volapi.mkAction volapi.VolumeActionParam_VOLUME_ACTION_PARAM_ON
             volapi.VolumeActionParam_VOLUME_ACTION_PARAM_ON "") s
        = Done (Some (Errorf "Invalid mount path" [])) s1).
Proof.
  repeat split.
  - intros req Hg Hs. unfold volapi.volumeSet_steps, bind.
    unfold sLocator_or_sSpec_given in Hg.
    destruct (volapi.sLocator req), (volapi.sSpec req); try discriminate Hg;
      rewrite Hs; reflexivity.
  - intros p mnt path Ha. unfold volapi.volumeSet_action, bind. cbn. unfold bind.
    rewrite Ha. reflexivity.
  - intros mnt path Hd. unfold volapi.volumeSet_action, bind. cbn. rewrite Hd. reflexivity.
  - intros p Ha. unfold volapi.volumeSet_action, bind. cbn. unfold bind.
    rewrite Ha. reflexivity.
Qed.

Lemma volumeSet_stops_at_first_failure_witness :
  let d := buse_driver sample_lib sample_ext in
  vd_Attach d "v1" restarted_world
  = Done ("/var/lib/openstorage/buse/v1", None) restarted_world
  /\ volapi.volumeSet_action d "v1"
       (volapi.mkAction volapi.VolumeActionParam_VOLUME_ACTION_PARAM_ON
          volapi.VolumeActionParam_VOLUME_ACTION_PARAM_ON "") restarted_world
     = Done (Some (Errorf "Invalid mount path" [])) restarted_world.
Proof.
  intros d.
  assert (Ha : vd_Attach d "v1" restarted_world
               = Done ("/var/lib/openstorage/buse/v1", None) restarted_world)
    by (vm_compute; reflexivity).
  split; [exact Ha|].
  destruct (volumeSet_stops_at_first_failure d "v1" ErrNotSupported restarted_world
              restarted_world) as (_ & _ & _ & A).
  exact (A _ Ha).
Defined.

(** The cumulative flag of a stats request.  Without the parameter the
    driver is asked for cumulative statistics.  With it, its values are
    concatenated and parsed as a boolean, and a text that is not a boolean
    is not refused: the driver is asked with the flag off, as for
    "false". *)
Theorem stats_cumulative_flag {S} (L : GoLib) (E : ServerEnv S) (name : string)
    (d : VolumeDriver S) (r : volapi.Request) (volumeID : string) (s : S) :
  drivers_Get E name = Ok d ->
  volapi.parseVolumeID r = Ok volumeID ->
  let respond (cumulative : bool) : M S ResponseWriter :=
    (st <- vd_Stats d volumeID cumulative ;;
     match st with
     | (_, Some err) =>
         ret (sendError (err_text L (Errorf "Failed to get stats: %s"
                                       [AString (err_text L err)]))
                StatusBadRequest new_writer)
     | (st, None) => ret (Encode (JStats st) new_writer)
     end) in
  (volapi.query r !! OptCumulative E = None ->
   volapi.stats L E name new_writer r s = respond true s)
  /\ (forall opt,
        volapi.query r !! OptCumulative E = Some opt ->
        snd (volapi.ParseBool (volapi.Join opt)) <> None ->
        volapi.stats L E name new_writer r s = respond false s)
  /\ (forall opt b,
        volapi.query r !! OptCumulative E = Some opt ->
        volapi.ParseBool (volapi.Join opt) = (b, None) ->
        volapi.stats L E name new_writer r s = respond b s).
Proof.
  intros Hd Hp respond. unfold volapi.stats. rewrite Hp, Hd. repeat split.
  - intros ->. reflexivity.
  - intros opt -> Hbad. unfold volapi.ParseBool in *.
    destruct (bool_decide (volapi.Join opt ∈ ["1"; "t"; "T"; "TRUE"; "true"; "True"]));
      [contradiction Hbad; reflexivity|].
    destruct (bool_decide (volapi.Join opt ∈ ["0"; "f"; "F"; "FALSE"; "false"; "False"]));
      [contradiction Hbad; reflexivity|].
    reflexivity.
  - intros opt b -> Hb. rewrite Hb. reflexivity.
Qed.

Lemma stats_cumulative_flag_witness :
  let d := buse_driver sample_lib sample_ext in
  let r := volapi.mkRequest {[ "id" := "v1" ]} {[ "Cumulative" := ["maybe"] ]} in
  volapi.ParseBool (volapi.Join ["maybe"]) = (false, Some (ExtError "invalid syntax"))
  /\ volapi.stats sample_lib (sample_server d) "buse" new_writer r restarted_world
     = volapi.stats sample_lib (sample_server d) "buse" new_writer
         (volapi.mkRequest {[ "id" := "v1" ]} {[ "Cumulative" := ["false"] ]})
         restarted_world.
Proof.
  intros d r.
  assert (Hp : volapi.ParseBool (volapi.Join ["maybe"])
               = (false, Some (ExtError "invalid syntax")))
    by (vm_compute; reflexivity).
  split; [exact Hp|].
  assert (Hd : drivers_Get (sample_server d) "buse" = Ok d) by reflexivity.
  assert (Hid : volapi.parseVolumeID r = Ok "v1") by (vm_compute; reflexivity).
  assert (Hq : volapi.query r !! OptCumulative (sample_server d) = Some ["maybe"])
    by (vm_compute; reflexivity).
  assert (Hbad : snd (volapi.ParseBool (volapi.Join ["maybe"])) <> None)
    by (rewrite Hp; discriminate).
  destruct (stats_cumulative_flag sample_lib (sample_server d) "buse" d r "v1"
              restarted_world Hd Hid) as (_ & A & _).
  rewrite (A ["maybe"] Hq Hbad).
  vm_compute. reflexivity.
Defined.

(** The identifiers of a snapshot listing.  The slice handed to the driver
    has as many entries as the query has parameters, not as many as there
    are identifiers: with fewer identifiers than parameters the driver is
    asked for the identifiers followed by empty ones, and with more
    identifiers than parameters the handler panics before it asks the
    driver. *)
Theorem snapEnumerate_ids_sized_by_query {S} (L : GoLib) (E : ServerEnv S) (name : string)
    (d : VolumeDriver S) (r : volapi.Request) (v : list string) (s : S) :
  drivers_Get E name = Ok d ->
  volapi.query r !! OptLabel E = None ->
  volapi.query r !! OptVolumeID E = Some v ->
  let respond (ids : list string) : M S ResponseWriter :=
    (i <- vd_SnapEnumerate d (Some ids) ∅ ;;
     match i with
     | (_, Some err) =>
         ret (sendError (err_text L (Errorf "Failed to enumerate snaps: %s"
                                       [AString (err_text L err)]))
                StatusBadRequest new_writer)
     | (snaps, None) => ret (Encode (JVolumeList snaps) new_writer)
     end) in
  ((List.length v <= size (volapi.query r))%nat ->
   volapi.snapEnumerate L E name new_writer r s
   = respond (v ++ replicate (size (volapi.query r) - List.length v) "")%list s)
  /\ ((size (volapi.query r) < List.length v)%nat ->
      volapi.snapEnumerate L E name new_writer r s = Panicked s).
Proof.
  intros Hd Hl Hv respond. unfold volapi.snapEnumerate, volapi.label_param.
  rewrite Hd, Hl, Hv. unfold volapi.snap_ids. split; intros Hn.
  - apply Nat.leb_le in Hn. rewrite Hn. reflexivity.
  - apply Nat.leb_gt in Hn. rewrite Hn. reflexivity.
Qed.

Lemma snapEnumerate_ids_sized_by_query_witness :
  let d := buse_driver sample_lib sample_ext in
  volapi.snapEnumerate sample_lib (sample_server d) "buse" new_writer
    (volapi.mkRequest ∅ {[ "VolumeID" := ["v1"; "v2"] ]}) restarted_world
  = Panicked restarted_world.
Proof.
  intros d.
  assert (Hq : volapi.query (volapi.mkRequest ∅ {[ "VolumeID" := ["v1"; "v2"] ]})
               !! OptVolumeID (sample_server d) = Some ["v1"; "v2"])
    by (vm_compute; reflexivity).
  assert (Hl : volapi.query (volapi.mkRequest ∅ {[ "VolumeID" := ["v1"; "v2"] ]})
               !! OptLabel (sample_server d) = None)
    by (vm_compute; reflexivity).
  assert (Hn : (size (volapi.query (volapi.mkRequest ∅ {[ "VolumeID" := ["v1"; "v2"] ]}))
                < List.length ["v1"; "v2"])%nat)
    by (vm_compute; lia).
  destruct (snapEnumerate_ids_sized_by_query sample_lib (sample_server d) "buse" d
              (volapi.mkRequest ∅ {[ "VolumeID" := ["v1"; "v2"] ]}) ["v1"; "v2"]
              restarted_world eq_refl Hl Hq) as [_ A].
  exact (A Hn).
Defined.

(** A label parameter that does not parse does not stop a listing.  The
    handler writes status 400 and the message, and goes on: the driver is
    asked with the labels the failed unmarshalling left in the map — none,
    or those stored before a type error —, and the list it answers is
    written after the message. *)
Theorem bad_labels_do_not_stop_the_listing {S} (L : GoLib) (E : ServerEnv S)
    (name : string) (d : VolumeDriver S) (r : volapi.Request) (v0 : string)
    (rest : list string) (m : gmap string string) (err : error) (vols : list Volume)
    (s s' : S) :
  drivers_Get E name = Ok d ->
  volapi.query r !! OptLabel E = Some (v0 :: rest) ->
  json_labels E v0 = (m, Some err) ->
  volapi.query r !! OptVolumeID E = None ->
  let msg := err_text L (Errorf "Failed to parse parse VolumeLabels: %s"
                           [AString (err_text L err)]) in
  (volapi.query r !! OptName E = None ->
   volapi.query r !! OptConfigLabel E = None ->
   vd_Enumerate d (Some (mkLocator "" m)) ∅ s = Done (vols, None) s' ->
   volapi.enumerate L E name new_writer r s
   = Done (mkRW (Some 400) [Text msg; JVolumeList vols]) s')
  /\ (vd_SnapEnumerate d None m s = Done (vols, None) s' ->
      volapi.snapEnumerate L E name new_writer r s
      = Done (mkRW (Some 400) [Text msg; JVolumeList vols]) s').
Proof.
  intros Hd Hl Hj Hv msg. split.
  - intros Hn Hc He. unfold volapi.enumerate. rewrite Hd, Hn, Hv.
    unfold volapi.label_param. rewrite Hl, Hc. cbn. unfold bind, ret. cbn.
    rewrite Hj. cbn. rewrite He. reflexivity.
  - intros He. unfold volapi.snapEnumerate. rewrite Hd, Hv.
    unfold volapi.label_param. rewrite Hl. cbn. unfold bind, ret. cbn.
    rewrite Hj. cbn. rewrite He. reflexivity.
Qed.

(** A label with a number for its value: the listing is answered with
    status 400, and the driver was asked for the volumes that carry the
    label with the empty text, of which there is none. *)
Lemma bad_labels_do_not_stop_the_listing_witness :
  let d := buse_driver sample_lib sample_ext in
  vd_Enumerate d (Some (mkLocator "" ∅)) ∅ restarted_world
  = Done ([sample_volume], None) restarted_world
  /\ volapi.enumerate sample_lib (strict_server d) "buse" new_writer
       (volapi.mkRequest ∅ {[ "Label" := [number_label] ]}) restarted_world
     = Done (mkRW (Some 400) [Text "Failed to parse parse VolumeLabels: %s"; JVolumeList []])
         restarted_world.
Proof.
  intros d. split; [vm_compute; reflexivity|].
  pose (r := volapi.mkRequest ∅ {[ "Label" := [number_label] ]}).
  assert (Hl : volapi.query r !! OptLabel (strict_server d) = Some [number_label])
    by (vm_compute; reflexivity).
  assert (Hj : json_labels (strict_server d) number_label
               = ({[ "a" := "" ]},
                  Some (ExtError "json: cannot unmarshal number into Go value")))
    by (vm_compute; reflexivity).
  assert (Hv : volapi.query r !! OptVolumeID (strict_server d) = None)
    by (vm_compute; reflexivity).
  assert (Hn : volapi.query r !! OptName (strict_server d) = None)
    by (vm_compute; reflexivity).
  assert (Hc : volapi.query r !! OptConfigLabel (strict_server d) = None)
    by (vm_compute; reflexivity).
  assert (He : vd_Enumerate d (Some (mkLocator "" {[ "a" := "" ]})) ∅ restarted_world
               = Done ([], None) restarted_world)
    by (vm_compute; reflexivity).
  destruct (bad_labels_do_not_stop_the_listing sample_lib (strict_server d) "buse" d r
              number_label [] {[ "a" := "" ]}
              (ExtError "json: cannot unmarshal number into Go value") []
              restarted_world restarted_world eq_refl Hl Hj Hv) as [A _].
  exact (A Hn Hc He).
Defined.

(** ** Properties of the database backend *)

(** The first client is the only one.  Once getClient has returned a
    client, every later call returns that same client whatever driver and
    DSN it names, and neither opens a connection nor changes the state. *)
Theorem getClient_keeps_first_client {SqlDB Client : Type}
    (sql_Open : string -> string -> db.State Client -> option SqlDB * option db.db_error)
    (rdbms_NewClient : string -> option SqlDB -> db.State Client
                       -> option Client * option db.db_error)
    (driverName dsn : string) (c : Client) (s s1 : db.State Client) :
  db.getClient sql_Open rdbms_NewClient driverName dsn s = Done (Some c, None) s1 ->
  forall driverName' dsn' : string,
    db.getClient sql_Open rdbms_NewClient driverName' dsn' s1 = Done (Some c, None) s1.
Proof.
  intros H driverName' dsn'.
  assert (Hc : db.client s1 = Some c).
  { unfold db.getClient, db.called, bind, gets, modify, ret in H.
    destruct (db.client s) as [c0|] eqn:Hs.
    - inversion H; subst. exact Hs.
    - destruct (sql_Open driverName dsn s) as [conn [e|]]; [discriminate H|].
      cbn in H.
      destruct (rdbms_NewClient driverName conn _) as [cl [e|]]; [discriminate H|].
      cbn in H. inversion H; subst. reflexivity. }
  unfold db.getClient, bind, gets, ret. rewrite Hc. reflexivity.
Qed.

Lemma getClient_keeps_first_client_witness :
  db.getClient sample_sql_Open sample_NewClient "postgres" "other-dsn"
    (db.mkState (Some "dsn-1") [db.SqlOpen "mysql" "dsn-1"; db.RdbmsNewClient "mysql"])
  = Done (Some "dsn-1", None)
      (db.mkState (Some "dsn-1") [db.SqlOpen "mysql" "dsn-1"; db.RdbmsNewClient "mysql"]).
Proof.
  apply (getClient_keeps_first_client sample_sql_Open sample_NewClient "mysql" "dsn-1"
           "dsn-1" (db.mkState None [])).
  vm_compute. reflexivity.
Defined.

(** A failure is not kept.  When no client is cached and getClient fails,
    it returns no client and caches none, so the next call tries again.  A
    connection that cannot be opened is reported wrapped with the driver's
    name, and no client is asked for on it. *)
Theorem getClient_failure_is_not_cached {SqlDB Client : Type}
    (sql_Open : string -> string -> db.State Client -> option SqlDB * option db.db_error)
    (rdbms_NewClient : string -> option SqlDB -> db.State Client
                       -> option Client * option db.db_error)
    (driverName dsn : string) (r : option Client) (e : db.db_error)
    (s s1 : db.State Client) :
  db.client s = None ->
  db.getClient sql_Open rdbms_NewClient driverName dsn s = Done (r, Some e) s1 ->
  r = None /\ db.client s1 = None
  /\ (forall cause, snd (sql_Open driverName dsn s) = Some cause ->
        e = db.Wrapf cause "Failed to create DB(%s) connection" [driverName]
        /\ db.calls s1 = (db.calls s ++ [db.SqlOpen driverName dsn])%list).
Proof.
  intros Hs H.
  unfold db.getClient, db.called, bind, gets, modify, ret in H. rewrite Hs in H.
  destruct (sql_Open driverName dsn s) as [conn [e0|]].
  - inversion H; subst. cbn. split; [reflexivity|]. split; [assumption|].
    intros cause Hc. inversion Hc; subst. split; reflexivity.
  - cbn in H. destruct (rdbms_NewClient driverName conn _) as [cl [e1|]].
    + inversion H; subst. cbn. split; [reflexivity|]. split; [assumption|].
      intros cause Hc. discriminate Hc.
    + discriminate H.
Qed.

Lemma getClient_failure_is_not_cached_witness :
  db.client (final (db.getClient sample_sql_Open sample_NewClient "mysql" ""
                      (db.mkState None []))) = None.
Proof.
  pose (s1 := db.mkState (Client := string) None [db.SqlOpen "mysql" ""]).
  assert (H : db.getClient sample_sql_Open sample_NewClient "mysql" "" (db.mkState None [])
              = Done (None, Some (db.Wrapf (db.DriverError "missing dsn")
                                    "Failed to create DB(%s) connection" ["mysql"])) s1)
    by (vm_compute; reflexivity).
  destruct (getClient_failure_is_not_cached sample_sql_Open sample_NewClient "mysql" ""
              None _ (db.mkState None []) s1 eq_refl H) as (_ & A & _).
  rewrite H. exact A.
Defined.

(** NewRDBMSStorage wants exactly two servers, the driver's name and the
    DSN: any other list is refused with ErrNoDSN before the database is
    touched.  With two servers and a client already cached, the storage is
    built on the cached client whatever the two servers are, with the
    identity transformer when the configuration has none, and nothing is
    opened. *)
Theorem NewRDBMSStorage_servers {SqlDB Client Codec Transformer Storage : Type}
    (sql_Open : string -> string -> db.State Client -> option SqlDB * option db.db_error)
    (rdbms_NewClient : string -> option SqlDB -> db.State Client
                       -> option Client * option db.db_error)
    (kv_New : option Client -> Codec -> string -> Transformer -> Storage)
    (identity_transformer : Transformer)
    (c : db.Config Codec Transformer) (s : db.State Client) :
  let new := db.NewRDBMSStorage sql_Open rdbms_NewClient kv_New identity_transformer in
  (List.length (db.ServerList c) <> 2%nat ->
   new c s = Done (None, None, Some db.ErrNoDSN) s)
  /\ (forall cl : Client,
        List.length (db.ServerList c) = 2%nat ->
        db.client s = Some cl ->
        new c s
        = Done (Some (kv_New (Some cl) (db.Codec_ c) (db.Prefix c)
                        (default identity_transformer (db.Transformer_ c))),
                Some db.destroy, None) s).
Proof.
  intros new. unfold new, db.NewRDBMSStorage. split.
  - intros Hn. destruct (db.ServerList c) as [|a [|b [|x l]]]; try reflexivity.
    contradiction Hn. reflexivity.
  - intros cl Hn Hc. destruct (db.ServerList c) as [|a [|b [|x l]]]; try discriminate Hn.
    unfold db.getClient, bind, gets, ret. rewrite Hc.
    destruct (db.Transformer_ c); reflexivity.
Qed.

Lemma NewRDBMSStorage_servers_witness :
  db.NewRDBMSStorage sample_sql_Open sample_NewClient sample_kv_New "identity"
    (db.mkConfig ["mysql"] None tt "/registry") (db.mkState None [])
  = Done (None, None, Some db.ErrNoDSN) (db.mkState None [])
  /\ db.NewRDBMSStorage sample_sql_Open sample_NewClient sample_kv_New "identity"
       (sample_config "other-dsn") (db.mkState (Some "dsn-1") [])
     = Done (Some (Some "dsn-1", "/registry", "identity"), Some db.destroy, None)
         (db.mkState (Some "dsn-1") []).
Proof.
  split.
  - destruct (NewRDBMSStorage_servers sample_sql_Open sample_NewClient sample_kv_New
                "identity" (db.mkConfig ["mysql"] None tt "/registry")
                (db.mkState None [])) as [A _].
    apply A. vm_compute. lia.
  - destruct (NewRDBMSStorage_servers sample_sql_Open sample_NewClient sample_kv_New
                "identity" (sample_config "other-dsn")
                (db.mkState (Some "dsn-1") [])) as [_ A].
    apply (A "dsn-1"); reflexivity.
Defined.
